(** * The Kafka request lifecycle service (package [services])

    A shallow embedding of the [kafkaService] of the fleet manager: the
    admission path ([RegisterKafkaJob]), preparation
    ([PrepareKafkaRequest]), the status guard ([UpdateStatus]), the
    deprovision and deletion paths, and the Route53 CNAME batch builder.

    The relational store, the quota authority, the identity provider, the
    cluster service and the DNS authority are collaborators of the service.
    The store is a table keyed by primary key inside a [World]; every call
    to a collaborator is recorded in the world's trace, so that "no side
    effect happened" is a statement about that trace. *)

From Stdlib Require Import ZArith String Ascii List DecimalString Lia.
From stdpp Require Import base option list gmap strings fin_maps.

Local Open Scope string_scope.
Local Open Scope Z_scope.
Local Open Scope list_scope.

(** ** Go values *)

(** A Go [error] value of a collaborator.  [ErrRecordNotFound] is the one
    error the service tells apart from the others (in [handleGetError]). *)
Inductive error : Type :=
| ErrRecordNotFound
| ErrMissingWhereClause
| Err (msg : string).

Definition error_Error (e : error) : string :=
  match e with
  | ErrRecordNotFound => "record not found"
  | ErrMissingWhereClause => "missing WHERE clause while deleting"
  | Err msg => msg
  end.

(** [int64] and the 64-bit [int]: a value of [Z] wrapped into
    [-2^63 .. 2^63-1] after each arithmetic operation. *)
Definition int64_min : Z := - 2 ^ 63.
Definition int64_max : Z := 2 ^ 63 - 1.

Definition wrap64 (z : Z) : Z := (z + 2 ^ 63) mod 2 ^ 64 - 2 ^ 63.

Definition mul64 (a b : Z) : Z := wrap64 (a * b).

Definition in_int64 (z : Z) : Prop := int64_min <= z <= int64_max.

(** [fmt.Sprintf("%d", i)] *)
Definition sprint_d (i : Z) : string := NilZero.string_of_int (Z.to_int i).

(** [strings.Index(s, sub)]: the offset of the first occurrence of [sub]
    in [s], [None] for Go's -1. *)
Fixpoint strings_Index (s sub : string) : option nat :=
  if String.prefix sub s then Some 0%nat
  else match s with
       | EmptyString => None
       | String _ rest => S <$> strings_Index rest sub
       end.

(** [strings.Replace(s, old, new, 1)]: the first occurrence of [old] is
    replaced, and a string without one is returned as it is.  An empty
    [old] matches at the start of [s]. *)
Definition strings_Replace1 (s old new : string) : string :=
  match strings_Index s old with
  | None => s
  | Some i =>
      String.substring 0 i s +:+ new
        +:+ String.substring (i + String.length old)
                             (String.length s - (i + String.length old)) s
  end.

(** ** package errors *)

(** Modelled from the spec: the [errors] package is not among the sources.
    One code per error kind that the service constructs (section 7 of the
    specification: Validation, Unauthenticated, not-found, capacity
    exhausted, insufficient quota, external provisioning failure, general). *)
Inductive ErrorCode : Type :=
| ErrorGeneral
| ErrorValidation
| ErrorUnauthenticated
| ErrorNotFound
| ErrorTooManyKafkaInstancesReached
| ErrorInsufficientQuota
| ErrorFailedToCheckQuota
| ErrorFailedToCreateSSOClient.

Record ServiceError : Type := mkServiceError {
  Code : ErrorCode;
  Reason : string;
  cause : option string
}.

Module errors.
Definition New (code : ErrorCode) (reason : string) : ServiceError :=
  mkServiceError code reason None.
Definition NewWithCause (code : ErrorCode) (err : string) (reason : string)
  : ServiceError :=
  mkServiceError code reason (Some err).
Definition GeneralError := New ErrorGeneral.
Definition Validation := New ErrorValidation.
Definition Unauthenticated := New ErrorUnauthenticated.
Definition NotFound := New ErrorNotFound.
Definition TooManyKafkaInstancesReached := New ErrorTooManyKafkaInstancesReached.
Definition InsufficientQuotaError := New ErrorInsufficientQuota.
Definition FailedToCreateSSOClient := New ErrorFailedToCreateSSOClient.
End errors.

(** The text of a [*errors.ServiceError] when it is passed on as a cause. *)
Definition ServiceError_Error (e : ServiceError) : string := Reason e.

(** ** package constants *)

(** Modelled from the spec: the [constants] package is not among the
    sources.  [KafkaStatus] is a string type; its six values are the
    states of section 4.5. *)
Module constants.
Definition KafkaStatus : Type := string.
Definition KafkaStatus_String (s : KafkaStatus) : string := s.

Definition KafkaRequestStatusAccepted : KafkaStatus := "accepted".
Definition KafkaRequestStatusProvisioning : KafkaStatus := "provisioning".
Definition KafkaRequestStatusReady : KafkaStatus := "ready".
Definition KafkaRequestStatusFailed : KafkaStatus := "failed".
Definition KafkaRequestStatusDeprovision : KafkaStatus := "deprovision".
Definition KafkaRequestStatusDeleting : KafkaStatus := "deleting".

Inductive KafkaOperation : Type :=
| KafkaOperationCreate
| KafkaOperationDelete
| KafkaOperationDeprovision.
End constants.
Import constants.

(** ** package api: the Kafka request record *)

(** Instants are nanoseconds counted from Go's zero [time.Time], so that
    the zero value of a timestamp field is [0]. *)
Definition Time : Type := Z.
Definition Duration : Type := Z.
Definition time_Hour : Duration := 3600000000000.

(** [t.Add(d)]: instants range far beyond what a [Duration] can shift. *)
Definition Time_Add (t : Time) (d : Duration) : Time := t + d.

(** [time.Since(t)] at instant [now]; the difference saturates. *)
Definition time_Since (now t : Time) : Duration :=
  Z.max int64_min (Z.min int64_max (now - t)).

(** Modelled from the spec: the declaration of [api.KafkaRequest] is not
    among the sources; the fields are those the service reads or writes, out
    of the identity, provisioning and lifecycle fields of section 3. *)
Record KafkaRequest : Type := mkKafkaRequest {
  ID : string;
  CreatedAt : Time;
  UpdatedAt : Time;
  DeletedAt : option Time;
  Region : string;
  ClusterID : string;
  Name : string;
  Status : string;
  Owner : string;
  OrganisationId : string;
  BootstrapServerHost : string;
  Version : string;
  SsoClientID : string;
  SsoClientSecret : string;
  PlacementId : string
}.

Definition set_ID (v : string) (r : KafkaRequest) : KafkaRequest :=
  mkKafkaRequest v (CreatedAt r) (UpdatedAt r) (DeletedAt r) (Region r)
    (ClusterID r) (Name r) (Status r) (Owner r) (OrganisationId r)
    (BootstrapServerHost r) (Version r) (SsoClientID r) (SsoClientSecret r)
    (PlacementId r).

Definition set_CreatedAt (v : Time) (r : KafkaRequest) : KafkaRequest :=
  mkKafkaRequest (ID r) v (UpdatedAt r) (DeletedAt r) (Region r)
    (ClusterID r) (Name r) (Status r) (Owner r) (OrganisationId r)
    (BootstrapServerHost r) (Version r) (SsoClientID r) (SsoClientSecret r)
    (PlacementId r).

Definition set_UpdatedAt (v : Time) (r : KafkaRequest) : KafkaRequest :=
  mkKafkaRequest (ID r) (CreatedAt r) v (DeletedAt r) (Region r)
    (ClusterID r) (Name r) (Status r) (Owner r) (OrganisationId r)
    (BootstrapServerHost r) (Version r) (SsoClientID r) (SsoClientSecret r)
    (PlacementId r).

Definition set_DeletedAt (v : option Time) (r : KafkaRequest) : KafkaRequest :=
  mkKafkaRequest (ID r) (CreatedAt r) (UpdatedAt r) v (Region r)
    (ClusterID r) (Name r) (Status r) (Owner r) (OrganisationId r)
    (BootstrapServerHost r) (Version r) (SsoClientID r) (SsoClientSecret r)
    (PlacementId r).

Definition set_Status (v : string) (r : KafkaRequest) : KafkaRequest :=
  mkKafkaRequest (ID r) (CreatedAt r) (UpdatedAt r) (DeletedAt r) (Region r)
    (ClusterID r) (Name r) v (Owner r) (OrganisationId r)
    (BootstrapServerHost r) (Version r) (SsoClientID r) (SsoClientSecret r)
    (PlacementId r).

Definition set_BootstrapServerHost (v : string) (r : KafkaRequest) : KafkaRequest :=
  mkKafkaRequest (ID r) (CreatedAt r) (UpdatedAt r) (DeletedAt r) (Region r)
    (ClusterID r) (Name r) (Status r) (Owner r) (OrganisationId r)
    v (Version r) (SsoClientID r) (SsoClientSecret r) (PlacementId r).

Definition set_Version (v : string) (r : KafkaRequest) : KafkaRequest :=
  mkKafkaRequest (ID r) (CreatedAt r) (UpdatedAt r) (DeletedAt r) (Region r)
    (ClusterID r) (Name r) (Status r) (Owner r) (OrganisationId r)
    (BootstrapServerHost r) v (SsoClientID r) (SsoClientSecret r)
    (PlacementId r).

Definition set_SsoClientID (v : string) (r : KafkaRequest) : KafkaRequest :=
  mkKafkaRequest (ID r) (CreatedAt r) (UpdatedAt r) (DeletedAt r) (Region r)
    (ClusterID r) (Name r) (Status r) (Owner r) (OrganisationId r)
    (BootstrapServerHost r) (Version r) v (SsoClientSecret r) (PlacementId r).

Definition set_SsoClientSecret (v : string) (r : KafkaRequest) : KafkaRequest :=
  mkKafkaRequest (ID r) (CreatedAt r) (UpdatedAt r) (DeletedAt r) (Region r)
    (ClusterID r) (Name r) (Status r) (Owner r) (OrganisationId r)
    (BootstrapServerHost r) (Version r) (SsoClientID r) v (PlacementId r).

(** The zero value [api.KafkaRequest{}]. *)
Definition KafkaRequest_zero : KafkaRequest :=
  mkKafkaRequest "" 0 0 None "" "" "" "" "" "" "" "" "" "" "".

(** ** package route53: change batches *)

Record ResourceRecord : Type := mkResourceRecord { Value : string }.

Record ResourceRecordSet : Type := mkResourceRecordSet {
  rrs_Name : string;
  rrs_Type : string;
  rrs_TTL : Z;
  ResourceRecords : list ResourceRecord
}.

Record Change : Type := mkChange {
  Action : string;
  ResourceRecordSet_of : ResourceRecordSet
}.

Record ChangeBatch : Type := mkChangeBatch { Changes : list Change }.

(** ** Configuration *)

(** Modelled from the spec: package [config] is not among the sources;
    the settings are those the service consults. *)
Record KafkaConfig : Type := mkKafkaConfig {
  MaxCapacity : Z;                      (* KafkaCapacity.MaxCapacity, int64 *)
  EnableQuotaService : bool;
  DefaultKafkaVersion : string;
  EnableKafkaExternalCertificate : bool;
  KafkaDomainName : string;
  NumOfBrokers : Z;                     (* int *)
  LongLivedKafkas : list string         (* KafkaLifespan.LongLivedKafkas *)
}.

Record KeycloakConfig : Type := mkKeycloakConfig {
  EnableAuthenticationOnKafka : bool
}.

Record AWSConfig : Type := mkAWSConfig {
  Route53AccessKey : string;
  Route53SecretAccessKey : string
}.

(** ** The CNAME record batch *)

Definition buildResourceRecordChange (recordName clusterIngress action : string)
  : Change :=
  let recordType := "CNAME" in
  let recordTTL := 300 in
  mkChange action
    (mkResourceRecordSet recordName recordType recordTTL
       [mkResourceRecord clusterIngress]).

(** The loop [for i := 0; i < n; i++] of the batch builder, entered with
    counter [i] and [fuel] iterations left to run. *)
Fixpoint broker_changes (fuel : nat) (i : Z)
    (recordName clusterIngress action : string) : list Change :=
  match fuel with
  | O => []
  | S fuel' =>
      buildResourceRecordChange
        ("broker-" +:+ sprint_d i +:+ "-" +:+ recordName) clusterIngress action
      :: broker_changes fuel' (i + 1) recordName clusterIngress action
  end.

Definition buildKafkaClusterCNAMESRecordBatch
    (recordName clusterIngress action : string) (kafkaConfig : KafkaConfig)
  : ChangeBatch :=
  let clusterIngress := "elb." +:+ clusterIngress in
  mkChangeBatch
    ([ buildResourceRecordChange recordName clusterIngress action;
       buildResourceRecordChange ("admin-server-" +:+ recordName)
         clusterIngress action ]
     ++ broker_changes (Z.to_nat (NumOfBrokers kafkaConfig)) 0
          recordName clusterIngress action).

(** ** The world outside the service *)

(** The statements the service sends to the relational store. *)
Inductive Statement : Type :=
| StCount
| StFirst (id : string)
| StSave (r : KafkaRequest)
| StUpdates (model values : KafkaRequest)
| StUpdateStatus (model : KafkaRequest) (status : KafkaStatus)
| StDelete (r : KafkaRequest).

(** Every call that leaves the process is recorded, in the order made. *)
Inductive Event : Type :=
| EvStatement (s : Statement)
| EvReserveQuota (productID clusterID reservationID owner : string)
                 (reserve : bool) (availability : string)
| EvGetClusterDNS (clusterID : string)
| EvRegisterKafkaClientInSSO (clientId orgId : string)
| EvDeRegisterClientInSSO (clientId : string)
| EvChangeResourceRecordSets (zone : string) (batch : ChangeBatch)
| EvTotalOperationsCount (op : KafkaOperation)
| EvSuccessOperationsCount (op : KafkaOperation)
| EvStatusSinceCreated (status : KafkaStatus) (id clusterID : string)
                       (elapsed : Duration).

(** The relational store holds the [kafka_requests] table keyed by its
    primary key.  [db_faults] tells, statement by statement, whether the
    next statement sent to the store fails (a missing entry is a healthy
    store).  [clock] is what [time.Now()] reads; it belongs to the
    environment, stands still while one call of the service runs and moves
    on between calls ([elapse]).  [uuids] counts the UUIDs drawn so
    far. *)
Record World : Type := mkWorld {
  kafka_requests : gmap string KafkaRequest;
  db_faults : list bool;
  clock : Time;
  uuids : nat;
  trace : list Event
}.

Definition M (A : Type) : Type := World -> A * World.

Definition ret {A : Type} (a : A) : M A := fun w => (a, w).

Definition bind {A B : Type} (m : M A) (f : A -> M B) : M B :=
  fun w => let (a, w') := m w in f a w'.

Declare Scope svc_scope.
Delimit Scope svc_scope with svc.
Notation "'let*' x := c 'in' k" := (bind c (fun x => k))
  (at level 10, x pattern, c at level 100, k at level 200) : svc_scope.
Notation "c ;;; k" := (bind c (fun _ => k))
  (at level 100, right associativity) : svc_scope.
Local Open Scope svc_scope.

Definition emit (e : Event) : M unit :=
  fun w => (tt, mkWorld (kafka_requests w) (db_faults w) (clock w) (uuids w)
                        (trace w ++ [e])).

(** [time.Now()] within the running call. *)
Definition time_Now : M Time := fun w => (clock w, w).

(** Time passes between two calls of the service: the clock has moved on
    by [d] when the next call starts. *)
Definition elapse (d : Duration) (w : World) : World :=
  mkWorld (kafka_requests w) (db_faults w) (Time_Add (clock w) d) (uuids w)
          (trace w).

Definition get_table : M (gmap string KafkaRequest) :=
  fun w => (kafka_requests w, w).

Definition put_table (t : gmap string KafkaRequest) : M unit :=
  fun w => (tt, mkWorld t (db_faults w) (clock w) (uuids w) (trace w)).

(** Whether the [n]-th next statement sent to the store fails. *)
Definition fault_at (n : nat) (w : World) : bool := nth n (db_faults w) false.

(** The world after one statement [s] has been sent to the store. *)
Definition sent (s : Statement) (w : World) : World :=
  mkWorld (kafka_requests w) (tail (db_faults w)) (clock w) (uuids w)
          (trace w ++ [EvStatement s]).

(** One statement is sent to the store; the answer is the store's error,
    if it fails this time. *)
Definition db_statement (s : Statement) : M (option error) :=
  fun w =>
    ((if fault_at 0 w then Some (Err "store failure") else None), sent s w).

(** ** The object-relational layer, as the service uses it *)

(** The service reaches the table through an object-relational mapper.
    Of its behaviour the model keeps what the service relies on: every
    statement may fail with the store's error and then changes nothing;
    rows with a [deleted_at] stamp are hidden from counts and fetches,
    while an update reaches every row that its conditions select;
    [Delete] is a soft delete of a row that is not yet deleted; [Updates]
    with a record writes its non-zero fields only; [Update] and [Updates]
    stamp [updated_at]. *)

Definition is_live (r : KafkaRequest) : bool :=
  match DeletedAt r with None => true | Some _ => false end.

(** The rows of [t] that a query sees: soft-deleted rows are hidden. *)
Definition live_rows (t : gmap string KafkaRequest) : gmap string KafkaRequest :=
  filter (fun kv => is_live kv.2 = true) t.

(** [Model(x)] restricts a statement to the primary key of [x] when [x]
    has one. *)
Definition pk_matches (id key : string) : bool :=
  bool_decide (id = "") || bool_decide (key = id).

(** [UPDATE ... WHERE sel]: the rows that [sel] selects are rewritten by
    [f], soft-deleted ones among them. *)
Definition update_where (sel : string -> KafkaRequest -> bool)
    (f : KafkaRequest -> KafkaRequest) (t : gmap string KafkaRequest)
  : gmap string KafkaRequest :=
  map_imap (fun key r => Some (if sel key r then f r else r)) t.

Definition rows_affected (sel : string -> KafkaRequest -> bool)
    (t : gmap string KafkaRequest) : Z :=
  Z.of_nat (size (filter (fun kv => sel kv.1 kv.2 = true) t)).

(** [Model(&api.KafkaRequest{}).Count(&count)] *)
Definition gorm_Count : M (Z * option error) :=
  let* err := db_statement (StCount) in
  match err with
  | Some e => ret (0, Some e)
  | None => let* t := get_table in ret (Z.of_nat (size (live_rows t)), None)
  end.

(** [Where("id = ?", id).Where(cond).First(&kafkaRequest)] *)
Definition gorm_First (id : string) (cond : KafkaRequest -> bool)
  : M (KafkaRequest * option error) :=
  let* err := db_statement (StFirst id) in
  match err with
  | Some e => ret (KafkaRequest_zero, Some e)
  | None =>
      let* t := get_table in
      match t !! id with
      | Some r =>
          if is_live r && cond r then ret (r, None)
          else ret (KafkaRequest_zero, Some ErrRecordNotFound)
      | None => ret (KafkaRequest_zero, Some ErrRecordNotFound)
      end
  end.

(** Modelled from the spec: the [api] package with the record's creation
    hook is not among the sources; a record without an id receives a new
    one, unique in the table ("id is immutable once assigned and
    unique"). *)
Definition NewID (t : gmap string KafkaRequest) : string :=
  fresh ({[ "" ]} ∪ dom t).

(** What a save writes for record [r].  A record without primary key is
    inserted: it gets its id from the creation hook and [created_at] is
    stamped when it is unset.  A record whose primary key is in the table
    overwrites that row with its fields as they are, [created_at]
    included.  A record whose primary key is not in the table is inserted
    under it.  [updated_at] is stamped in each case. *)
Definition with_defaults (t : gmap string KafkaRequest) (now : Time)
    (r : KafkaRequest) : KafkaRequest :=
  let created r := if CreatedAt r =? 0 then set_CreatedAt now r else r in
  if bool_decide (ID r = "") then
    set_UpdatedAt now (created (set_ID (NewID t) r))
  else
    match t !! ID r with
    | Some _ => set_UpdatedAt now r
    | None => set_UpdatedAt now (created r)
    end.

(** [Save(kafkaRequest)]: insert, or overwrite the row with the record's
    primary key. *)
Definition gorm_Save (r : KafkaRequest) : M (KafkaRequest * option error) :=
  let* err := db_statement (StSave r) in
  match err with
  | Some e => ret (r, Some e)
  | None =>
      let* t := get_table in
      let* now := time_Now in
      let r := with_defaults t now r in
      put_table (<[ID r := r]> t) ;;;
      ret (r, None)
  end.

(** [Updates(values)] with a struct writes its non-zero fields. *)
Definition nonzero (new old : string) : string :=
  if bool_decide (new = "") then old else new.

Definition assign_nonzero (values : KafkaRequest) (now : Time)
    (row : KafkaRequest) : KafkaRequest :=
  mkKafkaRequest (ID row)
    (if CreatedAt values =? 0 then CreatedAt row else CreatedAt values)
    now
    (match DeletedAt values with None => DeletedAt row | Some d => Some d end)
    (nonzero (Region values) (Region row))
    (nonzero (ClusterID values) (ClusterID row))
    (nonzero (Name values) (Name row))
    (nonzero (Status values) (Status row))
    (nonzero (Owner values) (Owner row))
    (nonzero (OrganisationId values) (OrganisationId row))
    (nonzero (BootstrapServerHost values) (BootstrapServerHost row))
    (nonzero (Version values) (Version row))
    (nonzero (SsoClientID values) (SsoClientID row))
    (nonzero (SsoClientSecret values) (SsoClientSecret row))
    (nonzero (PlacementId values) (PlacementId row)).

(** [Model(model).Where(cond).Updates(values)] *)
Definition gorm_Updates (model : KafkaRequest) (cond : KafkaRequest -> bool)
    (values : KafkaRequest) : M (Z * option error) :=
  let* err := db_statement (StUpdates model values) in
  match err with
  | Some e => ret (0, Some e)
  | None =>
      let* t := get_table in
      let* now := time_Now in
      let sel := fun key r => pk_matches (ID model) key && cond r in
      put_table (update_where sel (assign_nonzero values now) t) ;;;
      ret (rows_affected sel t, None)
  end.

(** [Model(model).Where(sel).Update("status", status)] *)
Definition gorm_Update_status (model : KafkaRequest)
    (cond : string -> KafkaRequest -> bool) (status : KafkaStatus)
  : M (Z * option error) :=
  let* err := db_statement (StUpdateStatus model status) in
  match err with
  | Some e => ret (0, Some e)
  | None =>
      let* t := get_table in
      let* now := time_Now in
      let sel := fun key r => pk_matches (ID model) key && cond key r in
      put_table
        (update_where sel (fun r => set_UpdatedAt now (set_Status status r)) t) ;;;
      ret (rows_affected sel t, None)
  end.

(** [Delete(kafkaRequest)]: the soft delete stamps [deleted_at] on the
    row of the record's primary key unless it carries a stamp already; a
    record without primary key is refused before any statement is
    sent. *)
Definition gorm_Delete (r : KafkaRequest) : M (option error) :=
  if bool_decide (ID r = "") then ret (Some ErrMissingWhereClause)
  else
    let* err := db_statement (StDelete r) in
    match err with
    | Some e => ret (Some e)
    | None =>
        let* t := get_table in
        let* now := time_Now in
        put_table
          (update_where (fun key row => bool_decide (key = ID r) && is_live row)
             (set_DeletedAt (Some now)) t) ;;;
        ret None
    end.

(** ** Collaborators of the service *)

(** A collaborator answers as a function of the arguments of the call;
    the service calls each of them at most once per operation. *)
Record QuotaService : Type := mkQuotaService {
  ReserveQuota :
    string -> string -> string -> string -> bool -> string ->
    bool * string * option ServiceError
}.

Record ClusterService : Type := mkClusterService {
  GetClusterDNS : string -> string * option ServiceError
}.

Record KeycloakService : Type := mkKeycloakService {
  GetConfig : KeycloakConfig;
  RegisterKafkaClientInSSO : string -> string -> string * option ServiceError;
  DeRegisterClientInSSO : string -> option ServiceError
}.

(** Modelled from the spec: package [auth] is not among the sources; a
    request context either carries the caller's identity (username,
    organisation id) or none, which is an error for the caller. *)
Record Claims : Type := mkClaims { username : string; org_id : string }.
Definition Context : Type := option Claims.

Definition GetClaimsFromContext (ctx : Context) : Claims * option error :=
  match ctx with
  | Some claims => (claims, None)
  | None => (mkClaims "" "", Some (Err "failed to get jwt token from context"))
  end.

Definition GetUsernameFromClaims (claims : Claims) : string := username claims.

(** What the service takes from other files of the repository and from
    libraries: two constants of package [constants], the host name helpers
    of package [services], UUID generation and the Route53 client. *)
Record Deps : Type := mkDeps {
  DefaultIngressDnsNamePrefix : string;
  ManagedKafkaIngressDnsNamePrefix : string;
  buildTruncateKafkaIdentifier : KafkaRequest -> string;
  replaceHostSpecialChar : string -> string * option error;
  BuildKeycloakClientNameIdentifier : string -> string;
  uuid_New_String : nat -> string;
  aws_NewClient : AWSConfig -> string -> option error;
  aws_ChangeResourceRecordSets : string -> ChangeBatch -> option error
}.

Record kafkaService : Type := mkKafkaService {
  clusterService : ClusterService;
  keycloakService : KeycloakService;
  kafkaConfig : KafkaConfig;
  awsConfig : AWSConfig;
  quotaService : QuotaService
}.

Definition productId : string := "RHOSAKTrial".

Definition kafkaDeletionStatuses : list string :=
  [KafkaStatus_String KafkaRequestStatusDeleting;
   KafkaStatus_String KafkaRequestStatusDeprovision].

(** [status NOT IN (?)] *)
Definition not_in (x : string) (l : list string) : bool :=
  negb (bool_decide (x ∈ l)).

(** Modelled from the spec: [handleGetError] is in a file that is not among
    the sources; an absent or invisible record is reported as not found,
    any other failure as a general error that keeps the cause. *)
Definition handleGetError (resourceType field value : string) (err : error)
  : ServiceError :=
  match err with
  | ErrRecordNotFound =>
      errors.NotFound
        (resourceType +:+ " with " +:+ field +:+ "='" +:+ value +:+ "' not found")
  | _ =>
      errors.NewWithCause ErrorGeneral (error_Error err)
        ("Unable to find " +:+ resourceType +:+ " with " +:+ field
           +:+ "='" +:+ value +:+ "'")
  end.

(** ** The service *)

Section Service.

Variable deps : Deps.
Variable k : kafkaService.

Definition uuid_New : M string :=
  fun w => (uuid_New_String deps (uuids w),
            mkWorld (kafka_requests w) (db_faults w) (clock w) (S (uuids w))
                    (trace w)).

Definition HasAvailableCapacity : M (bool * option ServiceError) :=
  let* (count, err) := gorm_Count in
  match err with
  | Some e =>
      ret (false, Some (errors.NewWithCause ErrorGeneral (error_Error e)
                          "failed to count kafka request"))
  | None => ret (count <? MaxCapacity (kafkaConfig k), None)
  end.

(** The block guarded by [EnableQuotaService] in [RegisterKafkaJob]: the
    error it returns with, if any. *)
Definition reserveQuota (kafkaRequest : KafkaRequest) : M (option ServiceError) :=
  if EnableQuotaService (kafkaConfig k) then
    let* reservationID := uuid_New in
    emit (EvReserveQuota productId (ClusterID kafkaRequest) reservationID
            (Owner kafkaRequest) false "single") ;;;
    let '(isAllowed, _, err) :=
      ReserveQuota (quotaService k) productId (ClusterID kafkaRequest)
        reservationID (Owner kafkaRequest) false "single" in
    match err with
    | Some e =>
        ret (Some (errors.NewWithCause ErrorFailedToCheckQuota
                     (ServiceError_Error e) "failed to create kafka request"))
    | None =>
        if negb isAllowed
        then ret (Some (errors.InsufficientQuotaError "Insufficient Quota"))
        else ret None
    end
  else ret None.

(** The request is a pointer in the source: the record as the caller sees
    it after the call is returned next to the error. *)
Definition RegisterKafkaJob (kafkaRequest : KafkaRequest)
  : M (KafkaRequest * option ServiceError) :=
  let* (hasCapacity, err) := HasAvailableCapacity in
  match err with
  | Some e =>
      ret (kafkaRequest,
           Some (errors.NewWithCause ErrorGeneral (ServiceError_Error e)
                   "failed to create kafka request"))
  | None =>
  if negb hasCapacity then
    ret (kafkaRequest,
         Some (errors.TooManyKafkaInstancesReached "cluster capacity exhausted"))
  else
  let* quotaErr := reserveQuota kafkaRequest in
  match quotaErr with
  | Some e => ret (kafkaRequest, Some e)
  | None =>
  let kafkaRequest := set_Version (DefaultKafkaVersion (kafkaConfig k)) kafkaRequest in
  let kafkaRequest :=
    set_Status (KafkaStatus_String KafkaRequestStatusAccepted) kafkaRequest in
  let* (saved, err) := gorm_Save kafkaRequest in
  match err with
  | Some e =>
      ret (saved,
           Some (errors.NewWithCause ErrorGeneral (error_Error e)
                   "failed to create kafka request"))
  | None =>
      let* now := time_Now in
      emit (EvStatusSinceCreated KafkaRequestStatusAccepted (ID saved)
              (ClusterID saved) (time_Since now (CreatedAt saved))) ;;;
      ret (saved, None)
  end
  end
  end.

Definition ChangeKafkaCNAMErecords (kafkaRequest : KafkaRequest)
    (clusterDNS action : string) : M (option ServiceError) :=
  let domainRecordBatch :=
    buildKafkaClusterCNAMESRecordBatch (BootstrapServerHost kafkaRequest)
      clusterDNS action (kafkaConfig k) in
  match aws_NewClient deps (awsConfig k) (Region kafkaRequest) with
  | Some e =>
      ret (Some (errors.NewWithCause ErrorGeneral (error_Error e)
                   "Unable to create aws client"))
  | None =>
      emit (EvChangeResourceRecordSets (KafkaDomainName (kafkaConfig k))
              domainRecordBatch) ;;;
      match aws_ChangeResourceRecordSets deps (KafkaDomainName (kafkaConfig k))
              domainRecordBatch with
      | Some e =>
          ret (Some (errors.NewWithCause ErrorGeneral (error_Error e)
                       "Unable to create domain record sets"))
      | None => ret None
      end
  end.

Definition Update (kafkaRequest : KafkaRequest) : M (option ServiceError) :=
  let* (_, err) :=
    gorm_Updates kafkaRequest
      (fun r => not_in (Status r) kafkaDeletionStatuses) kafkaRequest in
  match err with
  | Some e =>
      ret (Some (errors.NewWithCause ErrorGeneral (error_Error e)
                   "Failed to update kafka"))
  | None => ret None
  end.

(** The record that preparation hands to [Update]: only the fields below
    are set, so only they are written. *)
Definition updatedKafkaRequest (kafkaRequest : KafkaRequest) : KafkaRequest :=
  set_Status (KafkaStatus_String KafkaRequestStatusProvisioning)
    (set_SsoClientSecret (SsoClientSecret kafkaRequest)
       (set_SsoClientID (SsoClientID kafkaRequest)
          (set_BootstrapServerHost (BootstrapServerHost kafkaRequest)
             (set_ID (ID kafkaRequest) KafkaRequest_zero)))).

Definition PrepareKafkaRequest (kafkaRequest : KafkaRequest)
  : M (KafkaRequest * option ServiceError) :=
  let truncatedKafkaIdentifier := buildTruncateKafkaIdentifier deps kafkaRequest in
  let '(truncatedKafkaIdentifier, replaceErr) :=
    replaceHostSpecialChar deps truncatedKafkaIdentifier in
  match replaceErr with
  | Some e =>
      ret (kafkaRequest,
           Some (errors.NewWithCause ErrorGeneral (error_Error e)
                   "generated host is not valid"))
  | None =>
  emit (EvGetClusterDNS (ClusterID kafkaRequest)) ;;;
  let '(clusterDNS, err) :=
    GetClusterDNS (clusterService k) (ClusterID kafkaRequest) in
  match err with
  | Some e =>
      ret (kafkaRequest,
           Some (errors.NewWithCause ErrorGeneral (ServiceError_Error e)
                   "error retrieving cluster DNS"))
  | None =>
  let clusterDNS :=
    strings_Replace1 clusterDNS (DefaultIngressDnsNamePrefix deps)
      (ManagedKafkaIngressDnsNamePrefix deps) in
  let kafkaRequest :=
    set_BootstrapServerHost (truncatedKafkaIdentifier +:+ "." +:+ clusterDNS)
      kafkaRequest in
  let* (kafkaRequest, err) :=
    (if EnableKafkaExternalCertificate (kafkaConfig k) then
       let kafkaRequest :=
         set_BootstrapServerHost
           (truncatedKafkaIdentifier +:+ "." +:+ KafkaDomainName (kafkaConfig k))
           kafkaRequest in
       let* err := ChangeKafkaCNAMErecords kafkaRequest clusterDNS "CREATE" in
       ret (kafkaRequest, err)
     else ret (kafkaRequest, None)) in
  match err with
  | Some e => ret (kafkaRequest, Some e)
  | None =>
  let* (kafkaRequest, err) :=
    (if EnableAuthenticationOnKafka (GetConfig (keycloakService k)) then
       let kafkaRequest :=
         set_SsoClientID (BuildKeycloakClientNameIdentifier deps (ID kafkaRequest))
           kafkaRequest in
       emit (EvRegisterKafkaClientInSSO (SsoClientID kafkaRequest)
               (OrganisationId kafkaRequest)) ;;;
       let '(secret, err) :=
         RegisterKafkaClientInSSO (keycloakService k) (SsoClientID kafkaRequest)
           (OrganisationId kafkaRequest) in
       let kafkaRequest := set_SsoClientSecret secret kafkaRequest in
       match err with
       | Some e =>
           ret (kafkaRequest,
                Some (errors.FailedToCreateSSOClient
                        ("failed to create sso client "
                           +:+ SsoClientID kafkaRequest +:+ ":"
                           +:+ ServiceError_Error e)))
       | None => ret (kafkaRequest, None)
       end
     else ret (kafkaRequest, None)) in
  match err with
  | Some e => ret (kafkaRequest, Some e)
  | None =>
  let* err := Update (updatedKafkaRequest kafkaRequest) in
  match err with
  | Some e =>
      ret (kafkaRequest,
           Some (errors.NewWithCause ErrorGeneral (ServiceError_Error e)
                   "failed to update kafka request"))
  | None => ret (kafkaRequest, None)
  end
  end
  end
  end
  end.

Definition GetById (id : string) : M (KafkaRequest * option ServiceError) :=
  if bool_decide (id = "") then
    ret (KafkaRequest_zero, Some (errors.Validation "id is undefined"))
  else
    let* (kafkaRequest, err) := gorm_First id (fun _ => true) in
    match err with
    | Some e =>
        ret (KafkaRequest_zero, Some (handleGetError "KafkaResource" "id" id e))
    | None => ret (kafkaRequest, None)
    end.

Definition UpdateStatus (id : string) (status : KafkaStatus)
  : M (bool * option ServiceError) :=
  let* (kafka, err) := GetById id in
  match err with
  | Some e =>
      ret (true,
           Some (errors.NewWithCause ErrorGeneral (ServiceError_Error e)
                   "failed to update status"))
  | None =>
      (* only allow to change the status to "deleting" if the cluster is
         already in "deprovision" status *)
      if bool_decide (Status kafka = KafkaStatus_String KafkaRequestStatusDeprovision)
         && negb (bool_decide (status = KafkaRequestStatusDeleting))
      then
        ret (false,
             Some (errors.GeneralError
                     "failed to update status: cluster is deprovisioning"))
      else if bool_decide (Status kafka = KafkaStatus_String status) then
        (* no update needed *)
        ret (false,
             Some (errors.GeneralError
                     ("failed to update status: the cluster " +:+ id
                        +:+ " is already in " +:+ KafkaStatus_String status
                        +:+ " state")))
      else
        let* (_, err) :=
          gorm_Update_status (set_ID id KafkaRequest_zero) (fun _ _ => true)
            status in
        match err with
        | Some e =>
            ret (true,
                 Some (errors.NewWithCause ErrorGeneral (error_Error e)
                         "Failed to update kafka status"))
        | None => ret (true, None)
        end
  end.

Definition RegisterKafkaDeprovisionJob (ctx : Context) (id : string)
  : M (option ServiceError) :=
  if bool_decide (id = "") then ret (Some (errors.Validation "id is undefined"))
  else
  (* filter kafka request by owner to only retrieve request of the current
     authenticated user *)
  let '(claims, err) := GetClaimsFromContext ctx in
  match err with
  | Some e =>
      ret (Some (errors.NewWithCause ErrorUnauthenticated (error_Error e)
                   "user not authenticated"))
  | None =>
  let user := GetUsernameFromClaims claims in
  let* (kafkaRequest, err) :=
    gorm_First id (fun r => bool_decide (Owner r = user)) in
  match err with
  | Some e => ret (Some (handleGetError "KafkaResource" "id" id e))
  | None =>
  emit (EvTotalOperationsCount KafkaOperationDeprovision) ;;;
  let deprovisionStatus := KafkaRequestStatusDeprovision in
  let* (executed, err) := UpdateStatus id deprovisionStatus in
  if executed : bool then
    match err with
    | Some e =>
        ret (Some (handleGetError "KafkaResource" "id" id
                     (Err (ServiceError_Error e))))
    | None =>
        emit (EvSuccessOperationsCount KafkaOperationDeprovision) ;;;
        let* now := time_Now in
        emit (EvStatusSinceCreated deprovisionStatus (ID kafkaRequest)
                (ClusterID kafkaRequest)
                (time_Since now (CreatedAt kafkaRequest))) ;;;
        ret None
    end
  else ret None
  end
  end.

(** The counting loop [for ; counter < RowsAffected; counter++] after a
    bulk deprovision. *)
Fixpoint deprovision_metrics (n : nat) : M unit :=
  match n with
  | O => ret tt
  | S n' =>
      emit (EvTotalOperationsCount KafkaOperationDeprovision) ;;;
      emit (EvSuccessOperationsCount KafkaOperationDeprovision) ;;;
      deprovision_metrics n'
  end.

Definition DeprovisionKafkaForUsers (users : list string)
  : M (option ServiceError) :=
  let* (RowsAffected, err) :=
    gorm_Update_status KafkaRequest_zero
      (fun _ r => bool_decide (Owner r ∈ users)
                  && not_in (Status r) kafkaDeletionStatuses)
      KafkaRequestStatusDeprovision in
  match err with
  | Some e =>
      ret (Some (errors.NewWithCause ErrorGeneral (error_Error e)
                   "Unable to deprovision kafka requests for users"))
  | None =>
      (if 1 <=? RowsAffected
       then deprovision_metrics (Z.to_nat RowsAffected) else ret tt) ;;;
      ret None
  end.

(** The [WHERE] clause of the expiry sweep for a sweep started at [now]. *)
Definition expired_sel (now : Time) (kafkaAgeInHours : Z)
    (key : string) (r : KafkaRequest) : bool :=
  (CreatedAt r <=?
     Time_Add now (mul64 (mul64 (-1) kafkaAgeInHours) time_Hour))
  && not_in (Status r) kafkaDeletionStatuses
  && (if (0 <? length (LongLivedKafkas (kafkaConfig k)))%nat
      then not_in key (LongLivedKafkas (kafkaConfig k)) else true).

Definition DeprovisionExpiredKafkas (kafkaAgeInHours : Z)
  : M (option ServiceError) :=
  let* now := time_Now in
  let* (RowsAffected, err) :=
    gorm_Update_status KafkaRequest_zero (expired_sel now kafkaAgeInHours)
      KafkaRequestStatusDeprovision in
  match err with
  | Some e =>
      ret (Some (errors.NewWithCause ErrorGeneral (error_Error e)
                   "unable to deprovision expired kafkas"))
  | None =>
      (if 1 <=? RowsAffected
       then deprovision_metrics (Z.to_nat RowsAffected) else ret tt) ;;;
      ret None
  end.

(** The clean-up of [Delete] that precedes the soft delete: the identity
    client and the DNS records of a request that was placed on a cluster. *)
Definition deleteDependencies (kafkaRequest : KafkaRequest)
  : M (option ServiceError) :=
  (* if the we don't have the clusterID we can only delete the row from
     the database *)
  if negb (bool_decide (ClusterID kafkaRequest = "")) then
    (* delete the kafka client in mas sso *)
    let* ssoErr :=
      (if EnableAuthenticationOnKafka (GetConfig (keycloakService k)) then
         let clientId :=
           BuildKeycloakClientNameIdentifier deps (ID kafkaRequest) in
         emit (EvDeRegisterClientInSSO clientId) ;;;
         match DeRegisterClientInSSO (keycloakService k) clientId with
         | Some keycloakErr =>
             ret (Some (errors.NewWithCause ErrorGeneral
                          (ServiceError_Error keycloakErr)
                          "error deleting sso client"))
         | None => ret None
         end
       else ret None) in
    match ssoErr with
    | Some e => ret (Some e)
    | None =>
        if EnableKafkaExternalCertificate (kafkaConfig k) then
          emit (EvGetClusterDNS (ClusterID kafkaRequest)) ;;;
          let '(clusterDNS, err) :=
            GetClusterDNS (clusterService k) (ClusterID kafkaRequest) in
          match err with
          | Some e =>
              ret (Some (errors.NewWithCause ErrorGeneral
                           (ServiceError_Error e)
                           "error retrieving cluster DNS"))
          | None =>
              let clusterDNS :=
                strings_Replace1 clusterDNS (DefaultIngressDnsNamePrefix deps)
                  (ManagedKafkaIngressDnsNamePrefix deps) in
              ChangeKafkaCNAMErecords kafkaRequest clusterDNS "DELETE"
          end
        else ret None
    end
  else ret None.

Definition Delete (kafkaRequest : KafkaRequest) : M (option ServiceError) :=
  let* cleanupErr := deleteDependencies kafkaRequest in
  match cleanupErr with
  | Some e => ret (Some e)
  | None =>
      (* soft delete the kafka request *)
      let* err := gorm_Delete kafkaRequest in
      match err with
      | Some e =>
          ret (Some (errors.NewWithCause ErrorGeneral (error_Error e)
                       ("unable to delete kafka request with id "
                          +:+ ID kafkaRequest)))
      | None =>
          emit (EvTotalOperationsCount KafkaOperationDelete) ;;;
          emit (EvSuccessOperationsCount KafkaOperationDelete) ;;;
          ret None
      end
  end.

End Service.

(** ** Queries *)

(** A query that returns rows ([Scan], [Find]): the store answers or
    fails this time.  The statement log names counts, keyed fetches and
    writes; a row query leaves it as it is. *)
Definition queried (w : World) : World :=
  mkWorld (kafka_requests w) (tail (db_faults w)) (clock w) (uuids w) (trace w).

Definition db_query : M (option error) :=
  fun w =>
    ((if fault_at 0 w then Some (Err "store failure") else None), queried w).

(** [status IN (?)] *)
Definition is_in (x : string) (l : list string) : bool := bool_decide (x ∈ l).

(** The visible rows of [t] that satisfy [cond], in the order of the
    store, which the queries of the service leave open. *)
Definition select_rows (cond : KafkaRequest -> bool)
    (t : gmap string KafkaRequest) : list KafkaRequest :=
  (map_to_list (filter (fun kv => is_live kv.2 && cond kv.2 = true) t)).*2.

(** [Where(cond).Find(&rows)] and
    [Model(&api.KafkaRequest{}).Where(cond).Scan(&rows)] *)
Definition gorm_Find (cond : KafkaRequest -> bool)
  : M (list KafkaRequest * option error) :=
  let* err := db_query in
  match err with
  | Some e => ret ([], Some e)
  | None => let* t := get_table in ret (select_rows cond t, None)
  end.

Module KafkaStatusCount.
Record t : Type := mk {
  Status : KafkaStatus;
  Count : Z                             (* int *)
}.
End KafkaStatusCount.

(** The number of visible rows of [t] in status [s]. *)
Definition count_status (s : KafkaStatus) (t : gmap string KafkaRequest) : nat :=
  length (select_rows (fun r => bool_decide (Status r = KafkaStatus_String s)) t).

(** [Model(&api.KafkaRequest{}).Select("status as Status, count(1) as
    Count").Where("status in (?)", status).Group("status").Scan(&results)]:
    one result for each status of the list that some visible row has. *)
Definition gorm_CountGroups (status : list KafkaStatus)
  : M (list KafkaStatusCount.t * option error) :=
  let* err := db_query in
  match err with
  | Some e => ret ([], Some e)
  | None =>
      let* t := get_table in
      ret (omap (fun s =>
                   let n := count_status s t in
                   if (0 <? n)%nat
                   then Some (KafkaStatusCount.mk s (Z.of_nat n)) else None)
             (remove_dups status),
           None)
  end.

Definition kafkaManagedCRStatuses : list string :=
  [KafkaStatus_String KafkaRequestStatusProvisioning;
   KafkaStatus_String KafkaRequestStatusDeprovision;
   KafkaStatus_String KafkaRequestStatusReady;
   KafkaStatus_String KafkaRequestStatusFailed].

(** Modelled from the spec: package [managedkafka] is not among the
    sources; the deployment descriptor has the fields that
    [BuildManagedKafkaCR] fills in ("capacity limits, TLS material, OAuth
    parameters, deletion flag"). *)
Module managedkafka.
Record TypeMeta : Type := mkTypeMeta { Kind : string; APIVersion : string }.

Record ObjectMeta : Type := mkObjectMeta {
  Name : string;
  Namespace : string;
  Annotations : gmap string string
}.

Record Capacity : Type := mkCapacity {
  IngressEgressThroughputPerSec : string;
  TotalMaxConnections : Z;
  MaxDataRetentionSize : string;
  MaxPartitions : Z;
  MaxDataRetentionPeriod : string;
  MaxConnectionAttemptsPerSec : Z
}.

Record TlsSpec : Type := mkTlsSpec { Cert : string; Key : string }.

Record EndpointSpec : Type := mkEndpointSpec {
  BootstrapServerHost : string;
  Tls : TlsSpec
}.

Record VersionsSpec : Type := mkVersionsSpec { Kafka : string; Strimzi : string }.

Record OAuthSpec : Type := mkOAuthSpec {
  ClientId : string;
  ClientSecret : string;
  TokenEndpointURI : string;
  JwksEndpointURI : string;
  ValidIssuerEndpointURI : string;
  UserNameClaim : string;
  CustomClaimCheck : string;
  TlsTrustedCertificate : string
}.

Definition OAuthSpec_zero : OAuthSpec := mkOAuthSpec "" "" "" "" "" "" "" "".

Record ManagedKafkaSpec : Type := mkManagedKafkaSpec {
  Capacity_of : Capacity;
  Endpoint : EndpointSpec;
  Versions : VersionsSpec;
  Deleted : bool;
  OAuth : OAuthSpec
}.

Record ManagedKafka : Type := mkManagedKafka {
  Id : string;
  TypeMeta_of : TypeMeta;
  ObjectMeta_of : ObjectMeta;
  Spec : ManagedKafkaSpec
}.
End managedkafka.

(** Modelled from the spec: the settings of package [config] that the
    descriptor copies ("capacity limits, TLS material", "realmEndpoints,
    claimName, trustedCert"); they are read beside the settings of
    [KafkaConfig] and [KeycloakConfig] above. *)
Record KafkaDescriptorConfig : Type := mkKafkaDescriptorConfig {
  KafkaCapacity : managedkafka.Capacity;
  KafkaTLSCert : string;
  KafkaTLSKey : string
}.

Record KeycloakRealmConfig : Type := mkKeycloakRealmConfig {
  TokenEndpointURI : string;
  JwksEndpointURI : string;
  ValidIssuerURI : string
}.

Record KeycloakDescriptorConfig : Type := mkKeycloakDescriptorConfig {
  KafkaRealm : KeycloakRealmConfig;
  UserNameClaim : string;
  TLSTrustedCertificatesValue : string
}.

Definition GetOrgIdFromClaims (claims : Claims) : string := org_id claims.

Section Queries.

Variable k : kafkaService.

(** What the queries take from other files of the repository: the
    "filter by organisation" flag of the request context, the descriptor
    settings of the two configurations, and the namespace and claim-check
    helpers of package [services]. *)
Variable GetFilterByOrganisationFromContext : Context -> bool.
Variable kafkaDescriptor : KafkaConfig -> KafkaDescriptorConfig.
Variable keycloakDescriptor : KeycloakConfig -> KeycloakDescriptorConfig.
Variable BuildNamespaceName : KafkaRequest -> string * option error.
Variable BuildCustomClaimCheck : KafkaRequest -> string.

Definition ListByStatus (status : list KafkaStatus)
  : M (list KafkaRequest * option ServiceError) :=
  if (length status =? 0)%nat then
    ret ([], Some (errors.GeneralError "no status provided"))
  else
    let* (kafkas, err) :=
      gorm_Find (fun r => is_in (Status r) (map KafkaStatus_String status)) in
    match err with
    | Some e =>
        ret ([], Some (errors.NewWithCause ErrorGeneral (error_Error e)
                         "failed to list by status"))
    | None => ret (kafkas, None)
    end.

Definition Get (ctx : Context) (id : string)
  : M (KafkaRequest * option ServiceError) :=
  if bool_decide (id = "") then
    ret (KafkaRequest_zero, Some (errors.Validation "id is undefined"))
  else
  let '(claims, err) := GetClaimsFromContext ctx in
  match err with
  | Some e =>
      ret (KafkaRequest_zero,
           Some (errors.NewWithCause ErrorUnauthenticated (error_Error e)
                   "user not authenticated"))
  | None =>
  let user := GetUsernameFromClaims claims in
  if bool_decide (user = "") then
    ret (KafkaRequest_zero, Some (errors.Unauthenticated "user not authenticated"))
  else
  let orgId := GetOrgIdFromClaims claims in
  let filterByOrganisationId := GetFilterByOrganisationFromContext ctx in
  (* filter by organisationId if a user is part of an organisation and is
     not allowed as a service account *)
  let cond :=
    if filterByOrganisationId
    then fun r => bool_decide (OrganisationId r = orgId)
    else fun r => bool_decide (Owner r = user) in
  let* (kafkaRequest, err) := gorm_First id cond in
  match err with
  | Some e =>
      ret (KafkaRequest_zero,
           Some (handleGetError ("KafkaResource for user " +:+ user) "id" id e))
  | None => ret (kafkaRequest, None)
  end
  end.

Definition BuildManagedKafkaCR (kafkaRequest : KafkaRequest)
    (kafkaConfig : KafkaConfig) (keycloakConfig : KeycloakConfig)
    (namespace : string) : managedkafka.ManagedKafka :=
  let managedKafkaCR :=
    managedkafka.mkManagedKafka (ID kafkaRequest)
      (managedkafka.mkTypeMeta "ManagedKafka" "managedkafka.bf2.org/v1alpha1")
      (managedkafka.mkObjectMeta (Name kafkaRequest) namespace
         (<["bf2.org/placementId" := PlacementId kafkaRequest]>
            (<["bf2.org/id" := ID kafkaRequest]> ∅)))
      (managedkafka.mkManagedKafkaSpec
         (managedkafka.mkCapacity
            (managedkafka.IngressEgressThroughputPerSec
               (KafkaCapacity (kafkaDescriptor kafkaConfig)))
            (managedkafka.TotalMaxConnections
               (KafkaCapacity (kafkaDescriptor kafkaConfig)))
            (managedkafka.MaxDataRetentionSize
               (KafkaCapacity (kafkaDescriptor kafkaConfig)))
            (managedkafka.MaxPartitions
               (KafkaCapacity (kafkaDescriptor kafkaConfig)))
            (managedkafka.MaxDataRetentionPeriod
               (KafkaCapacity (kafkaDescriptor kafkaConfig)))
            (managedkafka.MaxConnectionAttemptsPerSec
               (KafkaCapacity (kafkaDescriptor kafkaConfig))))
         (managedkafka.mkEndpointSpec (BootstrapServerHost kafkaRequest)
            (managedkafka.mkTlsSpec (KafkaTLSCert (kafkaDescriptor kafkaConfig))
               (KafkaTLSKey (kafkaDescriptor kafkaConfig))))
         (managedkafka.mkVersionsSpec (Version kafkaRequest) "0.22.1")
         (bool_decide (Status kafkaRequest
                       = KafkaStatus_String KafkaRequestStatusDeprovision))
         managedkafka.OAuthSpec_zero) in
  if EnableAuthenticationOnKafka keycloakConfig then
    let spec := managedkafka.Spec managedKafkaCR in
    managedkafka.mkManagedKafka (managedkafka.Id managedKafkaCR)
      (managedkafka.TypeMeta_of managedKafkaCR)
      (managedkafka.ObjectMeta_of managedKafkaCR)
      (managedkafka.mkManagedKafkaSpec (managedkafka.Capacity_of spec)
         (managedkafka.Endpoint spec) (managedkafka.Versions spec)
         (managedkafka.Deleted spec)
         (managedkafka.mkOAuthSpec (SsoClientID kafkaRequest)
            (SsoClientSecret kafkaRequest)
            (TokenEndpointURI (KafkaRealm (keycloakDescriptor keycloakConfig)))
            (JwksEndpointURI (KafkaRealm (keycloakDescriptor keycloakConfig)))
            (ValidIssuerURI (KafkaRealm (keycloakDescriptor keycloakConfig)))
            (UserNameClaim (keycloakDescriptor keycloakConfig))
            (BuildCustomClaimCheck kafkaRequest)
            (TLSTrustedCertificatesValue (keycloakDescriptor keycloakConfig))))
  else managedKafkaCR.

(** The rows that have a descriptor: placed on the cluster, in one of the
    managed statuses, with a bootstrap host and, when authentication is
    on, with the credentials of the identity client. *)
Definition managed_cond (clusterID : string) (r : KafkaRequest) : bool :=
  bool_decide (ClusterID r = clusterID)
  && is_in (Status r) kafkaManagedCRStatuses
  && negb (bool_decide (BootstrapServerHost r = ""))
  && (if EnableAuthenticationOnKafka (GetConfig (keycloakService k))
      then negb (bool_decide (SsoClientID r = ""))
           && negb (bool_decide (SsoClientSecret r = ""))
      else true).

Definition GetManagedKafkaByClusterID (clusterID : string)
  : M (list managedkafka.ManagedKafka * option ServiceError) :=
  let* (kafkaRequestList, err) := gorm_Find (managed_cond clusterID) in
  match err with
  | Some e =>
      ret ([], Some (errors.NewWithCause ErrorGeneral (error_Error e)
                       "unable to list kafka requests"))
  | None =>
      (* convert kafka requests to managed kafka *)
      ret (map (fun kafkaRequest =>
                  let '(ns, _) := BuildNamespaceName kafkaRequest in
                  BuildManagedKafkaCR kafkaRequest (kafkaConfig k)
                    (GetConfig (keycloakService k)) ns)
             kafkaRequestList,
           None)
  end.

Definition CountByStatus (status : list KafkaStatus)
  : M (list KafkaStatusCount.t * option ServiceError) :=
  let* (results, err) := gorm_CountGroups status in
  match err with
  | Some e =>
      ret ([], Some (errors.NewWithCause ErrorGeneral (error_Error e)
                       "Failed to count kafkas"))
  | None =>
      (* if there is no count returned for a status from the above query
         because there is no kafkas in such a status, we should return the
         count for these as well to avoid any confusion *)
      let results :=
        if (0 <? length status)%nat then
          let countersMap : gmap string Z :=
            fold_left
              (fun m r => <[KafkaStatusCount.Status r := KafkaStatusCount.Count r]> m)
              results ∅ in
          fold_left
            (fun results s =>
               match countersMap !! s with
               | Some _ => results
               | None => results ++ [KafkaStatusCount.mk s 0]
               end)
            status results
        else results in
      ret (results, None)
  end.

End Queries.

(** ** A small fleet for concrete runs *)

Module Demo.
Definition cfg : KafkaConfig :=
  mkKafkaConfig 2 false "2.7.0" false "kafka.example.org" 3 ["long-lived"].

Definition deps : Deps :=
  mkDeps "apps" "mk"
    (fun r => Name r +:+ "-" +:+ ID r)
    (fun s => (s, None))
    (fun id => "kafka-" +:+ id)
    (fun n => "uuid-" +:+ sprint_d (Z.of_nat n))
    (fun _ _ => None)
    (fun _ _ => None).

Definition quota (allowed : bool) (err : option ServiceError) : QuotaService :=
  mkQuotaService (fun _ _ rid _ _ _ => (allowed, rid, err)).

Definition cluster : ClusterService :=
  mkClusterService (fun id => ("apps." +:+ id +:+ ".example.com", None)).

Definition keycloak (auth : bool) (fails : bool) : KeycloakService :=
  mkKeycloakService (mkKeycloakConfig auth)
    (fun _ _ =>
       if fails then ("", Some (errors.GeneralError "sso is down"))
       else ("secret", None))
    (fun _ => if fails then Some (errors.GeneralError "sso is down") else None).

Definition svc : kafkaService :=
  mkKafkaService cluster (keycloak false false) cfg (mkAWSConfig "key" "secret")
    (quota true None).

(** The same fleet with quota enforcement on and an authority that answers
    [allowed]. *)
Definition svc_quota (allowed : bool) : kafkaService :=
  mkKafkaService cluster (keycloak false false)
    (mkKafkaConfig 2 true "2.7.0" false "kafka.example.org" 3 ["long-lived"])
    (mkAWSConfig "key" "secret") (quota allowed None).

(** The same fleet with authentication on Kafka and an identity provider
    that is down. *)
Definition svc_sso_down : kafkaService :=
  mkKafkaService cluster (keycloak true true) cfg (mkAWSConfig "key" "secret")
    (quota true None).

(** A row with the given key, status, owner and creation instant that
    has been placed on cluster "c1". *)
Definition row (id status owner : string) (created : Time) : KafkaRequest :=
  mkKafkaRequest id created created None "us-east-1" "c1" ("name-" +:+ id)
    status owner "org-1" "" "2.7.0" "" "" "".

(** A request as the admission handler passes it in. *)
Definition request (owner : string) : KafkaRequest :=
  mkKafkaRequest "" 0 0 None "us-east-1" "" "my-kafka" "" owner "org-1"
    "" "" "" "" "".

Definition table (rows : list KafkaRequest) : gmap string KafkaRequest :=
  list_to_map (map (fun r => (ID r, r)) rows).

Definition world (rows : list KafkaRequest) (faults : list bool) : World :=
  mkWorld (table rows) faults 1000000000000000000 0 [].
End Demo.

(** The settings of the same fleet that the queries read. *)
Module DemoQueries.
Definition filter_by_owner : Context -> bool := fun _ => false.
Definition filter_by_organisation : Context -> bool := fun _ => true.

Definition kafkaDescriptor : KafkaConfig -> KafkaDescriptorConfig :=
  fun _ =>
    mkKafkaDescriptorConfig
      (managedkafka.mkCapacity "30Mi" 100 "60Gi" 100 "P14D" 100) "cert" "key".

Definition keycloakDescriptor : KeycloakConfig -> KeycloakDescriptorConfig :=
  fun _ =>
    mkKeycloakDescriptorConfig
      (mkKeycloakRealmConfig "https://sso/token" "https://sso/certs"
         "https://sso/realm")
      "preferred_username" "ca".

Definition BuildNamespaceName : KafkaRequest -> string * option error :=
  fun r => (Owner r +:+ "-" +:+ ID r, None).

Definition BuildCustomClaimCheck : KafkaRequest -> string :=
  fun r => "org_id=" +:+ OrganisationId r.
End DemoQueries.

(** ** Observations on a run *)

Definition is_write (s : Statement) : bool :=
  match s with
  | StCount | StFirst _ => false
  | StSave _ | StUpdates _ _ | StUpdateStatus _ _ | StDelete _ => true
  end.

(** The writes sent to the store, oldest first. *)
Definition writes_of (tr : list Event) : list Statement :=
  omap (fun e => match e with
                 | EvStatement s => if is_write s then Some s else None
                 | _ => None
                 end) tr.

(** The calls that reach the DNS authority or change the identity
    provider's client registry. *)
Definition is_dns_or_identity (e : Event) : bool :=
  match e with
  | EvRegisterKafkaClientInSSO _ _ | EvDeRegisterClientInSSO _
  | EvChangeResourceRecordSets _ _ => true
  | _ => false
  end.

Definition dns_identity_calls (tr : list Event) : list Event :=
  List.filter is_dns_or_identity tr.

(** The record count of the capacity gate: the rows a query sees. *)
Definition record_count (w : World) : Z :=
  Z.of_nat (size (live_rows (kafka_requests w))).

Definition is_metric (e : Event) : bool :=
  match e with
  | EvTotalOperationsCount _ | EvSuccessOperationsCount _
  | EvStatusSinceCreated _ _ _ _ => true
  | _ => false
  end.

(** The metrics recorded, oldest first. *)
Definition metrics_of (tr : list Event) : list Event := List.filter is_metric tr.

(** The events recorded between world [w] and a later world [w']. *)
Definition new_events (w w' : World) : list Event :=
  drop (length (trace w)) (trace w').

Definition cname_change (action target name : string) : Change :=
  mkChange action (mkResourceRecordSet name "CNAME" 300 [mkResourceRecord target]).

Definition broker_name (recordName : string) (i : Z) : string :=
  "broker-" +:+ sprint_d i +:+ "-" +:+ recordName.

(** The statement [UpdateStatus] writes with. *)
Definition status_update (id : string) (status : KafkaStatus) : Statement :=
  StUpdateStatus (set_ID id KafkaRequest_zero) status.

(** The rows that [Update kafkaRequest] may rewrite. *)
Definition update_sel (kafkaRequest : KafkaRequest) (key : string)
    (r : KafkaRequest) : bool :=
  pk_matches (ID kafkaRequest) key && not_in (Status r) kafkaDeletionStatuses.

Section Observations.

Variable deps : Deps.
Variable k : kafkaService.

(** The answer of the quota authority to the reservation that an admission
    of [kafkaRequest] started in [w] asks for. *)
Definition quota_answer (kafkaRequest : KafkaRequest) (w : World)
  : bool * string * option ServiceError :=
  ReserveQuota (quotaService k) productId (ClusterID kafkaRequest)
    (uuid_New_String deps (uuids w)) (Owner kafkaRequest) false "single".

Definition quota_granted (kafkaRequest : KafkaRequest) (w : World) : Prop :=
  exists rid, quota_answer kafkaRequest w = (true, rid, None).

(** The record that admission hands to the store. *)
Definition accepted (kafkaRequest : KafkaRequest) : KafkaRequest :=
  set_Status (KafkaStatus_String KafkaRequestStatusAccepted)
    (set_Version (DefaultKafkaVersion (kafkaConfig k)) kafkaRequest).

(** The ingress DNS with the default prefix rewritten once. *)
Definition managed_ingress (clusterDNS : string) : string :=
  strings_Replace1 clusterDNS (DefaultIngressDnsNamePrefix deps)
    (ManagedKafkaIngressDnsNamePrefix deps).

(** The record under [key] is due for the sweep started at [now]: it is
    at least [hours] hours old, not under deletion and not exempt. *)
Definition due (now : Time) (hours : Z) (key : string) (r : KafkaRequest) : Prop :=
  hours * time_Hour <= now - CreatedAt r
  /\ Status r <> KafkaStatus_String KafkaRequestStatusDeprovision
  /\ Status r <> KafkaStatus_String KafkaRequestStatusDeleting
  /\ key ∉ LongLivedKafkas (kafkaConfig k).

End Observations.

(** The calls that reach a collaborator other than the store. *)
Definition is_external_call (e : Event) : bool :=
  match e with
  | EvReserveQuota _ _ _ _ _ _ | EvGetClusterDNS _
  | EvRegisterKafkaClientInSSO _ _ | EvDeRegisterClientInSSO _
  | EvChangeResourceRecordSets _ _ => true
  | _ => false
  end.

Definition external_calls (tr : list Event) : list Event :=
  List.filter is_external_call tr.

(** The metrics of the counting loop: one total and one success count per
    affected row. *)
Fixpoint deprovision_counts (n : nat) : list Event :=
  match n with
  | O => []
  | S n' =>
      EvTotalOperationsCount KafkaOperationDeprovision
        :: EvSuccessOperationsCount KafkaOperationDeprovision
        :: deprovision_counts n'
  end.

(** The number of rows of [t] that [sel] selects. *)
Definition affected_count (sel : string -> KafkaRequest -> bool)
    (t : gmap string KafkaRequest) : nat :=
  size (filter (fun kv => sel kv.1 kv.2 = true) t).

(** The number of visible rows of [t] that [sel] selects. *)
Definition selected_count (sel : string -> KafkaRequest -> bool)
    (t : gmap string KafkaRequest) : nat :=
  size (filter (fun kv => is_live kv.2 && sel kv.1 kv.2 = true) t).

(** The [WHERE] clause of the deprovision of the records of [users]. *)
Definition users_sel (users : list string) (key : string) (r : KafkaRequest)
  : bool :=
  bool_decide (Owner r ∈ users) && not_in (Status r) kafkaDeletionStatuses.

(** The result of the grouped count for status [s]: none when no visible
    row has it. *)
Definition group_of (t : gmap string KafkaRequest) (s : KafkaStatus)
  : option KafkaStatusCount.t :=
  let n := count_status s t in
  if (0 <? n)%nat then Some (KafkaStatusCount.mk s (Z.of_nat n)) else None.

(** The clause that scopes a fetch to the caller: the caller's
    organisation when the context asks to filter by organisation, the
    caller as owner otherwise. *)
Definition in_scope (filterBy : Context -> bool) (claims : Claims)
    (r : KafkaRequest) : Prop :=
  if filterBy (Some claims) then OrganisationId r = org_id claims
  else Owner r = username claims.

Arguments with_defaults : simpl never.
Arguments sent : simpl never.

(** ** Facts about the Go values *)

Lemma writes_of_app (a b : list Event) :
  writes_of (a ++ b) = writes_of a ++ writes_of b.
Proof. unfold writes_of. apply omap_app. Qed.

Lemma dns_identity_calls_app (a b : list Event) :
  dns_identity_calls (a ++ b) = dns_identity_calls a ++ dns_identity_calls b.
Proof. unfold dns_identity_calls. apply List.filter_app. Qed.

Lemma sent_frame (s : Statement) (w : World) :
  kafka_requests (sent s w) = kafka_requests w
  /\ clock (sent s w) = clock w
  /\ trace (sent s w) = trace w ++ [EvStatement s].
Proof. unfold sent. auto. Qed.

Lemma writes_of_sent (s : Statement) (w : World) :
  writes_of (trace (sent s w))
  = writes_of (trace w) ++ (if is_write s then [s] else []).
Proof.
  unfold sent. cbn. rewrite writes_of_app. cbn. now destruct (is_write s).
Qed.

Lemma nth_tail (l : list bool) (n : nat) :
  nth n (tail l) false = nth (S n) l false.
Proof. destruct l as [|b l]; [destruct n|]; reflexivity. Qed.

(** ** The CNAME batch *)

Lemma broker_changes_map (fuel : nat) (i : Z) (recordName target action : string) :
  broker_changes fuel i recordName target action
  = map (fun j => cname_change action target
                    (broker_name recordName (i + Z.of_nat j)))
        (seq 0 fuel).
Proof.
  revert i. induction fuel as [|fuel IH]; intros i; [reflexivity|].
  cbn [broker_changes seq map]. f_equal.
  - unfold buildResourceRecordChange, cname_change, broker_name.
    now rewrite Z.add_0_r.
  - rewrite IH, <- seq_shift, map_map. apply map_ext. intros j.
    do 2 f_equal. lia.
Qed.

(** C6. For a broker count [n >= 0] the batch holds exactly [n + 2]
    changes: the bootstrap name, the "admin-server-" name and the
    "broker-<i>-" names for [i] from [0] to [n - 1], in this order, each a
    CNAME with TTL 300 whose value is "elb." followed by the cluster
    ingress; with three brokers these are five changes. *)
Theorem cname_batch_shape
    (recordName clusterIngress action : string) (cfg : KafkaConfig) :
  0 <= NumOfBrokers cfg ->
  let changes :=
    Changes (buildKafkaClusterCNAMESRecordBatch recordName clusterIngress
               action cfg) in
  Z.of_nat (length changes) = NumOfBrokers cfg + 2
  /\ changes
     = map (cname_change action ("elb." +:+ clusterIngress))
         (recordName :: ("admin-server-" +:+ recordName)
            :: map (fun i => broker_name recordName (Z.of_nat i))
                 (seq 0 (Z.to_nat (NumOfBrokers cfg))))
  /\ (NumOfBrokers cfg = 3 ->
      map (fun c => rrs_Name (ResourceRecordSet_of c)) changes
      = [recordName; "admin-server-" +:+ recordName;
         "broker-0-" +:+ recordName; "broker-1-" +:+ recordName;
         "broker-2-" +:+ recordName]).
Proof.
  intros Hn changes.
  assert (Hshape : changes
     = map (cname_change action ("elb." +:+ clusterIngress))
         (recordName :: ("admin-server-" +:+ recordName)
            :: map (fun i => broker_name recordName (Z.of_nat i))
                 (seq 0 (Z.to_nat (NumOfBrokers cfg))))).
  { unfold changes, buildKafkaClusterCNAMESRecordBatch.
    cbn [Changes app map]. rewrite broker_changes_map, map_map.
    reflexivity. }
  split; [|split].
  - rewrite Hshape. cbn [map length].
    rewrite !length_map, length_seq. lia.
  - exact Hshape.
  - intros H3. rewrite Hshape, H3. reflexivity.
Qed.

Lemma cname_batch_shape_witness :
  Z.of_nat (length (Changes (buildKafkaClusterCNAMESRecordBatch
                               "k1.kafka.example.org" "mk.c1.example.com"
                               "CREATE" Demo.cfg))) = 3 + 2.
Proof.
  apply (cname_batch_shape "k1.kafka.example.org" "mk.c1.example.com"
           "CREATE" Demo.cfg).
  vm_compute. discriminate.
Defined.

(** ** Admission *)

Lemma gorm_Count_answer (w w1 : World) (c : Z) :
  gorm_Count w = ((c, None), w1) ->
  fault_at 0 w = false /\ c = record_count w
  /\ w1 = mkWorld (kafka_requests w) (tail (db_faults w)) (clock w) (uuids w)
                  (trace w ++ [EvStatement StCount]).
Proof.
  unfold gorm_Count, bind, db_statement, get_table, ret, record_count.
  destruct (fault_at 0 w); intros H; inversion H; auto.
Qed.

Lemma gorm_Count_healthy (w : World) :
  fault_at 0 w = false -> exists w1, gorm_Count w = ((record_count w, None), w1).
Proof.
  intros Hf. unfold gorm_Count, bind, db_statement, get_table, ret, record_count.
  rewrite Hf. eauto.
Qed.

Lemma NewID_fresh (t : gmap string KafkaRequest) :
  NewID t <> "" /\ t !! NewID t = None.
Proof.
  unfold NewID.
  pose proof (is_fresh ({[ "" ]} ∪ dom t)) as Hfresh.
  split.
  - intros Heq. apply Hfresh. rewrite Heq. set_solver.
  - apply not_elem_of_dom. set_solver.
Qed.

Lemma db_statement_run (s : Statement) (w : World) :
  db_statement s w
  = ((if fault_at 0 w then Some (Err "store failure") else None), sent s w).
Proof. reflexivity. Qed.

Lemma fault_at_sent (s : Statement) (n : nat) (w : World) :
  fault_at n (sent s w) = fault_at (S n) w.
Proof. unfold fault_at, sent. cbn. apply nth_tail. Qed.

Lemma gorm_Save_fault (r : KafkaRequest) (w : World) :
  fault_at 0 w = true ->
  gorm_Save r w = ((r, Some (Err "store failure")), sent (StSave r) w).
Proof.
  intros Hf. unfold gorm_Save, bind. rewrite db_statement_run, Hf. reflexivity.
Qed.

Lemma gorm_Save_healthy (r : KafkaRequest) (w : World) :
  fault_at 0 w = false ->
  let r' := with_defaults (kafka_requests w) (clock w) r in
  gorm_Save r w
  = ((r', None),
     mkWorld (<[ID r' := r']> (kafka_requests w)) (tail (db_faults w))
             (clock w) (uuids w) (trace w ++ [EvStatement (StSave r)])).
Proof.
  intros Hf. unfold gorm_Save, bind. rewrite db_statement_run, Hf. reflexivity.
Qed.

Lemma with_defaults_fields (t : gmap string KafkaRequest) (now : Time)
    (r : KafkaRequest) :
  let r' := with_defaults t now r in
  Status r' = Status r /\ Version r' = Version r
  /\ ID r' = (if bool_decide (ID r = "") then NewID t else ID r).
Proof.
  unfold with_defaults.
  destruct (bool_decide (ID r = "")); [|destruct (t !! ID r)]; cbn;
    try match goal with |- context [if ?b then _ else _] => destruct b end;
    cbn; auto.
Qed.

Section Admission.

Variable deps : Deps.
Variable k : kafkaService.

(** The quota block neither touches the store nor the clock. *)
Lemma reserveQuota_frame (kafkaRequest : KafkaRequest) (w : World) :
  let w' := (reserveQuota deps k kafkaRequest w).2 in
  kafka_requests w' = kafka_requests w /\ db_faults w' = db_faults w
  /\ clock w' = clock w
  /\ writes_of (trace w') = writes_of (trace w)
  /\ dns_identity_calls (trace w') = dns_identity_calls (trace w).
Proof.
  unfold reserveQuota, bind, uuid_New, emit, ret.
  destruct (EnableQuotaService (kafkaConfig k)); cbn; [|auto].
  destruct (ReserveQuota _ _ _ _ _ _ _) as [[isAllowed rid] [e|]];
    [|destruct isAllowed]; cbn;
    rewrite writes_of_app, dns_identity_calls_app; cbn;
    rewrite !app_nil_r; auto.
Qed.

Lemma reserveQuota_granted (kafkaRequest : KafkaRequest) (w : World) :
  (EnableQuotaService (kafkaConfig k) = true -> quota_granted deps k kafkaRequest w) ->
  (reserveQuota deps k kafkaRequest w).1 = None.
Proof.
  unfold reserveQuota, quota_granted, quota_answer, bind, uuid_New, emit, ret.
  destruct (EnableQuotaService (kafkaConfig k)); intros Hq; [|reflexivity].
  destruct (Hq eq_refl) as [rid Hrid]. cbn. rewrite Hrid. reflexivity.
Qed.

(** C1. An admission call whose count statement answers [c], the number
    of records in the table, against the ceiling [m]: with [c >= m] it
    returns the TooManyInstances error, sends
    no write and leaves the table as it was; with [c < m] (and the
    reservation granted when quota enforcement is on) it sends exactly one
    write, the save of the request with status Accepted and the default
    version, and a store that executes it then holds the request under its
    id, one row more than before for a request that came without id.  A
    store that fails the save makes the call a general error and keeps the
    table. *)
Theorem RegisterKafkaJob_admission
    (kafkaRequest saved : KafkaRequest) (err : option ServiceError)
    (w w1 w' : World) (c : Z) :
  gorm_Count w = ((c, None), w1) ->
  RegisterKafkaJob deps k kafkaRequest w = ((saved, err), w') ->
  c = record_count w
  /\ (MaxCapacity (kafkaConfig k) <= c ->
     Code <$> err = Some ErrorTooManyKafkaInstancesReached
     /\ kafka_requests w' = kafka_requests w
     /\ writes_of (trace w') = writes_of (trace w))
  /\ (c < MaxCapacity (kafkaConfig k) ->
      (EnableQuotaService (kafkaConfig k) = true -> quota_granted deps k kafkaRequest w) ->
      writes_of (trace w') = writes_of (trace w) ++ [StSave (accepted k kafkaRequest)]
      /\ (fault_at 1 w = false ->
            err = None
            /\ Status saved = KafkaStatus_String KafkaRequestStatusAccepted
            /\ Version saved = DefaultKafkaVersion (kafkaConfig k)
            /\ kafka_requests w' = <[ID saved := saved]> (kafka_requests w)
            /\ (ID kafkaRequest = "" ->
                  kafka_requests w !! ID saved = None
                  /\ size (kafka_requests w') = S (size (kafka_requests w))))
      /\ (fault_at 1 w = true ->
            Code <$> err = Some ErrorGeneral
            /\ kafka_requests w' = kafka_requests w)).
Proof.
  intros Hcount Hrun.
  destruct (gorm_Count_answer _ _ _ Hcount) as (Hf0 & Hc & Hw1).
  unfold RegisterKafkaJob, HasAvailableCapacity, bind in Hrun.
  rewrite Hcount in Hrun. cbn [ret] in Hrun.
  split; [exact Hc|]. split.
  - intros Hfull.
    assert (Hlt : (c <? MaxCapacity (kafkaConfig k)) = false) by lia.
    rewrite Hlt in Hrun. cbn in Hrun. injection Hrun as <- <- <-.
    rewrite Hw1. cbn. rewrite writes_of_app. cbn. rewrite app_nil_r. auto.
  - intros Hroom Hquota.
    assert (Hlt : (c <? MaxCapacity (kafkaConfig k)) = true) by lia.
    rewrite Hlt in Hrun. cbn [negb] in Hrun.
    assert (Hq1 : quota_granted deps k kafkaRequest w1 = quota_granted deps k kafkaRequest w)
      by (rewrite Hw1; reflexivity).
    pose proof (reserveQuota_granted kafkaRequest w1) as Hgr.
    rewrite Hq1 in Hgr. specialize (Hgr Hquota).
    pose proof (reserveQuota_frame kafkaRequest w1) as (Ht & Hfs & Hclk & Hwr & _).
    destruct (reserveQuota deps k kafkaRequest w1) as [qerr wq].
    cbn [fst snd] in *. subst qerr.
    assert (Hfq : fault_at 0 wq = fault_at 1 w).
    { unfold fault_at. rewrite Hfs, Hw1. cbn. apply nth_tail. }
    assert (Hwq : writes_of (trace wq) = writes_of (trace w)).
    { rewrite Hwr, Hw1. cbn. rewrite writes_of_app. cbn. apply app_nil_r. }
    fold (accepted k kafkaRequest) in Hrun.
    destruct (fault_at 1 w) eqn:Hfault.
    + rewrite (gorm_Save_fault _ _ Hfq) in Hrun. cbn in Hrun.
      injection Hrun as <- <- <-.
      rewrite writes_of_sent, (proj1 (sent_frame _ wq)), Hwq, Ht, Hw1. cbn.
      split; [reflexivity|]. split; [discriminate|]. auto.
    + rewrite (gorm_Save_healthy _ _ Hfq) in Hrun. cbn in Hrun.
      injection Hrun as <- <- <-. cbn.
      rewrite !writes_of_app, Hwq, Ht, Hw1. cbn. rewrite app_nil_r.
      split; [reflexivity|]. split; [|discriminate]. intros _.
      pose proof (with_defaults_fields (kafka_requests w) (clock wq)
                    (accepted k kafkaRequest)) as (Hst & Hver & Hid).
      cbv zeta in Hst, Hver, Hid.
      split; [reflexivity|]. split; [exact Hst|]. split; [exact Hver|].
      split; [reflexivity|]. intros Hnoid.
      assert (Hnone : kafka_requests w
                        !! ID (with_defaults (kafka_requests w) (clock wq)
                                 (accepted k kafkaRequest)) = None).
      { rewrite Hid. change (ID (accepted k kafkaRequest)) with (ID kafkaRequest).
        rewrite bool_decide_eq_true_2 by exact Hnoid. apply NewID_fresh. }
      split; [exact Hnone|]. now apply map_size_insert_None.
Qed.

End Admission.

(** ** Reading and rewriting rows *)

Lemma update_where_lookup (sel : string -> KafkaRequest -> bool)
    (f : KafkaRequest -> KafkaRequest) (t : gmap string KafkaRequest)
    (key : string) :
  update_where sel f t !! key
  = (fun r => if sel key r then f r else r) <$> t !! key.
Proof.
  unfold update_where. rewrite map_lookup_imap.
  now destruct (t !! key).
Qed.

(** A statement scoped to the primary key [id] rewrites that row alone. *)
Lemma update_where_pk (id : string) (cond : string -> KafkaRequest -> bool)
    (f : KafkaRequest -> KafkaRequest) (t : gmap string KafkaRequest)
    (r : KafkaRequest) :
  id <> "" -> t !! id = Some r ->
  update_where (fun key r => pk_matches id key && cond key r) f t
  = <[id := if cond id r then f r else r]> t.
Proof.
  intros Hid Hrow. apply map_eq. intros key.
  rewrite update_where_lookup. unfold pk_matches.
  rewrite (bool_decide_eq_false_2 (id = "")) by exact Hid. cbn [orb].
  destruct (decide (key = id)) as [->|Hne].
  - rewrite lookup_insert_eq, Hrow. cbn.
    now rewrite bool_decide_eq_true_2 by reflexivity.
  - rewrite lookup_insert_ne by congruence.
    rewrite (bool_decide_eq_false_2 (key = id)) by exact Hne.
    now destruct (t !! key) as [x|].
Qed.

Lemma gorm_First_run (id : string) (cond : KafkaRequest -> bool) (w : World) :
  gorm_First id cond w
  = ((if fault_at 0 w then (KafkaRequest_zero, Some (Err "store failure"))
      else match kafka_requests w !! id with
           | Some r => if is_live r && cond r then (r, None)
                       else (KafkaRequest_zero, Some ErrRecordNotFound)
           | None => (KafkaRequest_zero, Some ErrRecordNotFound)
           end),
     sent (StFirst id) w).
Proof.
  unfold gorm_First, bind. rewrite db_statement_run.
  destruct (fault_at 0 w); [reflexivity|].
  unfold get_table, ret.
  change (kafka_requests (sent (StFirst id) w)) with (kafka_requests w).
  destruct (kafka_requests w !! id) as [r|]; [|reflexivity].
  now destruct (is_live r && cond r).
Qed.

Lemma gorm_Update_status_run (model : KafkaRequest)
    (cond : string -> KafkaRequest -> bool) (status : KafkaStatus) (w : World) :
  let sel := fun key r => pk_matches (ID model) key && cond key r in
  gorm_Update_status model cond status w
  = if fault_at 0 w
    then ((0, Some (Err "store failure")), sent (StUpdateStatus model status) w)
    else ((rows_affected sel (kafka_requests w), None),
          mkWorld
            (update_where sel
               (fun r => set_UpdatedAt (clock w) (set_Status status r))
               (kafka_requests w))
            (tail (db_faults w)) (clock w) (uuids w)
            (trace w ++ [EvStatement (StUpdateStatus model status)])).
Proof.
  unfold gorm_Update_status, bind. rewrite db_statement_run.
  now destruct (fault_at 0 w).
Qed.

Lemma gorm_Updates_run (model : KafkaRequest) (cond : KafkaRequest -> bool)
    (values : KafkaRequest) (w : World) :
  let sel := fun key r => pk_matches (ID model) key && cond r in
  gorm_Updates model cond values w
  = if fault_at 0 w
    then ((0, Some (Err "store failure")), sent (StUpdates model values) w)
    else ((rows_affected sel (kafka_requests w), None),
          mkWorld
            (update_where sel (assign_nonzero values (clock w))
               (kafka_requests w))
            (tail (db_faults w)) (clock w) (uuids w)
            (trace w ++ [EvStatement (StUpdates model values)])).
Proof.
  unfold gorm_Updates, bind. rewrite db_statement_run.
  now destruct (fault_at 0 w).
Qed.

(** ** Fetching by id *)

Lemma GetById_run (id : string) (w : World) :
  id <> "" ->
  GetById id w
  = ((if fault_at 0 w
      then (KafkaRequest_zero,
            Some (handleGetError "KafkaResource" "id" id (Err "store failure")))
      else match kafka_requests w !! id with
           | Some r =>
               if is_live r then (r, None)
               else (KafkaRequest_zero,
                     Some (handleGetError "KafkaResource" "id" id
                             ErrRecordNotFound))
           | None =>
               (KafkaRequest_zero,
                Some (handleGetError "KafkaResource" "id" id ErrRecordNotFound))
           end),
     sent (StFirst id) w).
Proof.
  intros Hid. unfold GetById, bind.
  rewrite (bool_decide_eq_false_2 (id = "")) by exact Hid.
  rewrite gorm_First_run.
  destruct (fault_at 0 w); [reflexivity|].
  destruct (kafka_requests w !! id) as [r|]; [|reflexivity].
  rewrite andb_true_r. now destruct (is_live r).
Qed.

(** A stored, visible record is what a healthy store returns for its id. *)
Lemma GetById_stored (id : string) (kafka : KafkaRequest) (w : World) :
  id <> "" -> fault_at 0 w = false ->
  kafka_requests w !! id = Some kafka -> DeletedAt kafka = None ->
  GetById id w = ((kafka, None), sent (StFirst id) w).
Proof.
  intros Hid Hf Hrow Hlive. rewrite GetById_run by exact Hid.
  rewrite Hf, Hrow. unfold is_live. now rewrite Hlive.
Qed.

(** The fetch fails for an absent record and on a store error. *)
Lemma GetById_absent_or_fault (id : string) (w : World) :
  kafka_requests w !! id = None \/ fault_at 0 w = true ->
  exists e w1, GetById id w = ((KafkaRequest_zero, Some e), w1).
Proof.
  intros H. destruct (decide (id = "")) as [->|Hid].
  - unfold GetById. cbn. eauto.
  - rewrite GetById_run by exact Hid.
    destruct (fault_at 0 w); [eauto|].
    destruct H as [H|H]; [|discriminate]. rewrite H. eauto.
Qed.

(** A fetch never writes, whatever it answers. *)
Lemma GetById_frame (id : string) (w : World) :
  let w1 := (GetById id w).2 in
  kafka_requests w1 = kafka_requests w
  /\ writes_of (trace w1) = writes_of (trace w)
  /\ clock w1 = clock w.
Proof.
  destruct (decide (id = "")) as [->|Hid].
  - unfold GetById. cbn. auto.
  - rewrite GetById_run by exact Hid. cbn [snd].
    rewrite writes_of_sent. cbn. rewrite app_nil_r.
    pose proof (sent_frame (StFirst id) w) as (? & ? & ?). auto.
Qed.

(** ** The status guard *)


(** C10. When the fetch inside [UpdateStatus] fails, as it does for an
    absent record and on a store error, the call answers
    [attempted = true] with a general error, although no write was sent
    and the table is as it was. *)
Theorem UpdateStatus_fetch_failure
    (id : string) (status : KafkaStatus) (w : World) :
  let fetched := GetById id w in
  (kafka_requests w !! id = None \/ fault_at 0 w = true ->
   fetched.1.2 <> None)
  /\ (fetched.1.2 <> None ->
      exists e,
        UpdateStatus id status w = ((true, Some e), fetched.2)
        /\ Code e = ErrorGeneral
        /\ kafka_requests fetched.2 = kafka_requests w
        /\ writes_of (trace fetched.2) = writes_of (trace w)).
Proof.
  cbv zeta. split.
  - intros Hcause.
    destruct (GetById_absent_or_fault id w Hcause) as (e & w1 & Hget).
    rewrite Hget. discriminate.
  - intros Hfails.
    pose proof (GetById_frame id w) as (Ht & Hwr & _).
    unfold UpdateStatus, bind.
    destruct (GetById id w) as [[kafka [e|]] w1]; [|now destruct Hfails].
    cbn. eexists. repeat split; assumption.
Qed.

(** ** The quota gate *)

(** C3. An admission call that reaches the quota authority (the count
    answered below the ceiling, quota enforcement on): a denied reservation
    makes it the InsufficientQuota error, a failed call to the authority
    makes it an error as well, and in both cases no write is sent, the
    table stays as it was and neither the DNS authority nor the identity
    provider is called. *)
Theorem RegisterKafkaJob_quota_gate
    (deps : Deps) (k : kafkaService)
    (kafkaRequest saved : KafkaRequest) (err : option ServiceError)
    (w w1 w' : World) (c : Z) :
  gorm_Count w = ((c, None), w1) ->
  c < MaxCapacity (kafkaConfig k) ->
  EnableQuotaService (kafkaConfig k) = true ->
  RegisterKafkaJob deps k kafkaRequest w = ((saved, err), w') ->
  (forall rid, quota_answer deps k kafkaRequest w = (false, rid, None) ->
     Code <$> err = Some ErrorInsufficientQuota
     /\ kafka_requests w' = kafka_requests w
     /\ writes_of (trace w') = writes_of (trace w)
     /\ dns_identity_calls (trace w') = dns_identity_calls (trace w))
  /\ (forall allowed rid e,
        quota_answer deps k kafkaRequest w = (allowed, rid, Some e) ->
        Code <$> err = Some ErrorFailedToCheckQuota
        /\ kafka_requests w' = kafka_requests w
        /\ writes_of (trace w') = writes_of (trace w)
        /\ dns_identity_calls (trace w') = dns_identity_calls (trace w)).
Proof.
  intros Hcount Hroom Hquota Hrun.
  destruct (gorm_Count_answer _ _ _ Hcount) as (Hf0 & Hc & Hw1).
  unfold RegisterKafkaJob, HasAvailableCapacity, bind in Hrun.
  rewrite Hcount in Hrun. cbn [ret] in Hrun.
  assert (Hlt : (c <? MaxCapacity (kafkaConfig k)) = true) by lia.
  rewrite Hlt in Hrun. cbn [negb] in Hrun.
  pose proof (reserveQuota_frame deps k kafkaRequest w1) as (Ht & _ & _ & Hwr & Hdns).
  assert (Hans : (reserveQuota deps k kafkaRequest w1).1
                 = let '(isAllowed, _, qerr) := quota_answer deps k kafkaRequest w in
                   match qerr with
                   | Some e =>
                       Some (errors.NewWithCause ErrorFailedToCheckQuota
                               (ServiceError_Error e)
                               "failed to create kafka request")
                   | None =>
                       if negb isAllowed
                       then Some (errors.InsufficientQuotaError "Insufficient Quota")
                       else None
                   end).
  { unfold reserveQuota, quota_answer, bind, uuid_New, emit, ret.
    rewrite Hquota, Hw1. cbn.
    destruct (ReserveQuota _ _ _ _ _ _ _) as [[isAllowed rid] [e|]];
      [|destruct isAllowed]; reflexivity. }
  assert (Hframe : kafka_requests w1 = kafka_requests w
                   /\ writes_of (trace w1) = writes_of (trace w)
                   /\ dns_identity_calls (trace w1) = dns_identity_calls (trace w)).
  { rewrite Hw1. cbn. rewrite writes_of_app, dns_identity_calls_app. cbn.
    now rewrite !app_nil_r. }
  destruct Hframe as (Ht0 & Hwr0 & Hdns0).
  destruct (reserveQuota deps k kafkaRequest w1) as [qerr wq].
  cbn [fst snd] in Ht, Hwr, Hdns, Hans.
  split.
  - intros rid Hqa. rewrite Hqa in Hans. cbn in Hans. subst qerr.
    cbn in Hrun. injection Hrun as <- <- <-.
    rewrite Ht, Hwr, Hdns. auto.
  - intros allowed rid e Hqa. rewrite Hqa in Hans. cbn in Hans. subst qerr.
    cbn in Hrun. injection Hrun as <- <- <-.
    rewrite Ht, Hwr, Hdns. auto.
Qed.

(** ** The field-scoped update *)

Lemma Update_run (kafkaRequest : KafkaRequest) (w : World) :
  Update kafkaRequest w
  = if fault_at 0 w
    then (Some (errors.NewWithCause ErrorGeneral "store failure"
                  "Failed to update kafka"),
          sent (StUpdates kafkaRequest kafkaRequest) w)
    else (None,
          mkWorld
            (update_where (update_sel kafkaRequest)
               (assign_nonzero kafkaRequest (clock w)) (kafka_requests w))
            (tail (db_faults w)) (clock w) (uuids w)
            (trace w ++ [EvStatement (StUpdates kafkaRequest kafkaRequest)])).
Proof.
  unfold Update, bind. rewrite gorm_Updates_run.
  now destruct (fault_at 0 w).
Qed.

Lemma deletion_status_filtered (r : KafkaRequest) :
  Status r = KafkaStatus_String KafkaRequestStatusDeprovision
  \/ Status r = KafkaStatus_String KafkaRequestStatusDeleting ->
  not_in (Status r) kafkaDeletionStatuses = false.
Proof.
  intros H. unfold not_in. apply negb_false_iff, bool_decide_eq_true_2.
  unfold kafkaDeletionStatuses. destruct H as [-> | ->]; set_solver.
Qed.

(** A row under deletion is outside every [Update]. *)
Lemma Update_skips_row (kafkaRequest row : KafkaRequest) (id : string) (w : World) :
  kafka_requests w !! id = Some row ->
  not_in (Status row) kafkaDeletionStatuses = false ->
  kafka_requests (Update kafkaRequest w).2 !! id = Some row.
Proof.
  intros Hrow Hdel. rewrite Update_run.
  destruct (fault_at 0 w); cbn [snd].
  - now rewrite (proj1 (sent_frame _ w)).
  - cbn [kafka_requests]. rewrite update_where_lookup, Hrow. cbn.
    unfold update_sel. rewrite Hdel. now rewrite !andb_false_r.
Qed.

(** An [Update] whose target row is under deletion changes no row at
    all. *)
Lemma Update_skips_table (kafkaRequest row : KafkaRequest) (w : World) :
  ID kafkaRequest <> "" ->
  kafka_requests w !! ID kafkaRequest = Some row ->
  not_in (Status row) kafkaDeletionStatuses = false ->
  kafka_requests (Update kafkaRequest w).2 = kafka_requests w.
Proof.
  intros Hid Hrow Hdel. rewrite Update_run.
  destruct (fault_at 0 w); cbn [snd].
  - apply sent_frame.
  - cbn [kafka_requests]. unfold update_sel.
    rewrite (update_where_pk (ID kafkaRequest)
               (fun _ r => not_in (Status r) kafkaDeletionStatuses)
               _ _ row Hid Hrow).
    rewrite Hdel. now apply insert_id.
Qed.

(** ** Preparation *)

(** Case analysis on the answers of the collaborators along
    [PrepareKafkaRequest], up to the final update. *)
Ltac prepare_cases deps k kafkaRequest :=
  unfold PrepareKafkaRequest, ChangeKafkaCNAMErecords, bind, emit, ret;
  destruct (replaceHostSpecialChar deps
              (buildTruncateKafkaIdentifier deps kafkaRequest))
    as [ident [replaceErr|]] eqn:Hident;
  [|destruct (GetClusterDNS (clusterService k) (ClusterID kafkaRequest))
      as [dns [dnsErr|]] eqn:Hdns;
    [|destruct (EnableKafkaExternalCertificate (kafkaConfig k)) eqn:Hext;
      [match goal with
       | |- context [aws_NewClient deps ?c ?r] =>
           destruct (aws_NewClient deps c r) as [awsErr|] eqn:Haws
       end;
       [|match goal with
         | |- context [aws_ChangeResourceRecordSets deps ?z ?b] =>
             destruct (aws_ChangeResourceRecordSets deps z b)
               as [changeErr|] eqn:Hchange
         end]|];
      try (destruct (EnableAuthenticationOnKafka (GetConfig (keycloakService k)))
             eqn:Hauth;
           [match goal with
            | |- context [RegisterKafkaClientInSSO (keycloakService k) ?c ?o] =>
                destruct (RegisterKafkaClientInSSO (keycloakService k) c o)
                  as [secret [ssoErr|]] eqn:Hsso
            end|])]];
  cbn -[Update updatedKafkaRequest buildKafkaClusterCNAMESRecordBatch].

(** Preparation touches the table through its final [Update] alone. *)
Lemma PrepareKafkaRequest_table
    (deps : Deps) (k : kafkaService) (kafkaRequest : KafkaRequest) (w : World) :
  let w' := (PrepareKafkaRequest deps k kafkaRequest w).2 in
  kafka_requests w' = kafka_requests w
  \/ exists upd wp,
       ID upd = ID kafkaRequest
       /\ kafka_requests wp = kafka_requests w
       /\ kafka_requests w' = kafka_requests (Update upd wp).2.
Proof.
  prepare_cases deps k kafkaRequest; auto;
    right;
    match goal with
    | |- context [Update ?u ?wp] =>
        exists u, wp; split; [reflexivity|]; split; [reflexivity|];
        destruct (Update u wp) as [[e|] wu]; reflexivity
    end.
Qed.

(** C9. A row whose status is Deprovision or Deleting is left exactly as
    it is by [Update], whatever record the update is called with, and on a
    store that executes the statement the call returns without error; an
    update or a preparation aimed at such a row changes no row at all. *)
Theorem Update_ignores_deletion_statuses
    (deps : Deps) (k : kafkaService)
    (kafkaRequest row : KafkaRequest) (id : string) (w : World) :
  kafka_requests w !! id = Some row ->
  Status row = KafkaStatus_String KafkaRequestStatusDeprovision
  \/ Status row = KafkaStatus_String KafkaRequestStatusDeleting ->
  (kafka_requests (Update kafkaRequest w).2 !! id = Some row
   /\ (fault_at 0 w = false -> (Update kafkaRequest w).1 = None)
   /\ (ID kafkaRequest = id -> id <> "" ->
       kafka_requests (Update kafkaRequest w).2 = kafka_requests w))
  /\ (kafka_requests (PrepareKafkaRequest deps k kafkaRequest w).2 !! id
      = Some row
      /\ (ID kafkaRequest = id -> id <> "" ->
          kafka_requests (PrepareKafkaRequest deps k kafkaRequest w).2
          = kafka_requests w)).
Proof.
  intros Hrow Hstatus.
  pose proof (deletion_status_filtered row Hstatus) as Hdel.
  split; [split; [|split]|split].
  - now apply Update_skips_row.
  - intros Hf. rewrite Update_run, Hf. reflexivity.
  - intros <- Hid. now apply (Update_skips_table kafkaRequest row).
  - destruct (PrepareKafkaRequest_table deps k kafkaRequest w)
      as [Heq | (upd & wp & Hupd & Hwp & Heq)]; rewrite Heq.
    + exact Hrow.
    + apply Update_skips_row; [now rewrite Hwp | exact Hdel].
  - intros <- Hid.
    destruct (PrepareKafkaRequest_table deps k kafkaRequest w)
      as [Heq | (upd & wp & Hupd & Hwp & Heq)]; rewrite Heq.
    + reflexivity.
    + rewrite <- Hwp. apply (Update_skips_table upd row).
      * now rewrite Hupd.
      * now rewrite Hupd, Hwp.
      * exact Hdel.
Qed.

Lemma new_events_app (w : World) (tl : list Event) (t : gmap string KafkaRequest)
    (fs : list bool) (c : Time) (u : nat) :
  new_events w (mkWorld t fs c u (trace w ++ tl)) = tl.
Proof. unfold new_events. cbn. apply drop_app_length. Qed.

Lemma append_cons (c : ascii) (a b : string) :
  String c a +:+ b = String c (a +:+ b).
Proof. reflexivity. Qed.

Lemma append_nil (b : string) : "" +:+ b = b.
Proof. reflexivity. Qed.

Lemma prefix_append (a b : string) : String.prefix a (a +:+ b) = true.
Proof.
  induction a as [|c a IH].
  - rewrite append_nil. now destruct b.
  - rewrite append_cons. cbn.
    destruct (Ascii.ascii_dec c c); [exact IH | congruence].
Qed.

Lemma substring_all (b : string) : String.substring 0 (String.length b) b = b.
Proof. induction b as [|d b IH]; cbn; [reflexivity | now rewrite IH]. Qed.

Lemma substring_append_rest (a b : string) :
  String.substring (String.length a) (String.length b) (a +:+ b) = b.
Proof.
  induction a as [|c a IH].
  - rewrite append_nil. apply substring_all.
  - rewrite append_cons. cbn. exact IH.
Qed.

Lemma length_append (a b : string) :
  String.length (a +:+ b) = (String.length a + String.length b)%nat.
Proof.
  induction a as [|c a IH]; [reflexivity|].
  rewrite append_cons. cbn. now rewrite IH.
Qed.

Lemma substring_0_0 (s : string) : String.substring 0 0 s = "".
Proof. now destruct s. Qed.

Lemma strings_Index_prefix (s sub : string) :
  String.prefix sub s = true -> strings_Index s sub = Some 0%nat.
Proof. intros H. destruct s; cbn [strings_Index]; now rewrite H. Qed.

(** A leading [old] is the occurrence that is rewritten. *)
Lemma strings_Replace1_prefix (old new rest : string) :
  strings_Replace1 (old +:+ rest) old new = new +:+ rest.
Proof.
  unfold strings_Replace1.
  rewrite (strings_Index_prefix _ _ (prefix_append old rest)).
  rewrite substring_0_0, append_nil, length_append.
  replace (String.length old + String.length rest - (0 + String.length old))%nat
    with (String.length rest) by lia.
  change (0 + String.length old)%nat with (String.length old).
  now rewrite substring_append_rest.
Qed.





Section Preparation.

Variable deps : Deps.
Variable k : kafkaService.


(** When the identity provider refuses the client, preparation stops with
    the SSO client error before its update. *)
Lemma PrepareKafkaRequest_sso_failure
    (kafkaRequest prepared : KafkaRequest) (err : option ServiceError)
    (w w' : World) (clientId orgId issued : string) (e : ServiceError) :
  PrepareKafkaRequest deps k kafkaRequest w = ((prepared, err), w') ->
  In (EvRegisterKafkaClientInSSO clientId orgId) (new_events w w') ->
  RegisterKafkaClientInSSO (keycloakService k) clientId orgId = (issued, Some e) ->
  Code <$> err = Some ErrorFailedToCreateSSOClient
  /\ kafka_requests w' = kafka_requests w
  /\ writes_of (trace w') = writes_of (trace w).
Proof.
  intros Hrun Hev Hfail. revert Hrun.
  prepare_cases deps k kafkaRequest; intros Hrun.
  all: try rewrite Update_run in Hrun.
  all: try match type of Hrun with context [fault_at 0 ?wp] =>
             destruct (fault_at 0 wp) eqn:Hfault end.
  all: cbv beta iota in Hrun; unfold ret in Hrun; injection Hrun as <- <- <-.
  all: unfold new_events, sent in Hev; cbn [trace] in Hev;
    rewrite <- ?app_assoc in Hev; rewrite ?drop_app_length, ?drop_all in Hev;
    cbn in Hev.
  all: repeat match type of Hev with
         | _ \/ _ => destruct Hev as [Hev|Hev]
         | False => destruct Hev
         | _ = _ => first [discriminate Hev | injection Hev as <- <-]
         end.
  all: cbn in Hfail; try (cbn in Hsso; congruence).
  all: cbn [kafka_requests trace]; rewrite ?writes_of_app; cbn;
    rewrite ?app_nil_r; auto.
Qed.

End Preparation.

(** ** Deletion *)

Section Deletion.

Variable deps : Deps.
Variable k : kafkaService.

(** Case analysis on the answers of the collaborators along the clean-up
    of [Delete]. *)
Ltac cleanup_cases kafkaRequest :=
  unfold deleteDependencies, ChangeKafkaCNAMErecords, bind, emit, ret;
  destruct (bool_decide (ClusterID kafkaRequest = "")) eqn:Hcluster;
  cbn [negb];
  [|destruct (EnableAuthenticationOnKafka (GetConfig (keycloakService k)))
      eqn:Hauth;
    [destruct (DeRegisterClientInSSO (keycloakService k)
                 (BuildKeycloakClientNameIdentifier deps (ID kafkaRequest)))
       as [keycloakErr|] eqn:Hsso|];
    try (destruct (EnableKafkaExternalCertificate (kafkaConfig k)) eqn:Hext;
         [destruct (GetClusterDNS (clusterService k) (ClusterID kafkaRequest))
            as [dns [dnsErr|]] eqn:Hdns;
          [|match goal with
            | |- context [aws_NewClient deps ?c ?r] =>
                destruct (aws_NewClient deps c r) as [awsErr|] eqn:Haws
            end;
            [|match goal with
              | |- context [aws_ChangeResourceRecordSets deps ?z ?b] =>
                  destruct (aws_ChangeResourceRecordSets deps z b)
                    as [changeErr|] eqn:Hchange
              end]]|])];
  cbn -[buildKafkaClusterCNAMESRecordBatch].

(** The clean-up sends nothing to the store. *)
Lemma deleteDependencies_frame (kafkaRequest : KafkaRequest) (w : World) :
  let wc := (deleteDependencies deps k kafkaRequest w).2 in
  kafka_requests wc = kafka_requests w
  /\ db_faults wc = db_faults w
  /\ writes_of (trace wc) = writes_of (trace w).
Proof.
  cleanup_cases kafkaRequest;
    rewrite ?writes_of_app; cbn; rewrite ?app_nil_r; auto.
Qed.

(** A failed clean-up is the result of [Delete], which then deletes
    nothing. *)
Lemma Delete_cleanup_failure (kafkaRequest : KafkaRequest)
    (e : ServiceError) (w wc : World) :
  deleteDependencies deps k kafkaRequest w = (Some e, wc) ->
  Delete deps k kafkaRequest w = (Some e, wc)
  /\ kafka_requests wc = kafka_requests w
  /\ writes_of (trace wc) = writes_of (trace w).
Proof.
  intros Hclean.
  pose proof (deleteDependencies_frame kafkaRequest w) as (Ht & _ & Hwr).
  rewrite Hclean in Ht, Hwr. cbn [snd] in Ht, Hwr.
  unfold Delete, bind. rewrite Hclean. auto.
Qed.

(** The identity provider failing to delete the client fails the
    clean-up. *)
Lemma deleteDependencies_identity_failure
    (kafkaRequest : KafkaRequest) (e : ServiceError) (w : World) :
  ClusterID kafkaRequest <> "" ->
  EnableAuthenticationOnKafka (GetConfig (keycloakService k)) = true ->
  DeRegisterClientInSSO (keycloakService k)
    (BuildKeycloakClientNameIdentifier deps (ID kafkaRequest)) = Some e ->
  exists wc,
    deleteDependencies deps k kafkaRequest w
    = (Some (errors.NewWithCause ErrorGeneral (ServiceError_Error e)
               "error deleting sso client"), wc).
Proof.
  intros Hcl Hauth Hfail. unfold deleteDependencies, bind, emit, ret.
  rewrite (bool_decide_eq_false_2 _ Hcl), Hauth, Hfail. cbn. eauto.
Qed.

(** The DNS authority refusing the DELETE batch fails the clean-up. *)
Lemma deleteDependencies_dns_failure
    (kafkaRequest : KafkaRequest) (res : option ServiceError) (w wc : World)
    (zone : string) (batch : ChangeBatch) (e : error) :
  deleteDependencies deps k kafkaRequest w = (res, wc) ->
  In (EvChangeResourceRecordSets zone batch) (new_events w wc) ->
  aws_ChangeResourceRecordSets deps zone batch = Some e ->
  Code <$> res = Some ErrorGeneral.
Proof.
  intros Hrun Hev Hfail. revert Hrun.
  cleanup_cases kafkaRequest; intros Hrun; injection Hrun as <- <-.
  all: unfold new_events in Hev; cbn [trace] in Hev;
    rewrite <- ?app_assoc in Hev; rewrite ?drop_app_length, ?drop_all in Hev;
    cbn in Hev.
  all: repeat match type of Hev with
         | _ \/ _ => destruct Hev as [Hev|Hev]
         | False => destruct Hev
         | _ = _ => first [discriminate Hev | injection Hev as <- <-]
         end.
  all: try reflexivity.
  all: cbn in Hchange; congruence.
Qed.

(** C5. A preparation in which the identity provider refuses the client
    returns the SSO client creation error, sends no write and leaves every
    row, hence every status, as it was.  A deletion whose clean-up fails,
    as it does when the identity client cannot be deleted or the DNS
    authority refuses the record removal, returns that error, sends no
    write, and the row is not soft-deleted. *)
Theorem cleanup_failure_keeps_status :
  (forall (kafkaRequest prepared : KafkaRequest) (err : option ServiceError)
          (w w' : World) (clientId orgId issued : string) (e : ServiceError),
      PrepareKafkaRequest deps k kafkaRequest w = ((prepared, err), w') ->
      In (EvRegisterKafkaClientInSSO clientId orgId) (new_events w w') ->
      RegisterKafkaClientInSSO (keycloakService k) clientId orgId
      = (issued, Some e) ->
      Code <$> err = Some ErrorFailedToCreateSSOClient
      /\ kafka_requests w' = kafka_requests w
      /\ writes_of (trace w') = writes_of (trace w))
  /\ (forall (kafkaRequest : KafkaRequest) (e : ServiceError) (w wc : World),
        deleteDependencies deps k kafkaRequest w = (Some e, wc) ->
        Delete deps k kafkaRequest w = (Some e, wc)
        /\ kafka_requests wc = kafka_requests w
        /\ writes_of (trace wc) = writes_of (trace w))
  /\ (forall (kafkaRequest : KafkaRequest) (e : ServiceError) (w : World),
        ClusterID kafkaRequest <> "" ->
        EnableAuthenticationOnKafka (GetConfig (keycloakService k)) = true ->
        DeRegisterClientInSSO (keycloakService k)
          (BuildKeycloakClientNameIdentifier deps (ID kafkaRequest)) = Some e ->
        exists e' wc, deleteDependencies deps k kafkaRequest w = (Some e', wc))
  /\ (forall (kafkaRequest : KafkaRequest) (res : option ServiceError)
             (w wc : World) (zone : string) (batch : ChangeBatch) (e : error),
        deleteDependencies deps k kafkaRequest w = (res, wc) ->
        In (EvChangeResourceRecordSets zone batch) (new_events w wc) ->
        aws_ChangeResourceRecordSets deps zone batch = Some e ->
        exists e', res = Some e').
Proof.
  split; [|split; [|split]].
  - apply PrepareKafkaRequest_sso_failure.
  - apply Delete_cleanup_failure.
  - intros kafkaRequest e w Hcl Hauth Hfail.
    destruct (deleteDependencies_identity_failure kafkaRequest e w Hcl Hauth
                Hfail) as [wc Hwc].
    eauto.
  - intros kafkaRequest res w wc zone batch e Hrun Hev Hfail.
    pose proof (deleteDependencies_dns_failure kafkaRequest res w wc zone
                  batch e Hrun Hev Hfail) as Hcode.
    destruct res as [e'|]; [eauto | discriminate Hcode].
Qed.

End Deletion.

(** ** The expiry sweep *)

Lemma wrap64_small (z : Z) : in_int64 z -> wrap64 z = z.
Proof.
  unfold in_int64, int64_min, int64_max, wrap64. intros H.
  rewrite Z.mod_small by lia. lia.
Qed.

Lemma deprovision_metrics_frame (n : nat) (w : World) :
  let w' := (deprovision_metrics n w).2 in
  kafka_requests w' = kafka_requests w
  /\ writes_of (trace w') = writes_of (trace w).
Proof.
  revert w. induction n as [|n IH]; intros w; [cbn; auto|].
  cbn [deprovision_metrics]. unfold bind, emit.
  specialize (IH (mkWorld (kafka_requests w) (db_faults w) (clock w) (uuids w)
                    ((trace w ++ [EvTotalOperationsCount KafkaOperationDeprovision])
                       ++ [EvSuccessOperationsCount KafkaOperationDeprovision]))).
  cbn in IH. destruct IH as (IHt & IHw). cbn. rewrite IHt, IHw.
  rewrite !writes_of_app. cbn. now rewrite !app_nil_r.
Qed.

Section Expiry.

Variable k : kafkaService.

Lemma not_in_spec (x : string) (l : list string) :
  not_in x l = true <-> x ∉ l.
Proof.
  unfold not_in. rewrite negb_true_iff, bool_decide_eq_false. reflexivity.
Qed.

Lemma exemption_spec (key : string) :
  (if (0 <? length (LongLivedKafkas (kafkaConfig k)))%nat
   then not_in key (LongLivedKafkas (kafkaConfig k)) else true) = true
  <-> key ∉ LongLivedKafkas (kafkaConfig k).
Proof.
  destruct (LongLivedKafkas (kafkaConfig k)) as [|x l] eqn:Hl; cbn.
  - split; [intros _; apply not_elem_of_nil | reflexivity].
  - apply not_in_spec.
Qed.

Lemma deletion_statuses_spec (r : KafkaRequest) :
  not_in (Status r) kafkaDeletionStatuses = true
  <-> Status r <> KafkaStatus_String KafkaRequestStatusDeprovision
      /\ Status r <> KafkaStatus_String KafkaRequestStatusDeleting.
Proof.
  rewrite not_in_spec. unfold kafkaDeletionStatuses.
  rewrite !not_elem_of_cons. pose proof (not_elem_of_nil (Status r)). tauto.
Qed.

(** Within the range of a [Duration] the [WHERE] clause selects the due
    records. *)
Lemma expired_sel_due (now : Time) (hours : Z) (key : string) (r : KafkaRequest) :
  in_int64 (- hours * time_Hour) ->
  expired_sel k now hours key r = true <-> due k now hours key r.
Proof.
  intros Hrange. unfold expired_sel, due, mul64, Time_Add.
  assert (Hneg : in_int64 (-1 * hours)).
  { unfold in_int64, int64_min, int64_max, time_Hour in *. lia. }
  rewrite (wrap64_small _ Hneg).
  replace (-1 * hours * time_Hour) with (- hours * time_Hour) by lia.
  rewrite (wrap64_small _ Hrange).
  rewrite !andb_true_iff, Z.leb_le, deletion_statuses_spec, exemption_spec.
  split; intros H;
    repeat match goal with H : _ /\ _ |- _ => destruct H end;
    repeat split; auto; lia.
Qed.

Lemma expired_sel_exempt (now : Time) (hours : Z) (key : string) (r : KafkaRequest) :
  key ∈ LongLivedKafkas (kafkaConfig k) -> expired_sel k now hours key r = false.
Proof.
  intros Hin. unfold expired_sel.
  destruct (LongLivedKafkas (kafkaConfig k)) as [|x l] eqn:Hl.
  - now apply elem_of_nil in Hin.
  - cbn. unfold not_in. rewrite (bool_decide_eq_true_2 _ Hin). cbn.
    apply andb_false_r.
Qed.

Lemma DeprovisionExpiredKafkas_table (hours : Z) (w : World) :
  kafka_requests (DeprovisionExpiredKafkas k hours w).2
  = if fault_at 0 w then kafka_requests w
    else update_where (fun key r => expired_sel k (clock w) hours key r)
           (fun r => set_UpdatedAt (clock w)
                       (set_Status KafkaRequestStatusDeprovision r))
           (kafka_requests w).
Proof.
  unfold DeprovisionExpiredKafkas, bind, time_Now.
  rewrite gorm_Update_status_run.
  destruct (fault_at 0 w); cbn -[update_where].
  - apply sent_frame.
  - match goal with
    | |- context [if ?c then _ else _] => destruct c
    end; cbn -[update_where];
      [match goal with
       | |- context [deprovision_metrics ?n ?w0] =>
           pose proof (deprovision_metrics_frame n w0) as (Ht & _);
           destruct (deprovision_metrics n w0) as [[] wm]; cbn in Ht |- *;
           rewrite Ht
       end|]; reflexivity.
Qed.

(** C7, amended. For an age whose length in nanoseconds fits a
    [Duration], and a store that executes the update, the sweep sets to
    Deprovision exactly the records that are at least that old, not yet
    Deprovision or Deleting and not on the exemption list, whether they
    carry a deletion stamp or not, and leaves every other row as it is.
    A record on the exemption list keeps its row for every age and every
    store. *)
Theorem DeprovisionExpiredKafkas_sweep
    (kafkaAgeInHours : Z) (w : World) (key : string) (row : KafkaRequest) :
  kafka_requests w !! key = Some row ->
  let w' := (DeprovisionExpiredKafkas k kafkaAgeInHours w).2 in
  (key ∈ LongLivedKafkas (kafkaConfig k) -> kafka_requests w' !! key = Some row)
  /\ (in_int64 (- kafkaAgeInHours * time_Hour) -> fault_at 0 w = false ->
      (due k (clock w) kafkaAgeInHours key row ->
         kafka_requests w' !! key
         = Some (set_UpdatedAt (clock w)
                   (set_Status KafkaRequestStatusDeprovision row)))
      /\ (~ due k (clock w) kafkaAgeInHours key row ->
            kafka_requests w' !! key = Some row)).
Proof.
  intros Hrow w'. subst w'. rewrite DeprovisionExpiredKafkas_table.
  split.
  - intros Hexempt. destruct (fault_at 0 w); [exact Hrow|].
    rewrite update_where_lookup, Hrow. cbn.
    now rewrite (expired_sel_exempt _ _ _ _ Hexempt).
  - intros Hrange Hf. rewrite Hf, update_where_lookup, Hrow. cbn.
    pose proof (expired_sel_due (clock w) kafkaAgeInHours key row Hrange) as Hdue.
    destruct (expired_sel k (clock w) kafkaAgeInHours key row).
    + split; [reflexivity|]. intros Hnot. exfalso. apply Hnot, Hdue. reflexivity.
    + split; [|reflexivity]. intros H. apply Hdue in H. discriminate H.
Qed.

End Expiry.

(** ** Deprovision on request *)

Lemma metrics_of_app (a b : list Event) :
  metrics_of (a ++ b) = metrics_of a ++ metrics_of b.
Proof. unfold metrics_of. apply List.filter_app. Qed.

Lemma metrics_of_sent (s : Statement) (w : World) :
  metrics_of (trace (sent s w)) = metrics_of (trace w).
Proof. unfold sent. cbn. rewrite metrics_of_app. cbn. apply app_nil_r. Qed.

(** The status guard records no metric and leaves the clock alone. *)
Lemma UpdateStatus_metrics (id : string) (status : KafkaStatus) (w : World) :
  let w' := (UpdateStatus id status w).2 in
  metrics_of (trace w') = metrics_of (trace w) /\ clock w' = clock w.
Proof.
  unfold UpdateStatus, bind.
  destruct (decide (id = "")) as [->|Hid]; [cbn; auto|].
  rewrite (GetById_run id w Hid).
  pose proof (metrics_of_sent (StFirst id) w) as Hm.
  pose proof (sent_frame (StFirst id) w) as (_ & Hclk & _).
  destruct (fault_at 0 w); [cbn -[sent]; auto|].
  destruct (kafka_requests w !! id) as [r|]; [|cbn -[sent]; auto].
  destruct (is_live r); [|cbn -[sent]; auto].
  cbv beta iota.
  destruct (bool_decide _ && negb _); [cbn -[sent]; auto|].
  destruct (bool_decide _); [cbn -[sent]; auto|].
  rewrite gorm_Update_status_run.
  destruct (fault_at 0 (sent (StFirst id) w)); cbn -[sent].
  - rewrite metrics_of_sent. split; [exact Hm|].
    now rewrite (proj1 (proj2 (sent_frame _ _))).
  - rewrite metrics_of_app, Hm. cbn. rewrite app_nil_r. auto.
Qed.

(** The statements of the status guard: the fetch, then the update when
    the guard lets it through. *)
Lemma UpdateStatus_statements (id : string) (status : KafkaStatus) (w : World) :
  id <> "" ->
  let run := UpdateStatus id status w in
  exists sts,
    trace run.2 = trace w ++ EvStatement (StFirst id) :: map EvStatement sts
    /\ (run.1.1 = false -> sts = [])
    /\ (run.1 = (true, None) -> sts = [status_update id status])
    /\ (forall s, In s sts -> s = status_update id status).
Proof.
  intros Hid. cbv zeta. unfold UpdateStatus, bind.
  rewrite (GetById_run id w Hid).
  pose proof (sent_frame (StFirst id) w) as (_ & _ & Htr).
  assert (Hnone : forall res : bool * option ServiceError,
    res <> (true, None) ->
    exists sts,
      trace (res, sent (StFirst id) w).2
      = trace w ++ EvStatement (StFirst id) :: map EvStatement sts
      /\ ((res, sent (StFirst id) w).1.1 = false -> sts = [])
      /\ ((res, sent (StFirst id) w).1 = (true, None) ->
          sts = [status_update id status])
      /\ (forall s, In s sts -> s = status_update id status)).
  { intros res Hres. exists []. cbn [fst snd map]. rewrite Htr.
    split; [reflexivity|]. split; [reflexivity|].
    split; [intros Heq; now destruct Hres | intros s []]. }
  destruct (fault_at 0 w); [apply Hnone; discriminate|].
  destruct (kafka_requests w !! id) as [r|]; [|apply Hnone; discriminate].
  destruct (is_live r); [|apply Hnone; discriminate].
  cbv beta iota.
  destruct (bool_decide _ && negb _); [apply Hnone; discriminate|].
  destruct (bool_decide _); [apply Hnone; discriminate|].
  rewrite gorm_Update_status_run. fold (status_update id status).
  exists [status_update id status].
  destruct (fault_at 0 (sent (StFirst id) w)); cbn -[sent].
  - rewrite (proj2 (proj2 (sent_frame _ _))), Htr, <- app_assoc.
    split; [reflexivity|]. split; [discriminate|]. split; [reflexivity|].
    intros s [<-|[]]. reflexivity.
  - rewrite Htr, <- app_assoc.
    split; [reflexivity|]. split; [discriminate|]. split; [reflexivity|].
    intros s [<-|[]]. reflexivity.
Qed.

(** C8, amended. A deprovision request that reaches the status
    transition records the total-operations count of the deprovision
    operation once, right after the owner-scoped fetch and before the
    first statement of the transition, whatever comes of it; the success
    count and the time-in-status metric follow the statements of the
    transition, and only when [UpdateStatus] answered [attempted = true]
    without error.  When the transition is not attempted it sends no
    write and the request still returns without error. *)
Theorem RegisterKafkaDeprovisionJob_metrics
    (ctx : Context) (id : string) (claims : Claims)
    (kafkaRequest : KafkaRequest) (w w1 w2 : World)
    (attempted : bool) (uerr : option ServiceError) :
  id <> "" ->
  GetClaimsFromContext ctx = (claims, None) ->
  gorm_First id (fun r => bool_decide (Owner r = GetUsernameFromClaims claims)) w
  = ((kafkaRequest, None), w1) ->
  UpdateStatus id KafkaRequestStatusDeprovision
    (emit (EvTotalOperationsCount KafkaOperationDeprovision) w1).2
  = ((attempted, uerr), w2) ->
  let outcome :=
    if attempted
    then match uerr with
         | None =>
             [EvSuccessOperationsCount KafkaOperationDeprovision;
              EvStatusSinceCreated KafkaRequestStatusDeprovision
                (ID kafkaRequest) (ClusterID kafkaRequest)
                (time_Since (clock w) (CreatedAt kafkaRequest))]
         | Some _ => []
         end
    else [] in
  metrics_of (trace (RegisterKafkaDeprovisionJob ctx id w).2)
  = metrics_of (trace w)
      ++ EvTotalOperationsCount KafkaOperationDeprovision :: outcome
  /\ (attempted = false -> (RegisterKafkaDeprovisionJob ctx id w).1 = None)
  /\ exists sts,
       trace (RegisterKafkaDeprovisionJob ctx id w).2
       = trace w
           ++ [EvStatement (StFirst id);
               EvTotalOperationsCount KafkaOperationDeprovision;
               EvStatement (StFirst id)]
           ++ map EvStatement sts ++ outcome
       /\ (attempted = false -> sts = [])
       /\ (attempted = true -> uerr = None ->
           sts = [status_update id KafkaRequestStatusDeprovision])
       /\ (forall s, In s sts ->
           s = status_update id KafkaRequestStatusDeprovision).
Proof.
  intros Hid Hclaims Hfirst Hupd. cbv zeta.
  assert (Hrun :
    RegisterKafkaDeprovisionJob ctx id w
    = if attempted
      then match uerr with
           | Some e =>
               (Some (handleGetError "KafkaResource" "id" id
                        (Err (ServiceError_Error e))), w2)
           | None =>
               (None,
                mkWorld (kafka_requests w2) (db_faults w2) (clock w2) (uuids w2)
                  ((trace w2
                      ++ [EvSuccessOperationsCount KafkaOperationDeprovision])
                     ++ [EvStatusSinceCreated KafkaRequestStatusDeprovision
                           (ID kafkaRequest) (ClusterID kafkaRequest)
                           (time_Since (clock w2) (CreatedAt kafkaRequest))]))
           end
      else (None, w2)).
  { unfold RegisterKafkaDeprovisionJob.
    rewrite (bool_decide_eq_false_2 _ Hid), Hclaims.
    unfold bind at 1. rewrite Hfirst.
    unfold bind at 1.
    destruct (emit (EvTotalOperationsCount KafkaOperationDeprovision) w1)
      as [[] we] eqn:Hemit.
    cbn [snd] in Hupd. unfold bind at 1. rewrite Hupd.
    destruct attempted; [destruct uerr as [e|]|]; reflexivity. }
  pose proof (UpdateStatus_metrics id KafkaRequestStatusDeprovision
                (emit (EvTotalOperationsCount KafkaOperationDeprovision) w1).2)
    as (Hm & Hclk).
  destruct (UpdateStatus_statements id KafkaRequestStatusDeprovision
              (emit (EvTotalOperationsCount KafkaOperationDeprovision) w1).2 Hid)
    as (sts & Htr & Hnot & Hdone & Honly).
  rewrite Hupd in Hm, Hclk, Htr, Hnot, Hdone. cbn [fst snd] in Hm, Hclk, Htr, Hnot, Hdone.
  assert (Hw1 : metrics_of (trace w1) = metrics_of (trace w)
                /\ clock w1 = clock w
                /\ trace w1 = trace w ++ [EvStatement (StFirst id)]).
  { rewrite gorm_First_run in Hfirst. injection Hfirst as _ <-.
    split; [apply metrics_of_sent|]. apply sent_frame. }
  destruct Hw1 as (Hm1 & Hclk1 & Htr1).
  cbn [emit trace clock fst snd] in Hm, Hclk, Htr.
  rewrite metrics_of_app, Hm1 in Hm. cbn in Hm.
  rewrite Htr1, <- !app_assoc in Htr. cbn [app] in Htr.
  rewrite Hrun.
  destruct attempted; [destruct uerr as [e|]|]; cbn [fst snd trace].
  - split; [exact Hm|]. split; [discriminate|].
    exists sts. rewrite app_nil_r.
    split; [exact Htr|]. split; [discriminate|].
    split; [discriminate | exact Honly].
  - split; [|split; [discriminate|]].
    + rewrite !metrics_of_app, Hm, Hclk, Hclk1. cbn.
      rewrite <- !app_assoc. reflexivity.
    + exists sts. rewrite Htr, Hclk, Hclk1, <- !app_assoc. cbn [app].
      split; [reflexivity|]. split; [discriminate|].
      split; [intros _ _; now apply Hdone | exact Honly].
  - split; [exact Hm|]. split; [reflexivity|].
    exists sts. rewrite app_nil_r.
    split; [exact Htr|]. split; [intros _; now apply Hnot|].
    split; [discriminate | exact Honly].
Qed.

(** ** Concrete runs *)


(** C7 as stated fails for an age beyond the range of a [Duration]:
    2562048 hours wrap around, and a record created a nanosecond ago is
    swept. *)
Lemma DeprovisionExpiredKafkas_overflow_counterexample :
  let young := Demo.row "k1" "ready" "u1" 999999999999999999 in
  let w := Demo.world [young] [] in
  let run := DeprovisionExpiredKafkas Demo.svc 2562048 w in
  clock w - CreatedAt young = 1
  /\ ~ (2562048 * time_Hour <= clock w - CreatedAt young)
  /\ Status <$> kafka_requests run.2 !! "k1"
     = Some (KafkaStatus_String KafkaRequestStatusDeprovision).
Proof.
  vm_compute. split; [reflexivity|]. split; [|reflexivity].
  intros H. apply H. reflexivity.
Qed.

(** C8 as stated fails for a record that is already Deprovision: the
    transition is not attempted and the total-operations count of the
    deprovision operation is recorded all the same. *)
Lemma RegisterKafkaDeprovisionJob_total_counterexample :
  let w := Demo.world [Demo.row "k1" "deprovision" "u1" 5] [] in
  let ctx : Context := Some (mkClaims "u1" "org-1") in
  let fetched :=
    gorm_First "k1" (fun r => bool_decide (Owner r = "u1")) w in
  let transition :=
    UpdateStatus "k1" KafkaRequestStatusDeprovision
      (emit (EvTotalOperationsCount KafkaOperationDeprovision) fetched.2).2 in
  let run := RegisterKafkaDeprovisionJob ctx "k1" w in
  fetched.1.2 = None
  /\ transition.1.1 = false
  /\ run.1 = None
  /\ metrics_of (trace run.2)
     = [EvTotalOperationsCount KafkaOperationDeprovision].
Proof. vm_compute. repeat split; reflexivity. Qed.

Lemma RegisterKafkaJob_admission_witness :
  let w := Demo.world [Demo.row "k1" "ready" "u1" 5] [] in
  let run := RegisterKafkaJob Demo.deps Demo.svc (Demo.request "u1") w in
  gorm_Count w = ((1, None), (gorm_Count w).2)
  /\ 1 < MaxCapacity (kafkaConfig Demo.svc)
  /\ fault_at 1 w = false
  /\ run.1.2 = None
  /\ kafka_requests run.2 = <[ID run.1.1 := run.1.1]> (kafka_requests w).
Proof.
  intros w run.
  assert (Hcount : gorm_Count w = ((1, None), (gorm_Count w).2))
    by (vm_compute; reflexivity).
  assert (Hrun : RegisterKafkaJob Demo.deps Demo.svc (Demo.request "u1") w
                 = ((run.1.1, run.1.2), run.2)) by (vm_compute; reflexivity).
  assert (Hroom : 1 < MaxCapacity (kafkaConfig Demo.svc))
    by (vm_compute; reflexivity).
  assert (Hf : fault_at 1 w = false) by reflexivity.
  destruct (RegisterKafkaJob_admission Demo.deps Demo.svc _ _ _ _ _ _ _
              Hcount Hrun) as (_ & _ & Hadmit).
  destruct (Hadmit Hroom) as (_ & Hok & _).
  { intros Hq. vm_compute in Hq. discriminate Hq. }
  destruct (Hok Hf) as (Herr & _ & _ & Htable & _).
  repeat split; assumption.
Defined.


Lemma UpdateStatus_fetch_failure_witness :
  let w := Demo.world [Demo.row "k1" "ready" "u1" 5] [] in
  let run := UpdateStatus "k9" KafkaRequestStatusReady w in
  kafka_requests w !! "k9" = None
  /\ run.1.1 = true
  /\ Code <$> run.1.2 = Some ErrorGeneral
  /\ kafka_requests run.2 = kafka_requests w.
Proof.
  intros w run.
  assert (Habsent : kafka_requests w !! "k9" = None)
    by (vm_compute; reflexivity).
  destruct (UpdateStatus_fetch_failure "k9" KafkaRequestStatusReady w)
    as [Hfails Hanswer].
  destruct (Hanswer (Hfails (or_introl Habsent)))
    as (e & Hupd & Hcode & Htable & _).
  subst run. rewrite Hupd. cbn [fst snd fmap option_fmap option_map].
  rewrite Hcode.
  split; [exact Habsent|]. split; [reflexivity|]. split; [reflexivity|].
  exact Htable.
Defined.

Lemma RegisterKafkaJob_quota_gate_witness :
  let w := Demo.world [Demo.row "k1" "ready" "u1" 5] [] in
  let run := RegisterKafkaJob Demo.deps (Demo.svc_quota false)
               (Demo.request "u1") w in
  gorm_Count w = ((1, None), (gorm_Count w).2)
  /\ EnableQuotaService (kafkaConfig (Demo.svc_quota false)) = true
  /\ quota_answer Demo.deps (Demo.svc_quota false) (Demo.request "u1") w
     = (false, "uuid-0", None)
  /\ Code <$> run.1.2 = Some ErrorInsufficientQuota
  /\ kafka_requests run.2 = kafka_requests w
  /\ dns_identity_calls (trace run.2) = dns_identity_calls (trace w).
Proof.
  intros w run.
  assert (Hcount : gorm_Count w = ((1, None), (gorm_Count w).2))
    by (vm_compute; reflexivity).
  assert (Hroom : 1 < MaxCapacity (kafkaConfig (Demo.svc_quota false)))
    by (vm_compute; reflexivity).
  assert (Hon : EnableQuotaService (kafkaConfig (Demo.svc_quota false)) = true)
    by reflexivity.
  assert (Hrun : RegisterKafkaJob Demo.deps (Demo.svc_quota false)
                   (Demo.request "u1") w
                 = ((run.1.1, run.1.2), run.2)) by (vm_compute; reflexivity).
  assert (Hdeny : quota_answer Demo.deps (Demo.svc_quota false)
                    (Demo.request "u1") w = (false, "uuid-0", None))
    by (vm_compute; reflexivity).
  destruct (RegisterKafkaJob_quota_gate Demo.deps (Demo.svc_quota false) _ _ _
              _ _ _ _ Hcount Hroom Hon Hrun) as [Hdenied _].
  destruct (Hdenied _ Hdeny) as (Hcode & Htable & _ & Hdns).
  repeat split; assumption.
Defined.


Lemma cleanup_failure_keeps_status_witness :
  let stored := Demo.row "k1" "accepted" "u1" 5 in
  let w := Demo.world [stored] [] in
  let run := PrepareKafkaRequest Demo.deps Demo.svc_sso_down stored w in
  In (EvRegisterKafkaClientInSSO "kafka-k1" "org-1") (new_events w run.2)
  /\ (RegisterKafkaClientInSSO (keycloakService Demo.svc_sso_down)
        "kafka-k1" "org-1").2
     = Some (errors.GeneralError "sso is down")
  /\ Code <$> run.1.2 = Some ErrorFailedToCreateSSOClient
  /\ kafka_requests run.2 = kafka_requests w.
Proof.
  intros stored w run.
  assert (Hrun : PrepareKafkaRequest Demo.deps Demo.svc_sso_down stored w
                 = ((run.1.1, run.1.2), run.2)) by (vm_compute; reflexivity).
  assert (Hev : In (EvRegisterKafkaClientInSSO "kafka-k1" "org-1")
                   (new_events w run.2)) by (vm_compute; auto).
  assert (Hfail : RegisterKafkaClientInSSO (keycloakService Demo.svc_sso_down)
                    "kafka-k1" "org-1"
                  = ("", Some (errors.GeneralError "sso is down")))
    by reflexivity.
  destruct (proj1 (cleanup_failure_keeps_status Demo.deps Demo.svc_sso_down)
              stored _ _ w _ _ _ _ _ Hrun Hev Hfail) as (Hcode & Htable & _).
  split; [exact Hev|]. split; [reflexivity|]. split; assumption.
Defined.

Lemma DeprovisionExpiredKafkas_sweep_witness :
  let old := set_DeletedAt (Some 7) (Demo.row "k3" "ready" "u1" 5) in
  let w := Demo.world [old; Demo.row "long-lived" "ready" "u1" 5] [] in
  let run := DeprovisionExpiredKafkas Demo.svc 48 w in
  kafka_requests w !! "k3" = Some old
  /\ in_int64 (- 48 * time_Hour)
  /\ fault_at 0 w = false
  /\ due Demo.svc (clock w) 48 "k3" old
  /\ kafka_requests run.2 !! "k3"
     = Some (set_UpdatedAt (clock w)
               (set_Status KafkaRequestStatusDeprovision old)).
Proof.
  intros old w run.
  assert (Hrow : kafka_requests w !! "k3" = Some old)
    by (vm_compute; reflexivity).
  assert (Hrange : in_int64 (- 48 * time_Hour))
    by (vm_compute; split; discriminate).
  assert (Hf : fault_at 0 w = false) by reflexivity.
  assert (Hdue : due Demo.svc (clock w) 48 "k3" old).
  { split; [vm_compute; discriminate|].
    split; [discriminate|]. split; [discriminate|].
    apply not_elem_of_cons. split; [discriminate | apply not_elem_of_nil]. }
  destruct (DeprovisionExpiredKafkas_sweep Demo.svc 48 w "k3" old Hrow)
    as [_ Hsweep].
  destruct (Hsweep Hrange Hf) as [Hswept _].
  split; [exact Hrow|]. split; [exact Hrange|]. split; [exact Hf|].
  split; [exact Hdue|]. exact (Hswept Hdue).
Defined.

Lemma RegisterKafkaDeprovisionJob_metrics_witness :
  let stored := Demo.row "k1" "ready" "u1" 5 in
  let w := Demo.world [stored] [] in
  let ctx : Context := Some (mkClaims "u1" "org-1") in
  let fetched :=
    gorm_First "k1" (fun r => bool_decide (Owner r = "u1")) w in
  let run := RegisterKafkaDeprovisionJob ctx "k1" w in
  fetched.1 = (stored, None)
  /\ metrics_of (trace run.2)
     = [EvTotalOperationsCount KafkaOperationDeprovision;
        EvSuccessOperationsCount KafkaOperationDeprovision;
        EvStatusSinceCreated KafkaRequestStatusDeprovision "k1" "c1"
          (time_Since (clock w) 5)]
  /\ trace run.2
     = [EvStatement (StFirst "k1");
        EvTotalOperationsCount KafkaOperationDeprovision;
        EvStatement (StFirst "k1");
        EvStatement (status_update "k1" KafkaRequestStatusDeprovision);
        EvSuccessOperationsCount KafkaOperationDeprovision;
        EvStatusSinceCreated KafkaRequestStatusDeprovision "k1" "c1"
          (time_Since (clock w) 5)].
Proof.
  intros stored w ctx fetched run.
  assert (Hid : "k1" <> "") by discriminate.
  assert (Hclaims : GetClaimsFromContext ctx = (mkClaims "u1" "org-1", None))
    by reflexivity.
  assert (Hfirst :
            gorm_First "k1"
              (fun r => bool_decide
                          (Owner r = GetUsernameFromClaims (mkClaims "u1" "org-1")))
              w
            = ((stored, None), fetched.2)) by (vm_compute; reflexivity).
  pose (transition :=
          UpdateStatus "k1" KafkaRequestStatusDeprovision
            (emit (EvTotalOperationsCount KafkaOperationDeprovision) fetched.2).2).
  assert (Hupd : UpdateStatus "k1" KafkaRequestStatusDeprovision
                   (emit (EvTotalOperationsCount KafkaOperationDeprovision)
                      fetched.2).2
                 = ((true, None), transition.2)) by (vm_compute; reflexivity).
  destruct (RegisterKafkaDeprovisionJob_metrics ctx "k1" _ _ w _ _ _ _
              Hid Hclaims Hfirst Hupd)
    as (Hmetrics & _ & sts & Htrace & _ & Hsts & _).
  split; [vm_compute; reflexivity|]. split; [exact Hmetrics|].
  rewrite (Hsts eq_refl eq_refl) in Htrace. exact Htrace.
Defined.

Lemma Update_ignores_deletion_statuses_witness :
  let stored := Demo.row "k1" "deprovision" "u1" 5 in
  let w := Demo.world [stored] [] in
  let upd := updatedKafkaRequest (Demo.row "k1" "accepted" "u1" 5) in
  kafka_requests w !! "k1" = Some stored
  /\ Status stored = KafkaStatus_String KafkaRequestStatusDeprovision
  /\ (Update upd w).1 = None
  /\ kafka_requests (Update upd w).2 = kafka_requests w
  /\ kafka_requests
       (PrepareKafkaRequest Demo.deps Demo.svc upd w).2 !! "k1" = Some stored.
Proof.
  intros stored w upd.
  assert (Hrow : kafka_requests w !! "k1" = Some stored)
    by (vm_compute; reflexivity).
  assert (Hstatus : Status stored = KafkaStatus_String KafkaRequestStatusDeprovision
                    \/ Status stored = KafkaStatus_String KafkaRequestStatusDeleting)
    by (left; reflexivity).
  destruct (Update_ignores_deletion_statuses Demo.deps Demo.svc upd stored "k1"
              w Hrow Hstatus) as ((_ & Hnil & Htable) & (Hprep & _)).
  split; [exact Hrow|]. split; [reflexivity|].
  split; [apply Hnil; reflexivity|].
  split; [apply Htable; [reflexivity | discriminate]|].
  exact Hprep.
Defined.

(** * Further properties of the service *)

(** ** Admission keeps the ceiling *)

Lemma live_rows_insert_size (t : gmap string KafkaRequest) (key : string)
    (r : KafkaRequest) :
  (size (live_rows (<[key := r]> t)) <= S (size (live_rows t)))%nat.
Proof.
  unfold live_rows. rewrite map_filter_insert.
  destruct (decide (is_live (key, r).2 = true)).
  - rewrite map_size_insert.
    destruct (filter _ t !! key); unfold id; lia.
  - rewrite map_filter_delete, map_size_delete.
    destruct (filter _ t !! key); unfold id; lia.
Qed.

(** The world in which [RegisterKafkaJob] ends when it does not reach the
    save, and the one in which it saves. *)
Lemma RegisterKafkaJob_table
    (deps : Deps) (k : kafkaService) (kafkaRequest : KafkaRequest) (w : World) :
  let run := RegisterKafkaJob deps k kafkaRequest w in
  (run.1.2 <> None
   /\ kafka_requests run.2 = kafka_requests w
   /\ metrics_of (trace run.2) = metrics_of (trace w))
  \/ (run.1.2 = None
      /\ record_count w < MaxCapacity (kafkaConfig k)
      /\ Status run.1.1 = KafkaStatus_String KafkaRequestStatusAccepted
      /\ kafka_requests run.2 = <[ID run.1.1 := run.1.1]> (kafka_requests w)
      /\ metrics_of (trace run.2)
         = metrics_of (trace w)
             ++ [EvStatusSinceCreated KafkaRequestStatusAccepted (ID run.1.1)
                   (ClusterID run.1.1)
                   (time_Since (clock w) (CreatedAt run.1.1))]).
Proof.
  unfold RegisterKafkaJob, HasAvailableCapacity, gorm_Count, bind.
  rewrite db_statement_run.
  pose proof (sent_frame StCount w) as (Ht0 & Hclk0 & _).
  pose proof (metrics_of_sent StCount w) as Hm0.
  destruct (fault_at 0 w); [left; cbn -[sent]; repeat split; auto; discriminate|].
  unfold get_table, ret. rewrite Ht0. fold (record_count w).
  destruct (record_count w <? MaxCapacity (kafkaConfig k)) eqn:Hlt;
    cbn [negb]; [|left; cbn -[sent]; repeat split; auto; discriminate].
  apply Z.ltb_lt in Hlt.
  assert (Hq : kafka_requests (reserveQuota deps k kafkaRequest (sent StCount w)).2
               = kafka_requests w
               /\ clock (reserveQuota deps k kafkaRequest (sent StCount w)).2
                  = clock w
               /\ metrics_of
                    (trace (reserveQuota deps k kafkaRequest (sent StCount w)).2)
                  = metrics_of (trace w)).
  { rewrite <- Hm0, <- Ht0, <- Hclk0. generalize (sent StCount w). intros w0.
    unfold reserveQuota, bind, uuid_New, emit, ret.
    destruct (EnableQuotaService (kafkaConfig k)); cbn; [|auto].
    destruct (ReserveQuota _ _ _ _ _ _ _) as [[isAllowed rid] [e|]];
      [|destruct isAllowed]; cbn; rewrite metrics_of_app; cbn;
      rewrite app_nil_r; auto. }
  destruct Hq as (Htq & Hclkq & Hmq).
  destruct (reserveQuota deps k kafkaRequest (sent StCount w)) as [[qe|] wq];
    cbn [fst snd] in *;
    [left; repeat split; auto; discriminate|].
  unfold gorm_Save, bind. rewrite db_statement_run.
  pose proof (sent_frame (StSave (set_Status
                 (KafkaStatus_String KafkaRequestStatusAccepted)
                 (set_Version (DefaultKafkaVersion (kafkaConfig k)) kafkaRequest)))
                wq) as (Hts & Hclks & _).
  destruct (fault_at 0 wq).
  - left. cbn -[sent]. rewrite metrics_of_sent, Hts.
    split; [discriminate|]. split; congruence.
  - right. cbn -[sent with_defaults]. rewrite Hts, Hclks, Htq, Hclkq.
    rewrite metrics_of_app, metrics_of_sent, Hmq.
    split; [reflexivity|]. split; [exact Hlt|].
    split; [apply with_defaults_fields|]. split; reflexivity.
Qed.

(** X1. Admission never lifts the number of records above the ceiling:
    a table that holds at most [MaxCapacity] visible records still does
    after any call, whatever the request, the quota answer and the store
    do. *)
Theorem RegisterKafkaJob_keeps_ceiling
    (deps : Deps) (k : kafkaService) (kafkaRequest : KafkaRequest) (w : World) :
  record_count w <= MaxCapacity (kafkaConfig k) ->
  record_count (RegisterKafkaJob deps k kafkaRequest w).2
  <= MaxCapacity (kafkaConfig k).
Proof.
  intros Hbound.
  destruct (RegisterKafkaJob_table deps k kafkaRequest w)
    as [(_ & Ht & _) | (_ & Hroom & _ & Ht & _)]; unfold record_count in *;
    rewrite Ht; [exact Hbound|].
  pose proof (live_rows_insert_size (kafka_requests w)
                (ID (RegisterKafkaJob deps k kafkaRequest w).1.1)
                (RegisterKafkaJob deps k kafkaRequest w).1.1).
  lia.
Qed.

(** X2. An admission that fails persists nothing and records no metric;
    one that succeeds stores the returned record under its id and records
    the time-in-status metric for Accepted once. *)
Theorem RegisterKafkaJob_outcome
    (deps : Deps) (k : kafkaService) (kafkaRequest : KafkaRequest) (w : World) :
  let run := RegisterKafkaJob deps k kafkaRequest w in
  (run.1.2 <> None ->
     kafka_requests run.2 = kafka_requests w
     /\ metrics_of (trace run.2) = metrics_of (trace w))
  /\ (run.1.2 = None ->
      kafka_requests run.2 !! ID run.1.1 = Some run.1.1
      /\ Status run.1.1 = KafkaStatus_String KafkaRequestStatusAccepted
      /\ metrics_of (trace run.2)
         = metrics_of (trace w)
             ++ [EvStatusSinceCreated KafkaRequestStatusAccepted (ID run.1.1)
                   (ClusterID run.1.1)
                   (time_Since (clock w) (CreatedAt run.1.1))]).
Proof.
  cbv zeta.
  destruct (RegisterKafkaJob_table deps k kafkaRequest w)
    as [(Herr & Ht & Hm) | (Hok & _ & Hst & Ht & Hm)].
  - split; [auto|]. intros Hnone. now destruct Herr.
  - split; [intros Herr; now destruct Herr|]. intros _.
    split; [rewrite Ht; apply lookup_insert_eq|]. split; assumption.
Qed.

(** X3. When the count fails or the table is full, admission ends right
    after the count: the quota authority is not asked, no reservation id
    is drawn and nothing is written. *)
Theorem RegisterKafkaJob_rejected_before_quota
    (deps : Deps) (k : kafkaService) (kafkaRequest : KafkaRequest) (w : World) :
  fault_at 0 w = true \/ MaxCapacity (kafkaConfig k) <= record_count w ->
  let run := RegisterKafkaJob deps k kafkaRequest w in
  Code <$> run.1.2
  = Some (if fault_at 0 w then ErrorGeneral
          else ErrorTooManyKafkaInstancesReached)
  /\ trace run.2 = trace w ++ [EvStatement StCount]
  /\ uuids run.2 = uuids w
  /\ kafka_requests run.2 = kafka_requests w.
Proof.
  intros Hcause. cbv zeta.
  unfold RegisterKafkaJob, HasAvailableCapacity, gorm_Count, bind.
  rewrite db_statement_run.
  destruct (fault_at 0 w); [cbn; auto|].
  destruct Hcause as [Hf|Hfull]; [discriminate|].
  unfold get_table, ret.
  change (kafka_requests (sent StCount w)) with (kafka_requests w).
  fold (record_count w).
  assert (Hlt : (record_count w <? MaxCapacity (kafkaConfig k)) = false) by lia.
  rewrite Hlt. cbn. auto.
Qed.

Lemma RegisterKafkaJob_rejected_before_quota_witness :
  let w := Demo.world [Demo.row "k1" "ready" "u1" 5;
                       Demo.row "k2" "ready" "u2" 5] [] in
  let run := RegisterKafkaJob Demo.deps (Demo.svc_quota true)
               (Demo.request "u1") w in
  MaxCapacity (kafkaConfig (Demo.svc_quota true)) <= record_count w
  /\ Code <$> run.1.2 = Some ErrorTooManyKafkaInstancesReached
  /\ trace run.2 = trace w ++ [EvStatement StCount].
Proof.
  intros w run.
  assert (Hfull : MaxCapacity (kafkaConfig (Demo.svc_quota true))
                  <= record_count w) by (vm_compute; discriminate).
  destruct (RegisterKafkaJob_rejected_before_quota Demo.deps
              (Demo.svc_quota true) (Demo.request "u1") w (or_intror Hfull))
    as (Hcode & Htrace & _).
  split; [exact Hfull|]. split; [exact Hcode | exact Htrace].
Defined.

Lemma RegisterKafkaJob_keeps_ceiling_witness :
  let w := Demo.world [Demo.row "k1" "ready" "u1" 5] [] in
  record_count w <= MaxCapacity (kafkaConfig Demo.svc)
  /\ record_count (RegisterKafkaJob Demo.deps Demo.svc (Demo.request "u1") w).2
     <= MaxCapacity (kafkaConfig Demo.svc).
Proof.
  intros w.
  assert (Hbound : record_count w <= MaxCapacity (kafkaConfig Demo.svc))
    by (vm_compute; discriminate).
  split; [exact Hbound|].
  exact (RegisterKafkaJob_keeps_ceiling Demo.deps Demo.svc (Demo.request "u1")
           w Hbound).
Defined.

Lemma RegisterKafkaJob_outcome_witness :
  let w := Demo.world [Demo.row "k1" "ready" "u1" 5] [true] in
  let run := RegisterKafkaJob Demo.deps Demo.svc (Demo.request "u1") w in
  run.1.2 <> None /\ kafka_requests run.2 = kafka_requests w.
Proof.
  intros w run.
  assert (Herr : run.1.2 <> None) by (vm_compute; discriminate).
  split; [exact Herr|].
  exact (proj1 (proj1 (RegisterKafkaJob_outcome Demo.deps Demo.svc
                         (Demo.request "u1") w) Herr)).
Defined.

(** ** The status guard writes one row *)

Lemma update_where_other (id key : string)
    (cond : string -> KafkaRequest -> bool) (f : KafkaRequest -> KafkaRequest)
    (t : gmap string KafkaRequest) :
  id <> "" -> key <> id ->
  update_where (fun key r => pk_matches id key && cond key r) f t !! key
  = t !! key.
Proof.
  intros Hid Hne. rewrite update_where_lookup. unfold pk_matches.
  rewrite (bool_decide_eq_false_2 (id = "")) by exact Hid.
  rewrite (bool_decide_eq_false_2 (key = id)) by exact Hne.
  now destruct (t !! key) as [r|].
Qed.

(** What a call of [UpdateStatus] that wrote tells about the table. *)
Lemma UpdateStatus_table (id : string) (status : KafkaStatus) (w : World) :
  let run := UpdateStatus id status w in
  (kafka_requests run.2 = kafka_requests w
   /\ run.1 <> (true, None))
  \/ (id <> ""
      /\ run.1 = (true, None)
      /\ exists row,
           kafka_requests w !! id = Some row
           /\ DeletedAt row = None
           /\ kafka_requests run.2
              = <[id := set_UpdatedAt (clock w) (set_Status status row)]>
                  (kafka_requests w)).
Proof.
  cbv zeta. unfold UpdateStatus, bind.
  destruct (decide (id = "")) as [->|Hid]; [left; cbn; split; [auto|discriminate]|].
  rewrite (GetById_run id w Hid).
  pose proof (sent_frame (StFirst id) w) as (Ht & Hclk & _).
  destruct (fault_at 0 w); [left; cbn -[sent]; split; [auto|discriminate]|].
  destruct (kafka_requests w !! id) as [row|] eqn:Hrow;
    [|left; cbn -[sent]; split; [auto|discriminate]].
  destruct (is_live row) eqn:Hlive;
    [|left; cbn -[sent]; split; [auto|discriminate]].
  cbv beta iota.
  destruct (bool_decide _ && negb _);
    [left; cbn -[sent]; split; [auto|discriminate]|].
  destruct (bool_decide _); [left; cbn -[sent]; split; [auto|discriminate]|].
  rewrite gorm_Update_status_run.
  destruct (fault_at 0 (sent (StFirst id) w)); cbn -[sent update_where].
  - left. rewrite (proj1 (sent_frame _ _)). split; [auto|discriminate].
  - right. split; [exact Hid|]. split; [reflexivity|].
    exists row. split; [reflexivity|].
    split; [unfold is_live in Hlive; now destruct (DeletedAt row)|].
    rewrite Ht, Hclk.
    now rewrite (update_where_pk id (fun _ _ => true) _ _ row Hid Hrow).
Qed.

(** X4. [UpdateStatus] leaves every row but that of [id] as it is, and
    of that row it changes at most the status and the update stamp. *)
Theorem UpdateStatus_touches_one_row
    (id key : string) (status : KafkaStatus) (w : World) :
  let w' := (UpdateStatus id status w).2 in
  (key <> id -> kafka_requests w' !! key = kafka_requests w !! key)
  /\ (kafka_requests w' !! id = kafka_requests w !! id
      \/ exists row,
           kafka_requests w !! id = Some row
           /\ kafka_requests w' !! id
              = Some (set_UpdatedAt (clock w) (set_Status status row))).
Proof.
  cbv zeta.
  destruct (UpdateStatus_table id status w)
    as [(Ht & _) | (Hid & _ & row & Hrow & _ & Ht)]; rewrite Ht.
  - auto.
  - split.
    + intros Hne. now rewrite lookup_insert_ne by congruence.
    + right. exists row. split; [exact Hrow | apply lookup_insert_eq].
Qed.

Lemma UpdateStatus_touches_one_row_witness :
  let w := Demo.world [Demo.row "k1" "ready" "u1" 5;
                       Demo.row "k2" "ready" "u2" 5] [] in
  let w' := (UpdateStatus "k1" KafkaRequestStatusFailed w).2 in
  "k2" <> "k1"
  /\ kafka_requests w' !! "k2" = kafka_requests w !! "k2".
Proof.
  intros w w'.
  assert (Hne : "k2" <> "k1") by discriminate.
  split; [exact Hne|].
  exact (proj1 (UpdateStatus_touches_one_row "k1" "k2"
                  KafkaRequestStatusFailed w) Hne).
Defined.

(** X5. Asking for the same status again is not attempted: after a call
    of [UpdateStatus] that wrote, the same call on a store that answers
    the fetch returns [attempted = false] with an error and changes
    nothing. *)
Theorem UpdateStatus_repeat
    (id : string) (status : KafkaStatus) (w w1 : World) :
  UpdateStatus id status w = ((true, None), w1) ->
  fault_at 0 w1 = false ->
  let again := UpdateStatus id status w1 in
  again.1.1 = false
  /\ again.1.2 <> None
  /\ kafka_requests again.2 = kafka_requests w1.
Proof.
  intros Hfirst Hf. cbv zeta.
  destruct (UpdateStatus_table id status w)
    as [(_ & Hne) | (Hid & _ & row & Hrow & Hlive & Ht)];
    rewrite Hfirst in *; cbn [fst snd] in *; [now destruct Hne|].
  assert (Hrow1 : kafka_requests w1 !! id
                  = Some (set_UpdatedAt (clock w) (set_Status status row))).
  { rewrite Ht. apply lookup_insert_eq. }
  unfold UpdateStatus, bind.
  rewrite (GetById_stored id _ w1 Hid Hf Hrow1 Hlive).
  pose proof (sent_frame (StFirst id) w1) as (Ht1 & _ & _).
  cbn [Status set_UpdatedAt set_Status].
  destruct (bool_decide _ && negb _); [cbn -[sent]; split; [auto|]; split; [discriminate|auto]|].
  rewrite (bool_decide_eq_true_2 (status = KafkaStatus_String status))
    by reflexivity.
  cbn -[sent]. split; [auto|]. split; [discriminate|auto].
Qed.

Lemma UpdateStatus_repeat_witness :
  let w := Demo.world [Demo.row "k1" "ready" "u1" 5] [] in
  let first := UpdateStatus "k1" KafkaRequestStatusFailed w in
  let again := UpdateStatus "k1" KafkaRequestStatusFailed first.2 in
  first.1 = (true, None)
  /\ again.1.1 = false
  /\ kafka_requests again.2 = kafka_requests first.2.
Proof.
  intros w first again.
  assert (Hfirst : UpdateStatus "k1" KafkaRequestStatusFailed w
                   = ((true, None), first.2)) by (vm_compute; reflexivity).
  assert (Hf : fault_at 0 first.2 = false) by reflexivity.
  destruct (UpdateStatus_repeat "k1" KafkaRequestStatusFailed w first.2
              Hfirst Hf) as (Hatt & _ & Ht).
  split; [vm_compute; reflexivity|]. split; [exact Hatt | exact Ht].
Defined.

(** ** Deletion *)

Lemma gorm_Delete_run (r : KafkaRequest) (w : World) :
  ID r <> "" ->
  gorm_Delete r w
  = if fault_at 0 w
    then (Some (Err "store failure"), sent (StDelete r) w)
    else (None,
          mkWorld
            (update_where (fun key row => bool_decide (key = ID r) && is_live row)
               (set_DeletedAt (Some (clock w))) (kafka_requests w))
            (tail (db_faults w)) (clock w) (uuids w)
            (trace w ++ [EvStatement (StDelete r)])).
Proof.
  intros Hid. unfold gorm_Delete, bind.
  rewrite (bool_decide_eq_false_2 _ Hid), db_statement_run.
  now destruct (fault_at 0 w).
Qed.

(** The clean-up records no metric and leaves the clock alone. *)
Lemma deleteDependencies_quiet
    (deps : Deps) (k : kafkaService) (kafkaRequest : KafkaRequest) (w : World) :
  let wc := (deleteDependencies deps k kafkaRequest w).2 in
  clock wc = clock w /\ metrics_of (trace wc) = metrics_of (trace w)
  /\ (ClusterID kafkaRequest = "" ->
      deleteDependencies deps k kafkaRequest w = (None, w)).
Proof.
  unfold deleteDependencies, ChangeKafkaCNAMErecords, bind, emit, ret.
  destruct (bool_decide (ClusterID kafkaRequest = "")) eqn:Hcluster; cbn [negb].
  { cbn. auto. }
  apply bool_decide_eq_false_1 in Hcluster.
  destruct (EnableAuthenticationOnKafka (GetConfig (keycloakService k)));
    [destruct (DeRegisterClientInSSO _ _)|];
    try (destruct (EnableKafkaExternalCertificate (kafkaConfig k));
         [destruct (GetClusterDNS _ _) as [dns [dnsErr|]];
          [|match goal with
            | |- context [aws_NewClient deps ?c ?r] =>
                destruct (aws_NewClient deps c r)
            end;
            [|match goal with
              | |- context [aws_ChangeResourceRecordSets deps ?z ?b] =>
                  destruct (aws_ChangeResourceRecordSets deps z b)
              end]]|]);
    cbn -[buildKafkaClusterCNAMESRecordBatch];
    rewrite ?metrics_of_app; cbn; rewrite ?app_nil_r;
    (split; [reflexivity|]; split; [reflexivity|]; intros Hc; now destruct Hcluster).
Qed.

(** The row that a soft delete at instant [now] leaves under [key]. *)
Lemma soft_delete_lookup (id key : string) (now : Time)
    (t : gmap string KafkaRequest) :
  update_where (fun key row => bool_decide (key = id) && is_live row)
    (set_DeletedAt (Some now)) t !! key
  = (fun row => if bool_decide (key = id) && is_live row
                then set_DeletedAt (Some now) row else row) <$> t !! key.
Proof.
  apply update_where_lookup.
Qed.

(** The rows after a deletion that succeeded. *)
Lemma Delete_success_rows
    (deps : Deps) (k : kafkaService) (kafkaRequest : KafkaRequest)
    (w wd : World) :
  Delete deps k kafkaRequest w = (None, wd) ->
  ID kafkaRequest <> ""
  /\ (forall key,
        kafka_requests wd !! key
        = (fun row => if bool_decide (key = ID kafkaRequest) && is_live row
                      then set_DeletedAt (Some (clock w)) row else row)
            <$> kafka_requests w !! key).
Proof.
  unfold Delete, bind.
  pose proof (deleteDependencies_frame deps k kafkaRequest w) as (Ht & _ & _).
  pose proof (deleteDependencies_quiet deps k kafkaRequest w) as (Hclk & _ & _).
  destruct (deleteDependencies deps k kafkaRequest w) as [[e|] wc];
    cbn [fst snd] in *; [discriminate|].
  destruct (decide (ID kafkaRequest = "")) as [Hblank|Hid].
  { unfold gorm_Delete. rewrite (bool_decide_eq_true_2 _ Hblank). discriminate. }
  rewrite (gorm_Delete_run kafkaRequest wc Hid).
  destruct (fault_at 0 wc); cbn -[sent update_where]; [discriminate|].
  intros [= <-]. split; [exact Hid|].
  intros key. cbn [kafka_requests]. rewrite Ht, Hclk. apply soft_delete_lookup.
Qed.

(** X6. A deletion either fails, and then no row changes and no delete
    metric is recorded, or it succeeds, and then the visible row of the
    request is stamped as deleted at the current instant, every other row
    is as before, and the total and success counts of the delete operation
    are recorded once each. *)
Theorem Delete_outcome
    (deps : Deps) (k : kafkaService) (kafkaRequest : KafkaRequest) (w : World) :
  let run := Delete deps k kafkaRequest w in
  (run.1 <> None ->
     kafka_requests run.2 = kafka_requests w
     /\ metrics_of (trace run.2) = metrics_of (trace w))
  /\ (run.1 = None ->
      ID kafkaRequest <> ""
      /\ (forall key,
            kafka_requests run.2 !! key
            = (fun row => if bool_decide (key = ID kafkaRequest) && is_live row
                          then set_DeletedAt (Some (clock w)) row else row)
                <$> kafka_requests w !! key)
      /\ metrics_of (trace run.2)
         = metrics_of (trace w)
             ++ [EvTotalOperationsCount KafkaOperationDelete;
                 EvSuccessOperationsCount KafkaOperationDelete]).
Proof.
  cbv zeta. unfold Delete, bind.
  pose proof (deleteDependencies_frame deps k kafkaRequest w) as (Ht & _ & _).
  pose proof (deleteDependencies_quiet deps k kafkaRequest w) as (Hclk & Hm & _).
  destruct (deleteDependencies deps k kafkaRequest w) as [[e|] wc];
    cbn [fst snd] in *.
  { split; [auto|discriminate]. }
  destruct (decide (ID kafkaRequest = "")) as [Hblank|Hid].
  { unfold gorm_Delete. rewrite (bool_decide_eq_true_2 _ Hblank). cbn.
    split; [auto|discriminate]. }
  rewrite (gorm_Delete_run kafkaRequest wc Hid).
  destruct (fault_at 0 wc); cbn -[sent update_where].
  - rewrite metrics_of_sent, (proj1 (sent_frame _ _)).
    split; [auto|discriminate].
  - split; [intros Hne; now destruct Hne|]. intros _.
    split; [exact Hid|]. split.
    + intros key. rewrite Ht, Hclk. apply soft_delete_lookup.
    + rewrite !metrics_of_app, Hm. cbn. now rewrite <- !app_assoc.
Qed.

Lemma Delete_outcome_witness :
  let stored := Demo.row "k1" "deleting" "u1" 5 in
  let w := Demo.world [stored] [] in
  let run := Delete Demo.deps Demo.svc stored w in
  run.1 = None
  /\ kafka_requests run.2 !! "k1" = Some (set_DeletedAt (Some (clock w)) stored).
Proof.
  intros stored w run.
  assert (Hok : run.1 = None) by (vm_compute; reflexivity).
  destruct (proj2 (Delete_outcome Demo.deps Demo.svc stored w) Hok)
    as (_ & Hrows & _).
  split; [exact Hok|]. subst run. rewrite (Hrows "k1").
  vm_compute. reflexivity.
Defined.

Lemma external_calls_app (a b : list Event) :
  external_calls (a ++ b) = external_calls a ++ external_calls b.
Proof. unfold external_calls. apply List.filter_app. Qed.

(** X7. A request that was never placed on a cluster is deleted from the
    table only: neither the identity provider nor the cluster service nor
    the DNS authority is called, whatever the configuration. *)
Theorem Delete_without_cluster
    (deps : Deps) (k : kafkaService) (kafkaRequest : KafkaRequest) (w : World) :
  ClusterID kafkaRequest = "" ->
  external_calls (trace (Delete deps k kafkaRequest w).2)
  = external_calls (trace w).
Proof.
  intros Hcluster. unfold Delete, bind.
  rewrite (proj2 (proj2 (deleteDependencies_quiet deps k kafkaRequest w))
             Hcluster).
  destruct (decide (ID kafkaRequest = "")) as [Hblank|Hid].
  { unfold gorm_Delete. rewrite (bool_decide_eq_true_2 _ Hblank). reflexivity. }
  rewrite (gorm_Delete_run kafkaRequest w Hid).
  destruct (fault_at 0 w); unfold sent; cbn;
    rewrite !external_calls_app; cbn; now rewrite !app_nil_r.
Qed.

Lemma Delete_without_cluster_witness :
  let pending := set_ID "k7" (Demo.request "u1") in
  let w := Demo.world [pending] [] in
  ClusterID pending = ""
  /\ external_calls (trace (Delete Demo.deps Demo.svc_sso_down pending w).2)
     = external_calls (trace w).
Proof.
  intros pending w.
  assert (Hcluster : ClusterID pending = "") by reflexivity.
  split; [exact Hcluster|].
  exact (Delete_without_cluster Demo.deps Demo.svc_sso_down pending w Hcluster).
Defined.

(** X8. A deleted record is gone for readers: after a deletion that
    succeeded, fetching the record by its id from a store that answers
    reports it as not found. *)
Theorem Delete_then_GetById
    (deps : Deps) (k : kafkaService) (kafkaRequest : KafkaRequest)
    (w wd : World) :
  Delete deps k kafkaRequest w = (None, wd) ->
  fault_at 0 wd = false ->
  Code <$> (GetById (ID kafkaRequest) wd).1.2 = Some ErrorNotFound.
Proof.
  intros Hdel Hf.
  destruct (Delete_success_rows deps k kafkaRequest w wd Hdel) as (Hid & Hrows).
  rewrite (GetById_run _ wd Hid), Hf, (Hrows (ID kafkaRequest)).
  destruct (kafka_requests w !! ID kafkaRequest) as [row|]; cbn; [|reflexivity].
  rewrite (bool_decide_eq_true_2 (ID kafkaRequest = ID kafkaRequest))
    by reflexivity.
  cbn. destruct (is_live row) eqn:Hlive; [reflexivity|].
  now rewrite Hlive.
Qed.

Lemma Delete_then_GetById_witness :
  let stored := Demo.row "k1" "deleting" "u1" 5 in
  let w := Demo.world [stored] [] in
  let run := Delete Demo.deps Demo.svc stored w in
  (GetById "k1" w).1 = (stored, None)
  /\ run.1 = None
  /\ Code <$> (GetById "k1" run.2).1.2 = Some ErrorNotFound.
Proof.
  intros stored w run.
  assert (Hdel : Delete Demo.deps Demo.svc stored w = (None, run.2))
    by (vm_compute; reflexivity).
  assert (Hf : fault_at 0 run.2 = false) by reflexivity.
  split; [vm_compute; reflexivity|]. split; [vm_compute; reflexivity|].
  exact (Delete_then_GetById Demo.deps Demo.svc stored w run.2 Hdel Hf).
Defined.

Lemma live_rows_soft_delete (id : string) (now : Time)
    (t : gmap string KafkaRequest) :
  live_rows (update_where (fun key row => bool_decide (key = id) && is_live row)
               (set_DeletedAt (Some now)) t)
  = delete id (live_rows t).
Proof.
  apply map_eq. intros key. apply option_eq. intros row.
  unfold live_rows.
  rewrite map_lookup_filter_Some, lookup_delete_Some, map_lookup_filter_Some.
  rewrite soft_delete_lookup. cbn [snd].
  destruct (t !! key) as [r|]; cbn;
    [|split; [intros [[=] _] | intros (_ & [=] & _)]].
  destruct (decide (key = id)) as [->|Hne].
  - rewrite (bool_decide_eq_true_2 (id = id)) by reflexivity. cbn.
    destruct (is_live r) eqn:Hlive.
    + split; [intros [[= <-] Hl]; discriminate Hl | intros [Hne _]; now destruct Hne].
    + split; [intros [[= <-] Hl]; congruence | intros [Hne _]; now destruct Hne].
  - rewrite (bool_decide_eq_false_2 (key = id)) by exact Hne. cbn.
    split; [intros [H1 H2]; repeat split; auto; congruence
           | intros (_ & H1 & H2); auto].
Qed.

(** X9. Deleting a visible record frees one place under the ceiling: the
    record count that the capacity gate sees is one less afterwards. *)
Theorem Delete_frees_capacity
    (deps : Deps) (k : kafkaService) (kafkaRequest row : KafkaRequest)
    (w wd : World) :
  Delete deps k kafkaRequest w = (None, wd) ->
  kafka_requests w !! ID kafkaRequest = Some row ->
  DeletedAt row = None ->
  record_count wd = record_count w - 1.
Proof.
  intros Hdel Hrow Hlive.
  destruct (Delete_success_rows deps k kafkaRequest w wd Hdel) as (Hid & Hrows).
  assert (Ht : kafka_requests wd
               = update_where (fun key row => bool_decide (key = ID kafkaRequest) && is_live row)
                   (set_DeletedAt (Some (clock w))) (kafka_requests w)).
  { apply map_eq. intros key. now rewrite Hrows, soft_delete_lookup. }
  unfold record_count. rewrite Ht, live_rows_soft_delete, map_size_delete.
  assert (Hin : live_rows (kafka_requests w) !! ID kafkaRequest = Some row).
  { unfold live_rows. apply map_lookup_filter_Some. split; [exact Hrow|].
    cbn. unfold is_live. now rewrite Hlive. }
  rewrite Hin.
  assert (Hpos : (0 < size (live_rows (kafka_requests w)))%nat).
  { destruct (size (live_rows (kafka_requests w))) eqn:Hs; [|lia].
    apply map_size_empty_iff in Hs. rewrite Hs in Hin.
    now rewrite lookup_empty in Hin. }
  lia.
Qed.

Lemma Delete_frees_capacity_witness :
  let stored := Demo.row "k1" "deleting" "u1" 5 in
  let w := Demo.world [stored; Demo.row "k2" "ready" "u2" 5] [] in
  let run := Delete Demo.deps Demo.svc stored w in
  record_count w = 2 /\ record_count run.2 = record_count w - 1.
Proof.
  intros stored w run.
  assert (Hdel : Delete Demo.deps Demo.svc stored w = (None, run.2))
    by (vm_compute; reflexivity).
  assert (Hrow : kafka_requests w !! ID stored = Some stored)
    by (vm_compute; reflexivity).
  split; [vm_compute; reflexivity|].
  exact (Delete_frees_capacity Demo.deps Demo.svc stored stored w run.2 Hdel
           Hrow eq_refl).
Defined.

(** ** Bulk deprovision *)

Lemma pk_matches_blank (key : string) : pk_matches "" key = true.
Proof. reflexivity. Qed.

Lemma update_where_blank (cond : string -> KafkaRequest -> bool)
    (f : KafkaRequest -> KafkaRequest) (t : gmap string KafkaRequest) :
  update_where (fun key r => pk_matches (ID KafkaRequest_zero) key && cond key r)
    f t
  = update_where cond f t.
Proof.
  apply map_eq. intros key. rewrite !update_where_lookup.
  now destruct (t !! key).
Qed.

Lemma deprovision_metrics_trace (n : nat) (w : World) :
  deprovision_metrics n w
  = (tt, mkWorld (kafka_requests w) (db_faults w) (clock w) (uuids w)
           (trace w ++ deprovision_counts n)).
Proof.
  revert w. induction n as [|n IH]; intros w.
  - cbn. rewrite app_nil_r. now destruct w.
  - cbn [deprovision_metrics deprovision_counts]. unfold bind, emit.
    rewrite IH. cbn. now rewrite <- !app_assoc.
Qed.

Lemma metrics_of_deprovision_counts (n : nat) :
  metrics_of (deprovision_counts n) = deprovision_counts n.
Proof.
  induction n as [|n IH]; [reflexivity|].
  cbn [deprovision_counts]. unfold metrics_of in *. cbn. now rewrite IH.
Qed.

(** The part that both bulk operations share: the status update selected
    by [cond], then the counting loop. *)
Lemma bulk_deprovision_run (cond : string -> KafkaRequest -> bool)
    (reason : string) (w : World) :
  (let* (RowsAffected, err) :=
     gorm_Update_status KafkaRequest_zero cond KafkaRequestStatusDeprovision in
   match err with
   | Some e =>
       ret (Some (errors.NewWithCause ErrorGeneral (error_Error e) reason))
   | None =>
       (if 1 <=? RowsAffected
        then deprovision_metrics (Z.to_nat RowsAffected) else ret tt) ;;;
       ret None
   end) w
  = if fault_at 0 w
    then (Some (errors.NewWithCause ErrorGeneral "store failure" reason),
          sent (StUpdateStatus KafkaRequest_zero KafkaRequestStatusDeprovision) w)
    else (None,
          mkWorld
            (update_where cond
               (fun r => set_UpdatedAt (clock w)
                           (set_Status KafkaRequestStatusDeprovision r))
               (kafka_requests w))
            (tail (db_faults w)) (clock w) (uuids w)
            ((trace w
                ++ [EvStatement (StUpdateStatus KafkaRequest_zero
                                   KafkaRequestStatusDeprovision)])
               ++ deprovision_counts (affected_count cond (kafka_requests w)))).
Proof.
  unfold bind at 1. rewrite gorm_Update_status_run.
  destruct (fault_at 0 w); [reflexivity|].
  rewrite update_where_blank.
  assert (Hrows : rows_affected
                    (fun key r => pk_matches (ID KafkaRequest_zero) key
                                  && cond key r) (kafka_requests w)
                  = Z.of_nat (affected_count cond (kafka_requests w))).
  { reflexivity. }
  rewrite Hrows. unfold bind, ret.
  destruct (1 <=? Z.of_nat (affected_count cond (kafka_requests w))) eqn:Hpos.
  - rewrite Nat2Z.id, deprovision_metrics_trace. reflexivity.
  - assert (Hzero : affected_count cond (kafka_requests w) = 0%nat) by lia.
    rewrite Hzero. cbn. now rewrite app_nil_r.
Qed.

Lemma DeprovisionKafkaForUsers_run (users : list string) (w : World) :
  DeprovisionKafkaForUsers users w
  = if fault_at 0 w
    then (Some (errors.NewWithCause ErrorGeneral "store failure"
                  "Unable to deprovision kafka requests for users"),
          sent (StUpdateStatus KafkaRequest_zero KafkaRequestStatusDeprovision) w)
    else (None,
          mkWorld
            (update_where (users_sel users)
               (fun r => set_UpdatedAt (clock w)
                           (set_Status KafkaRequestStatusDeprovision r))
               (kafka_requests w))
            (tail (db_faults w)) (clock w) (uuids w)
            ((trace w
                ++ [EvStatement (StUpdateStatus KafkaRequest_zero
                                   KafkaRequestStatusDeprovision)])
               ++ deprovision_counts
                    (affected_count (users_sel users) (kafka_requests w)))).
Proof.
  unfold DeprovisionKafkaForUsers.
  exact (bulk_deprovision_run (users_sel users)
           "Unable to deprovision kafka requests for users" w).
Qed.

Lemma DeprovisionExpiredKafkas_run (k : kafkaService) (hours : Z) (w : World) :
  DeprovisionExpiredKafkas k hours w
  = if fault_at 0 w
    then (Some (errors.NewWithCause ErrorGeneral "store failure"
                  "unable to deprovision expired kafkas"),
          sent (StUpdateStatus KafkaRequest_zero KafkaRequestStatusDeprovision) w)
    else (None,
          mkWorld
            (update_where (expired_sel k (clock w) hours)
               (fun r => set_UpdatedAt (clock w)
                           (set_Status KafkaRequestStatusDeprovision r))
               (kafka_requests w))
            (tail (db_faults w)) (clock w) (uuids w)
            ((trace w
                ++ [EvStatement (StUpdateStatus KafkaRequest_zero
                                   KafkaRequestStatusDeprovision)])
               ++ deprovision_counts
                    (affected_count (expired_sel k (clock w) hours)
                       (kafka_requests w)))).
Proof.
  unfold DeprovisionExpiredKafkas, bind at 1, time_Now.
  exact (bulk_deprovision_run (expired_sel k (clock w) hours)
           "unable to deprovision expired kafkas" w).
Qed.

(** X10. On a store that executes the update, the deprovision of the
    records of [users] sets to Deprovision exactly the rows whose owner
    is among [users] and whose status is neither Deprovision nor
    Deleting, whether they carry a deletion stamp or not, and leaves
    every other row as it is; an empty list of users, like a failing
    store, changes no row. *)
Theorem DeprovisionKafkaForUsers_sweep
    (users : list string) (w : World) (key : string) (row : KafkaRequest) :
  kafka_requests w !! key = Some row ->
  let w' := (DeprovisionKafkaForUsers users w).2 in
  let selected :=
    Owner row ∈ users
    /\ Status row <> KafkaStatus_String KafkaRequestStatusDeprovision
    /\ Status row <> KafkaStatus_String KafkaRequestStatusDeleting in
  (fault_at 0 w = false -> selected ->
     kafka_requests w' !! key
     = Some (set_UpdatedAt (clock w)
               (set_Status KafkaRequestStatusDeprovision row)))
  /\ (fault_at 0 w = true \/ users = [] \/ ~ selected ->
      kafka_requests w' !! key = Some row).
Proof.
  intros Hrow. cbv zeta. rewrite DeprovisionKafkaForUsers_run.
  assert (Hsel : users_sel users key row = true
                 <-> Owner row ∈ users
                     /\ Status row <> KafkaStatus_String KafkaRequestStatusDeprovision
                     /\ Status row <> KafkaStatus_String KafkaRequestStatusDeleting).
  { unfold users_sel.
    rewrite !andb_true_iff, bool_decide_eq_true, deletion_statuses_spec.
    tauto. }
  split.
  - intros Hf Hselected. rewrite Hf. cbn [snd kafka_requests].
    rewrite update_where_lookup, Hrow. cbn.
    now rewrite (proj2 Hsel Hselected).
  - intros Hcause. destruct (fault_at 0 w) eqn:Hf; cbn [snd].
    + now rewrite (proj1 (sent_frame _ _)).
    + cbn [kafka_requests]. rewrite update_where_lookup, Hrow. cbn.
      destruct (users_sel users key row); [|reflexivity].
      pose proof (proj1 Hsel eq_refl) as Hs.
      destruct Hcause as [Hc|[->|Hc]]; [discriminate| |tauto].
      destruct Hs as (Hin & _). now apply elem_of_nil in Hin.
Qed.

Lemma DeprovisionKafkaForUsers_sweep_witness :
  let mine := set_DeletedAt (Some 7) (Demo.row "k1" "ready" "u1" 5) in
  let w := Demo.world [mine; Demo.row "k2" "ready" "u2" 5] [] in
  let w' := (DeprovisionKafkaForUsers ["u1"] w).2 in
  kafka_requests w !! "k1" = Some mine
  /\ fault_at 0 w = false
  /\ Owner mine ∈ ["u1"]
  /\ kafka_requests w' !! "k1"
     = Some (set_UpdatedAt (clock w)
               (set_Status KafkaRequestStatusDeprovision mine)).
Proof.
  intros mine w w'.
  assert (Hrow : kafka_requests w !! "k1" = Some mine)
    by (vm_compute; reflexivity).
  assert (Hin : Owner mine ∈ ["u1"]) by (apply list_elem_of_here).
  split; [exact Hrow|]. split; [reflexivity|]. split; [exact Hin|].
  apply (proj1 (DeprovisionKafkaForUsers_sweep ["u1"] w "k1" mine Hrow)).
  - reflexivity.
  - split; [exact Hin|]. split; discriminate.
Defined.

(** X11. Both bulk operations record one total and one success count of
    the deprovision operation per row that their update selects, rows
    with a deletion stamp included, and none when the store fails the
    update. *)
Theorem bulk_deprovision_metrics
    (k : kafkaService) (users : list string) (hours : Z) (w : World) :
  metrics_of (trace (DeprovisionKafkaForUsers users w).2)
  = metrics_of (trace w)
      ++ (if fault_at 0 w then []
          else deprovision_counts
                 (affected_count (users_sel users) (kafka_requests w)))
  /\ metrics_of (trace (DeprovisionExpiredKafkas k hours w).2)
     = metrics_of (trace w)
         ++ (if fault_at 0 w then []
             else deprovision_counts
                    (affected_count (expired_sel k (clock w) hours)
                       (kafka_requests w))).
Proof.
  rewrite DeprovisionKafkaForUsers_run, DeprovisionExpiredKafkas_run.
  destruct (fault_at 0 w); cbn [snd trace].
  - rewrite !metrics_of_sent, app_nil_r. auto.
  - rewrite !metrics_of_app, !metrics_of_deprovision_counts. cbn.
    rewrite !app_nil_r. auto.
Qed.

Lemma update_where_settled (sel : string -> KafkaRequest -> bool)
    (f : KafkaRequest -> KafkaRequest) (t : gmap string KafkaRequest) :
  (forall key r, t !! key = Some r -> sel key r = false) ->
  update_where sel f t = t /\ affected_count sel t = 0%nat.
Proof.
  intros Hnone. split.
  - apply map_eq. intros key. rewrite update_where_lookup.
    destruct (t !! key) as [r|] eqn:Hr; cbn; [|reflexivity].
    now rewrite (Hnone key r Hr).
  - unfold affected_count. apply map_size_empty_iff, map_empty_filter_2.
    intros key r Hr. cbn. rewrite (Hnone key r Hr). discriminate.
Qed.

(** After a sweep whose clause excludes the Deprovision status, the same
    clause selects no row. *)
Lemma sweep_settles (sel : string -> KafkaRequest -> bool) (now : Time)
    (t : gmap string KafkaRequest) :
  (forall key r,
      sel key (set_UpdatedAt now (set_Status KafkaRequestStatusDeprovision r))
      = false) ->
  forall key r',
    update_where sel
      (fun r => set_UpdatedAt now (set_Status KafkaRequestStatusDeprovision r))
      t !! key = Some r' ->
    sel key r' = false.
Proof.
  intros Hout key r'. rewrite update_where_lookup.
  destruct (t !! key) as [r|]; cbn; [|discriminate].
  destruct (sel key r) eqn:Hs; intros [= <-]; [apply Hout | exact Hs].
Qed.

Lemma users_sel_settles (users : list string) (now : Time) (key : string)
    (r : KafkaRequest) :
  users_sel users key
    (set_UpdatedAt now (set_Status KafkaRequestStatusDeprovision r)) = false.
Proof.
  unfold users_sel.
  rewrite (deletion_status_filtered
             (set_UpdatedAt now (set_Status KafkaRequestStatusDeprovision r))
             (or_introl eq_refl)).
  apply andb_false_r.
Qed.

Lemma expired_sel_settles (k : kafkaService) (now at_ : Time) (hours : Z)
    (key : string) (r : KafkaRequest) :
  expired_sel k at_ hours key
    (set_UpdatedAt now (set_Status KafkaRequestStatusDeprovision r)) = false.
Proof.
  unfold expired_sel.
  rewrite (deletion_status_filtered
             (set_UpdatedAt now (set_Status KafkaRequestStatusDeprovision r))
             (or_introl eq_refl)).
  now rewrite andb_false_r.
Qed.

(** A row that is old enough for the sweep of one instant and was not
    selected then is not selected at any other instant. *)
Lemma expired_sel_later (k : kafkaService) (now later : Time) (hours : Z)
    (key : string) (r : KafkaRequest) :
  CreatedAt r <= Time_Add now (mul64 (mul64 (-1) hours) time_Hour) ->
  expired_sel k now hours key r = false ->
  expired_sel k later hours key r = false.
Proof.
  unfold expired_sel. intros Hold.
  rewrite (proj2 (Z.leb_le _ _) Hold). cbn [andb].
  rewrite <- !andb_assoc. intros ->. apply andb_false_r.
Qed.

(** X12. What a bulk operation has handled, a later run of it leaves
    alone, however much time has passed in between and on a store that
    executes both updates.  The deprovision for users is idempotent: run
    again, it changes no row and records no metric.  The sweep of
    expired records, run again with the same age, changes no row that was
    old enough for the first run; it may only reach rows that have come
    of age since. *)
Theorem bulk_deprovision_again
    (k : kafkaService) (users : list string) (hours : Z) (d : Duration)
    (w : World) :
  fault_at 0 w = false -> fault_at 1 w = false ->
  (let once := (DeprovisionKafkaForUsers users w).2 in
   let twice := (DeprovisionKafkaForUsers users (elapse d once)).2 in
   kafka_requests twice = kafka_requests once
   /\ metrics_of (trace twice) = metrics_of (trace once))
  /\ (let once := (DeprovisionExpiredKafkas k hours w).2 in
      let twice := (DeprovisionExpiredKafkas k hours (elapse d once)).2 in
      forall key row,
        kafka_requests once !! key = Some row ->
        CreatedAt row
        <= Time_Add (clock w) (mul64 (mul64 (-1) hours) time_Hour) ->
        kafka_requests twice !! key = Some row).
Proof.
  intros Hf0 Hf1. cbv zeta.
  assert (Hnext : nth 0 (tail (db_faults w)) false = false).
  { rewrite nth_tail. exact Hf1. }
  split.
  - rewrite (DeprovisionKafkaForUsers_run users w), Hf0. cbn [snd].
    rewrite DeprovisionKafkaForUsers_run. unfold fault_at, elapse.
    cbn [db_faults]. rewrite Hnext. cbn [snd kafka_requests clock trace].
    destruct (update_where_settled (users_sel users)
                (fun r => set_UpdatedAt (Time_Add (clock w) d)
                            (set_Status KafkaRequestStatusDeprovision r))
                _ (sweep_settles (users_sel users) (clock w) (kafka_requests w)
                     (users_sel_settles users (clock w)))) as (Hid & Hzero).
    rewrite Hid, Hzero. split; [reflexivity|].
    rewrite !metrics_of_app. cbn. now rewrite !app_nil_r.
  - rewrite (DeprovisionExpiredKafkas_run k hours w), Hf0. cbn [snd].
    rewrite DeprovisionExpiredKafkas_run. unfold fault_at, elapse.
    cbn [db_faults]. rewrite Hnext. cbn [snd kafka_requests clock].
    intros key row Hrow Hold.
    rewrite update_where_lookup, Hrow. cbn [fmap option_fmap option_map].
    f_equal.
    assert (Hout : expired_sel k (Time_Add (clock w) d) hours key row = false);
      [|now rewrite Hout].
    rewrite update_where_lookup in Hrow.
    destruct (kafka_requests w !! key) as [r0|]; [|discriminate Hrow].
    cbn in Hrow.
    destruct (expired_sel k (clock w) hours key r0) eqn:Hs;
      injection Hrow as <-.
    + apply expired_sel_settles.
    + exact (expired_sel_later k (clock w) _ hours key r0 Hold Hs).
Qed.

Lemma bulk_deprovision_again_witness :
  let w := Demo.world [Demo.row "k1" "ready" "u1" 5;
                       Demo.row "k2" "ready" "u2" 5] [] in
  let once := (DeprovisionKafkaForUsers ["u1"] w).2 in
  let twice := (DeprovisionKafkaForUsers ["u1"] (elapse 3600 once)).2 in
  fault_at 0 w = false /\ fault_at 1 w = false
  /\ Status <$> kafka_requests once !! "k1" = Some "deprovision"
  /\ kafka_requests twice = kafka_requests once.
Proof.
  intros w once twice.
  assert (Hf0 : fault_at 0 w = false) by reflexivity.
  assert (Hf1 : fault_at 1 w = false) by reflexivity.
  destruct (bulk_deprovision_again Demo.svc ["u1"] 48 3600 w Hf0 Hf1)
    as [(Ht & _) _].
  split; [exact Hf0|]. split; [exact Hf1|].
  split; [vm_compute; reflexivity|]. exact Ht.
Defined.

(** ** Deprovision on request *)

(** X13. A deprovision request is scoped to the caller: when no visible
    record with the given id is owned by the caller (no id, no claims, no
    such record, a soft-deleted one or one of another owner), the request
    is answered with an error — validation, unauthenticated, general when
    the store fails the fetch, not found otherwise — and neither a row nor
    a metric changes; a record of another owner is answered exactly as an
    absent one. *)
Theorem RegisterKafkaDeprovisionJob_scope
    (ctx : Context) (id : string) (w : World) :
  (forall claims row,
      ctx = Some claims -> kafka_requests w !! id = Some row ->
      DeletedAt row = None -> Owner row <> username claims) ->
  let run := RegisterKafkaDeprovisionJob ctx id w in
  run.1
  = Some (if bool_decide (id = "") then errors.Validation "id is undefined"
          else match ctx with
               | None =>
                   errors.NewWithCause ErrorUnauthenticated
                     "failed to get jwt token from context"
                     "user not authenticated"
               | Some _ =>
                   handleGetError "KafkaResource" "id" id
                     (if fault_at 0 w then Err "store failure"
                      else ErrRecordNotFound)
               end)
  /\ kafka_requests run.2 = kafka_requests w
  /\ metrics_of (trace run.2) = metrics_of (trace w)
  /\ writes_of (trace run.2) = writes_of (trace w).
Proof.
  intros Hscope. cbv zeta. unfold RegisterKafkaDeprovisionJob.
  destruct (bool_decide (id = "")); [cbn; auto|].
  destruct ctx as [claims|]; cbn [GetClaimsFromContext]; [|cbn; auto].
  unfold bind. rewrite gorm_First_run.
  assert (Hout : forall e,
    let run := (Some (handleGetError "KafkaResource" "id" id e),
                sent (StFirst id) w) in
    run.1 = Some (handleGetError "KafkaResource" "id" id e)
    /\ kafka_requests run.2 = kafka_requests w
    /\ metrics_of (trace run.2) = metrics_of (trace w)
    /\ writes_of (trace run.2) = writes_of (trace w)).
  { intros e. cbn [fst snd]. split; [reflexivity|].
    split; [apply sent_frame|]. split; [apply metrics_of_sent|].
    rewrite writes_of_sent. apply app_nil_r. }
  destruct (fault_at 0 w); [apply Hout|].
  destruct (kafka_requests w !! id) as [row|] eqn:Hrow; [|apply Hout].
  unfold is_live.
  destruct (DeletedAt row) as [t|] eqn:Hdel; [apply Hout|].
  cbn [andb].
  rewrite (bool_decide_eq_false_2 _ (Hscope claims row eq_refl eq_refl Hdel)).
  apply Hout.
Qed.

Lemma RegisterKafkaDeprovisionJob_scope_witness :
  let w := Demo.world [Demo.row "k1" "ready" "u1" 5] [] in
  let foreign := RegisterKafkaDeprovisionJob (Some (mkClaims "u2" "org-1")) "k1" w in
  let absent := RegisterKafkaDeprovisionJob (Some (mkClaims "u2" "org-1")) "k1"
                  (Demo.world [] []) in
  foreign.1 = absent.1
  /\ Code <$> foreign.1 = Some ErrorNotFound
  /\ kafka_requests foreign.2 = kafka_requests w.
Proof.
  intros w foreign absent.
  assert (Hscope : forall claims row,
             Some (mkClaims "u2" "org-1") = Some claims ->
             kafka_requests w !! "k1" = Some row ->
             DeletedAt row = None -> Owner row <> username claims).
  { intros claims row [= <-] [= <-] _. discriminate. }
  destruct (RegisterKafkaDeprovisionJob_scope _ "k1" w Hscope) as (Hr & Ht & _).
  subst foreign absent.
  split; [rewrite Hr; vm_compute; reflexivity|].
  split; [rewrite Hr; reflexivity | exact Ht].
Defined.

(** X14. A deprovision request of the caller's own visible record, on a
    store that executes its three statements, returns without error
    whatever the record's status: a record already in deprovision is left
    as it is and only the total count is recorded; any other record —
    one in deleting too — is set to deprovision with a fresh update
    stamp, no other row changes, and the total count, the success count
    and the time since creation are recorded in that order. *)
Theorem RegisterKafkaDeprovisionJob_transition
    (claims : Claims) (id : string) (row : KafkaRequest) (w : World) :
  id <> "" ->
  kafka_requests w !! id = Some row ->
  DeletedAt row = None ->
  Owner row = username claims ->
  fault_at 0 w = false -> fault_at 1 w = false -> fault_at 2 w = false ->
  let run := RegisterKafkaDeprovisionJob (Some claims) id w in
  let settled :=
    bool_decide (Status row = KafkaStatus_String KafkaRequestStatusDeprovision) in
  run.1 = None
  /\ kafka_requests run.2
     = (if settled then kafka_requests w
        else <[id := set_UpdatedAt (clock w)
                       (set_Status KafkaRequestStatusDeprovision row)]>
               (kafka_requests w))
  /\ metrics_of (trace run.2)
     = metrics_of (trace w)
         ++ EvTotalOperationsCount KafkaOperationDeprovision
         :: (if settled then []
             else [EvSuccessOperationsCount KafkaOperationDeprovision;
                   EvStatusSinceCreated KafkaRequestStatusDeprovision
                     (ID row) (ClusterID row)
                     (time_Since (clock w) (CreatedAt row))]).
Proof.
  intros Hid Hrow Hdel Hown Hf0 Hf1 Hf2. cbv zeta.
  pose proof (sent_frame (StFirst id) w) as (Ht1 & Hc1 & Htr1).
  set (w1 := mkWorld (kafka_requests (sent (StFirst id) w))
               (db_faults (sent (StFirst id) w)) (clock (sent (StFirst id) w))
               (uuids (sent (StFirst id) w))
               (trace (sent (StFirst id) w)
                  ++ [EvTotalOperationsCount KafkaOperationDeprovision])).
  assert (Hg0 : fault_at 0 w1 = false)
    by exact (eq_trans (fault_at_sent (StFirst id) 0 w) Hf1).
  assert (Hg1 : fault_at 1 w1 = false)
    by exact (eq_trans (fault_at_sent (StFirst id) 1 w) Hf2).
  assert (Hm1 : metrics_of (trace w1)
                = metrics_of (trace w)
                    ++ [EvTotalOperationsCount KafkaOperationDeprovision]).
  { unfold w1. cbn [trace]. now rewrite metrics_of_app, metrics_of_sent. }
  assert (Hrow1 : kafka_requests w1 !! id = Some row).
  { unfold w1. cbn [kafka_requests]. now rewrite Ht1. }
  assert (Hstart :
    RegisterKafkaDeprovisionJob (Some claims) id w
    = (let* (executed, err) := UpdateStatus id KafkaRequestStatusDeprovision in
       if executed : bool then
         match err with
         | Some e =>
             ret (Some (handleGetError "KafkaResource" "id" id
                          (Err (ServiceError_Error e))))
         | None =>
             emit (EvSuccessOperationsCount KafkaOperationDeprovision) ;;;
             let* now := time_Now in
             emit (EvStatusSinceCreated KafkaRequestStatusDeprovision (ID row)
                     (ClusterID row) (time_Since now (CreatedAt row))) ;;;
             ret None
         end
       else ret None) w1).
  { unfold RegisterKafkaDeprovisionJob.
    rewrite (bool_decide_eq_false_2 _ Hid). cbn [GetClaimsFromContext].
    unfold bind at 1. rewrite gorm_First_run, Hf0, Hrow.
    unfold is_live. rewrite Hdel. cbn [andb].
    rewrite (bool_decide_eq_true_2 _ Hown). reflexivity. }
  rewrite Hstart. clear Hstart.
  assert (Hw1 : kafka_requests w1 = kafka_requests w /\ clock w1 = clock w)
    by (unfold w1; cbn [kafka_requests clock]; auto).
  destruct Hw1 as (Hk1 & Hck1).
  clearbody w1.
  pose proof (sent_frame (StFirst id) w1) as (Ht & Hc & Htr).
  unfold bind, UpdateStatus, bind.
  rewrite (GetById_stored id row w1 Hid Hg0 Hrow1 Hdel).
  destruct (bool_decide (Status row
                         = KafkaStatus_String KafkaRequestStatusDeprovision))
    eqn:Hst.
  - cbn [andb].
    destruct (negb _); cbn -[sent];
      rewrite Ht, Hk1, metrics_of_sent, Hm1; auto.
  - cbn [andb].
    rewrite gorm_Update_status_run.
    rewrite (fault_at_sent (StFirst id) 0 w1), Hg1.
    cbn [ID set_ID KafkaRequest_zero].
    rewrite Ht, Hc, Htr, Hk1, Hck1.
    rewrite (update_where_pk id (fun _ _ => true) _ _ row Hid Hrow).
    cbn -[sent]. split; [reflexivity|]. split; [reflexivity|].
    rewrite !metrics_of_app, Hm1. cbn. rewrite <- !app_assoc. reflexivity.
Qed.

Lemma RegisterKafkaDeprovisionJob_transition_witness :
  let w := Demo.world [Demo.row "k1" "deleting" "u1" 5] [] in
  let run := RegisterKafkaDeprovisionJob (Some (mkClaims "u1" "org-1")) "k1" w in
  run.1 = None
  /\ Status <$> kafka_requests run.2 !! "k1" = Some "deprovision".
Proof.
  intros w run.
  assert (Hid : "k1" <> "") by discriminate.
  assert (Hrow : kafka_requests w !! "k1"
                 = Some (Demo.row "k1" "deleting" "u1" 5)) by reflexivity.
  destruct (RegisterKafkaDeprovisionJob_transition (mkClaims "u1" "org-1") "k1"
              _ w Hid Hrow eq_refl eq_refl eq_refl eq_refl eq_refl)
    as (Hr & Ht & _).
  subst run. split; [exact Hr|].
  rewrite Ht. vm_compute. reflexivity.
Defined.

(** ** Update and preparation *)

(** X15. [Update] does not look at the number of rows it wrote: aimed at
    an id that is absent from the table, it returns without error on a
    store that executes the statement, and changes nothing. *)
Theorem Update_missing_record (kafkaRequest : KafkaRequest) (w : World) :
  ID kafkaRequest <> "" ->
  kafka_requests w !! ID kafkaRequest = None ->
  fault_at 0 w = false ->
  (Update kafkaRequest w).1 = None
  /\ kafka_requests (Update kafkaRequest w).2 = kafka_requests w.
Proof.
  intros Hid Hmiss Hf. rewrite Update_run, Hf. cbn [fst snd kafka_requests].
  split; [reflexivity|]. apply map_eq. intros key.
  rewrite update_where_lookup.
  destruct (kafka_requests w !! key) as [row|] eqn:Hrow; cbn; [|reflexivity].
  unfold update_sel, pk_matches.
  rewrite (bool_decide_eq_false_2 (ID kafkaRequest = "")) by exact Hid.
  cbn [orb]. destruct (bool_decide_reflect (key = ID kafkaRequest)) as [->|Hne];
    [congruence | reflexivity].
Qed.

Lemma Update_missing_record_witness :
  let w := Demo.world [Demo.row "k1" "ready" "u1" 5] [] in
  (Update (Demo.row "k2" "failed" "u1" 5) w).1 = None
  /\ kafka_requests (Update (Demo.row "k2" "failed" "u1" 5) w).2
     = kafka_requests w.
Proof.
  intros w.
  assert (Hid : ID (Demo.row "k2" "failed" "u1" 5) <> "") by discriminate.
  assert (Hmiss : kafka_requests w !! ID (Demo.row "k2" "failed" "u1" 5) = None)
    by reflexivity.
  exact (Update_missing_record (Demo.row "k2" "failed" "u1" 5) w Hid Hmiss
           eq_refl).
Defined.

Section PreparationScope.

Variable deps : Deps.
Variable k : kafkaService.

(** Preparation either fails and leaves the table alone, or succeeds and
    leaves the table that its final [Update] produces. *)
Lemma PrepareKafkaRequest_final (kafkaRequest : KafkaRequest) (w : World) :
  let run := PrepareKafkaRequest deps k kafkaRequest w in
  (run.1.2 <> None /\ kafka_requests run.2 = kafka_requests w)
  \/ (run.1.2 = None
      /\ ID run.1.1 = ID kafkaRequest
      /\ kafka_requests run.2
         = update_where (update_sel (updatedKafkaRequest run.1.1))
             (assign_nonzero (updatedKafkaRequest run.1.1) (clock w))
             (kafka_requests w)).
Proof.
  prepare_cases deps k kafkaRequest.
  all: try rewrite Update_run.
  all: try match goal with |- context [fault_at 0 ?wp] =>
             destruct (fault_at 0 wp) eqn:Hfault end.
  all: cbn -[sent update_where updatedKafkaRequest].
  all: first [ left; split; [discriminate | reflexivity]
             | right; split; [reflexivity|]; split; reflexivity ].
Qed.

(** X16. A preparation that returns an error has changed no row. *)
Theorem PrepareKafkaRequest_error_keeps_table
    (kafkaRequest : KafkaRequest) (w : World) :
  let run := PrepareKafkaRequest deps k kafkaRequest w in
  run.1.2 <> None -> kafka_requests run.2 = kafka_requests w.
Proof.
  cbv zeta. intros Herr.
  destruct (PrepareKafkaRequest_final kafkaRequest w)
    as [(_ & Ht) | (Hok & _)]; [exact Ht | now destruct Herr].
Qed.

(** X17. Preparation writes the fields it lists and no other: with an id
    on the request, every other row is left as it is, no row appears or
    disappears, and the row of the request keeps its id, creation and
    deletion stamps, region, cluster, name, owner, organisation, version
    and placement. *)
Theorem PrepareKafkaRequest_field_scope
    (kafkaRequest : KafkaRequest) (key : string) (w : World) :
  ID kafkaRequest <> "" ->
  let t' := kafka_requests (PrepareKafkaRequest deps k kafkaRequest w).2 in
  (key <> ID kafkaRequest -> t' !! key = kafka_requests w !! key)
  /\ match kafka_requests w !! key, t' !! key with
     | Some row, Some row' =>
         ID row' = ID row /\ CreatedAt row' = CreatedAt row
         /\ DeletedAt row' = DeletedAt row /\ Region row' = Region row
         /\ ClusterID row' = ClusterID row /\ Name row' = Name row
         /\ Owner row' = Owner row
         /\ OrganisationId row' = OrganisationId row
         /\ Version row' = Version row /\ PlacementId row' = PlacementId row
     | None, None => True
     | _, _ => False
     end.
Proof.
  intros Hid. cbv zeta.
  destruct (PrepareKafkaRequest_final kafkaRequest w)
    as [(_ & Ht) | (_ & Hsame & Ht)]; rewrite Ht.
  - split; [reflexivity|].
    destruct (kafka_requests w !! key); [repeat split | exact I].
  - split.
    + intros Hne. unfold update_sel.
      apply (update_where_other _ key
               (fun _ r => not_in (Status r) kafkaDeletionStatuses)).
      * cbn [ID updatedKafkaRequest set_Status set_SsoClientSecret
               set_SsoClientID set_BootstrapServerHost set_ID]. congruence.
      * cbn [ID updatedKafkaRequest set_Status set_SsoClientSecret
               set_SsoClientID set_BootstrapServerHost set_ID]. congruence.
    + rewrite update_where_lookup.
      destruct (kafka_requests w !! key) as [row|]; cbn [fmap option_fmap option_map];
        [|exact I].
      destruct (update_sel _ key row); cbn; repeat split.
Qed.

End PreparationScope.

Lemma PrepareKafkaRequest_field_scope_witness :
  let w := Demo.world [Demo.row "k1" "accepted" "u1" 5;
                       Demo.row "k2" "accepted" "u2" 5] [] in
  let t' := kafka_requests
              (PrepareKafkaRequest Demo.deps Demo.svc
                 (Demo.row "k1" "accepted" "u1" 5) w).2 in
  ID (Demo.row "k1" "accepted" "u1" 5) <> ""
  /\ "k2" <> "k1"
  /\ t' !! "k2" = kafka_requests w !! "k2"
  /\ Status <$> t' !! "k1" = Some "provisioning".
Proof.
  intros w t'.
  assert (Hid : ID (Demo.row "k1" "accepted" "u1" 5) <> "") by discriminate.
  assert (Hne : "k2" <> "k1") by discriminate.
  split; [exact Hid|]. split; [exact Hne|].
  split; [|vm_compute; reflexivity].
  exact (proj1 (PrepareKafkaRequest_field_scope Demo.deps Demo.svc
                  (Demo.row "k1" "accepted" "u1" 5) "k2" w Hid) Hne).
Defined.

Lemma PrepareKafkaRequest_error_keeps_table_witness :
  let w := Demo.world [Demo.row "k1" "accepted" "u1" 5] [] in
  let run := PrepareKafkaRequest Demo.deps Demo.svc_sso_down
               (Demo.row "k1" "accepted" "u1" 5) w in
  run.1.2 <> None /\ kafka_requests run.2 = kafka_requests w.
Proof.
  intros w run.
  assert (Herr : run.1.2 <> None) by (vm_compute; discriminate).
  split; [exact Herr|].
  exact (PrepareKafkaRequest_error_keeps_table Demo.deps Demo.svc_sso_down
           (Demo.row "k1" "accepted" "u1" 5) w Herr).
Defined.

(** X18. Preparation reaches the store last and once: when a statement
    was sent, it is the update of the fields of the returned record and
    the last event of the run, every event before it is a call to a
    collaborator, the cluster answered its DNS name, the identity
    provider (when authentication is on) issued the secret of the
    returned record, and every record batch that was submitted was
    accepted. *)
Theorem PrepareKafkaRequest_update_last
    (deps : Deps) (k : kafkaService) (kafkaRequest : KafkaRequest)
    (s : Statement) (w : World) :
  let run := PrepareKafkaRequest deps k kafkaRequest w in
  In (EvStatement s) (new_events w run.2) ->
  s = StUpdates (updatedKafkaRequest run.1.1) (updatedKafkaRequest run.1.1)
  /\ new_events w run.2
     = external_calls (new_events w run.2) ++ [EvStatement s]
  /\ (GetClusterDNS (clusterService k) (ClusterID kafkaRequest)).2 = None
  /\ (EnableAuthenticationOnKafka (GetConfig (keycloakService k)) = true ->
      RegisterKafkaClientInSSO (keycloakService k) (SsoClientID run.1.1)
        (OrganisationId kafkaRequest)
      = (SsoClientSecret run.1.1, None))
  /\ (forall zone batch,
        In (EvChangeResourceRecordSets zone batch) (new_events w run.2) ->
        aws_ChangeResourceRecordSets deps zone batch = None).
Proof.
  cbv zeta. prepare_cases deps k kafkaRequest.
  all: try rewrite Update_run.
  all: try match goal with |- context [fault_at 0 ?wp] =>
             destruct (fault_at 0 wp) eqn:Hfault end.
  all: cbn -[sent updatedKafkaRequest buildKafkaClusterCNAMESRecordBatch].
  all: unfold new_events, sent; cbn [trace];
    rewrite <- ?app_assoc; rewrite ?drop_app_length, ?drop_all.
  all: cbn -[updatedKafkaRequest buildKafkaClusterCNAMESRecordBatch].
  all: intros Hev;
    repeat match type of Hev with
           | _ \/ _ => destruct Hev as [Hev|Hev]
           | False => destruct Hev
           | _ = _ => first [discriminate Hev | injection Hev as <-]
           end.
  all: split; [reflexivity|]; split; [reflexivity|]; split; [reflexivity|].
  all: split; [first [discriminate | intros _; assumption]|].
  all: intros zone batch Hin;
    repeat match type of Hin with
           | _ \/ _ => destruct Hin as [Hin|Hin]
           | False => destruct Hin
           | _ = _ => first [discriminate Hin | injection Hin as <- <-]
           end; assumption.
Qed.

Lemma PrepareKafkaRequest_update_last_witness :
  let w := Demo.world [Demo.row "k1" "accepted" "u1" 5] [] in
  let run := PrepareKafkaRequest Demo.deps Demo.svc
               (Demo.row "k1" "accepted" "u1" 5) w in
  let s := StUpdates (updatedKafkaRequest run.1.1)
             (updatedKafkaRequest run.1.1) in
  In (EvStatement s) (new_events w run.2)
  /\ new_events w run.2
     = external_calls (new_events w run.2) ++ [EvStatement s].
Proof.
  intros w run s.
  assert (Hin : In (EvStatement s) (new_events w run.2)).
  { vm_compute. auto 10. }
  split; [exact Hin|].
  exact (proj1 (proj2 (PrepareKafkaRequest_update_last Demo.deps Demo.svc
                         (Demo.row "k1" "accepted" "u1" 5) s w Hin))).
Defined.

(** ** Record batches *)

Lemma cname_batch_changes
    (recordName clusterIngress action : string) (cfg : KafkaConfig) :
  Changes (buildKafkaClusterCNAMESRecordBatch recordName clusterIngress
             action cfg)
  = map (cname_change action ("elb." +:+ clusterIngress))
      (recordName :: ("admin-server-" +:+ recordName)
         :: map (fun i => broker_name recordName (Z.of_nat i))
              (seq 0 (Z.to_nat (NumOfBrokers cfg)))).
Proof.
  unfold buildKafkaClusterCNAMESRecordBatch.
  cbn [Changes app map]. rewrite broker_changes_map, map_map. reflexivity.
Qed.

(** X19. The action of a batch is written on every change and decides
    nothing else: the batches built for two actions from the same host,
    ingress and configuration name the same record sets in the same
    order, so a DELETE batch addresses exactly the records of the CREATE
    batch. *)
Theorem cname_batch_action
    (recordName clusterIngress action other : string) (cfg : KafkaConfig) :
  let batch a :=
    Changes (buildKafkaClusterCNAMESRecordBatch recordName clusterIngress a cfg) in
  Forall (fun c => Action c = action) (batch action)
  /\ map ResourceRecordSet_of (batch action)
     = map ResourceRecordSet_of (batch other).
Proof.
  cbv beta zeta. rewrite !cname_batch_changes. split.
  - apply List.Forall_forall. intros c Hin.
    apply in_map_iff in Hin.
    destruct Hin as (name & <- & _). reflexivity.
  - rewrite !map_map. reflexivity.
Qed.

(** X20. A broker count of zero or below runs the broker loop not at
    all: the batch then holds the bootstrap and the admin-server record
    and nothing else. *)
Theorem cname_batch_without_brokers
    (recordName clusterIngress action : string) (cfg : KafkaConfig) :
  NumOfBrokers cfg <= 0 ->
  Changes (buildKafkaClusterCNAMESRecordBatch recordName clusterIngress
             action cfg)
  = [buildResourceRecordChange recordName ("elb." +:+ clusterIngress) action;
     buildResourceRecordChange ("admin-server-" +:+ recordName)
       ("elb." +:+ clusterIngress) action].
Proof.
  intros Hn. unfold buildKafkaClusterCNAMESRecordBatch. cbn [Changes].
  replace (Z.to_nat (NumOfBrokers cfg)) with 0%nat by lia. reflexivity.
Qed.

Lemma cname_batch_without_brokers_witness :
  length (Changes (buildKafkaClusterCNAMESRecordBatch "k1.kafka.example.org"
                     "mk.c1.example.com" "CREATE"
                     (mkKafkaConfig 2 true "2.7.0" true "kafka.example.org"
                        (-1) []))) = 2%nat.
Proof.
  rewrite (cname_batch_without_brokers "k1.kafka.example.org"
             "mk.c1.example.com" "CREATE"
             (mkKafkaConfig 2 true "2.7.0" true "kafka.example.org" (-1) []));
    [reflexivity | cbn; lia].
Defined.

(** The batches that preparation submits. *)
Lemma PrepareKafkaRequest_batches
    (deps : Deps) (k : kafkaService) (kafkaRequest : KafkaRequest)
    (zone : string) (batch : ChangeBatch) (w : World) :
  let run := PrepareKafkaRequest deps k kafkaRequest w in
  In (EvChangeResourceRecordSets zone batch) (new_events w run.2) ->
  exists dns,
    GetClusterDNS (clusterService k) (ClusterID kafkaRequest) = (dns, None)
    /\ ClusterID run.1.1 = ClusterID kafkaRequest
    /\ zone = KafkaDomainName (kafkaConfig k)
    /\ batch = buildKafkaClusterCNAMESRecordBatch (BootstrapServerHost run.1.1)
                 (managed_ingress deps dns) "CREATE" (kafkaConfig k).
Proof.
  cbv zeta. prepare_cases deps k kafkaRequest.
  all: try rewrite Update_run.
  all: try match goal with |- context [fault_at 0 ?wp] =>
             destruct (fault_at 0 wp) eqn:Hfault end.
  all: cbn -[sent updatedKafkaRequest buildKafkaClusterCNAMESRecordBatch].
  all: unfold new_events, sent; cbn [trace];
    rewrite <- ?app_assoc; rewrite ?drop_app_length, ?drop_all.
  all: cbn -[updatedKafkaRequest buildKafkaClusterCNAMESRecordBatch].
  all: intros Hev;
    repeat match type of Hev with
           | _ \/ _ => destruct Hev as [Hev|Hev]
           | False => destruct Hev
           | _ = _ => first [discriminate Hev | injection Hev as <- <-]
           end.
  all: exists dns; repeat split.
Qed.

(** The batches that deletion submits. *)
Lemma Delete_batches
    (deps : Deps) (k : kafkaService) (kafkaRequest : KafkaRequest)
    (zone : string) (batch : ChangeBatch) (w : World) :
  In (EvChangeResourceRecordSets zone batch)
     (new_events w (Delete deps k kafkaRequest w).2) ->
  exists dns,
    GetClusterDNS (clusterService k) (ClusterID kafkaRequest) = (dns, None)
    /\ zone = KafkaDomainName (kafkaConfig k)
    /\ batch = buildKafkaClusterCNAMESRecordBatch
                 (BootstrapServerHost kafkaRequest)
                 (managed_ingress deps dns) "DELETE" (kafkaConfig k).
Proof.
  unfold Delete, deleteDependencies, ChangeKafkaCNAMErecords, gorm_Delete,
    bind, emit, ret.
  destruct (bool_decide (ClusterID kafkaRequest = "")); cbn [negb];
    [|destruct (EnableAuthenticationOnKafka (GetConfig (keycloakService k)));
      [destruct (DeRegisterClientInSSO _ _)|];
      try (destruct (EnableKafkaExternalCertificate (kafkaConfig k));
           [destruct (GetClusterDNS _ _) as [dns [dnsErr|]] eqn:Hdns;
            [|match goal with
              | |- context [aws_NewClient deps ?c ?r] =>
                  destruct (aws_NewClient deps c r)
              end;
              [|match goal with
                | |- context [aws_ChangeResourceRecordSets deps ?z ?b] =>
                    destruct (aws_ChangeResourceRecordSets deps z b)
                end]]|])].
  all: cbn -[buildKafkaClusterCNAMESRecordBatch db_statement].
  all: destruct (bool_decide (ID kafkaRequest = ""));
    cbn -[buildKafkaClusterCNAMESRecordBatch db_statement].
  all: try (rewrite db_statement_run;
            match goal with |- context [fault_at 0 ?wp] =>
              destruct (fault_at 0 wp) end;
            cbn -[buildKafkaClusterCNAMESRecordBatch]).
  all: unfold new_events, sent; cbn [trace];
    rewrite <- ?app_assoc; rewrite ?drop_app_length, ?drop_all.
  all: cbn -[buildKafkaClusterCNAMESRecordBatch].
  all: intros Hev;
    repeat match type of Hev with
           | _ \/ _ => destruct Hev as [Hev|Hev]
           | False => destruct Hev
           | _ = _ => first [discriminate Hev | injection Hev as <- <-]
           end.
  all: exists dns; repeat split.
Qed.

(** X21. Deletion addresses the records that preparation created: every
    batch that [Delete] submits for a prepared record goes to the hosted
    zone of the batch that [PrepareKafkaRequest] submitted for it, holds
    DELETE changes only, and names the same record sets in the same
    order. *)
Theorem Delete_addresses_created_records
    (deps : Deps) (k : kafkaService) (kafkaRequest : KafkaRequest)
    (zone zone' : string) (batch batch' : ChangeBatch) (w w0 : World) :
  let run := PrepareKafkaRequest deps k kafkaRequest w in
  In (EvChangeResourceRecordSets zone batch) (new_events w run.2) ->
  In (EvChangeResourceRecordSets zone' batch')
     (new_events w0 (Delete deps k run.1.1 w0).2) ->
  zone' = zone
  /\ Forall (fun c => Action c = "DELETE") (Changes batch')
  /\ map ResourceRecordSet_of (Changes batch')
     = map ResourceRecordSet_of (Changes batch).
Proof.
  cbv zeta. intros Hcreate Hdelete.
  apply PrepareKafkaRequest_batches in Hcreate.
  destruct Hcreate as (dns & Hdns & Hcluster & -> & ->).
  apply Delete_batches in Hdelete.
  destruct Hdelete as (dns' & Hdns' & -> & ->).
  rewrite Hcluster, Hdns in Hdns'. injection Hdns' as <-.
  split; [reflexivity|]. rewrite !cname_batch_changes. split.
  - apply List.Forall_forall. intros c Hin. apply in_map_iff in Hin.
    destruct Hin as (name & <- & _). reflexivity.
  - rewrite !map_map. reflexivity.
Qed.

Lemma Delete_addresses_created_records_witness :
  let svc := mkKafkaService Demo.cluster (Demo.keycloak false false)
               (mkKafkaConfig 2 false "2.7.0" true "kafka.example.org" 1 [])
               (mkAWSConfig "key" "secret") (Demo.quota true None) in
  let w := Demo.world [Demo.row "k1" "accepted" "u1" 5] [] in
  let run := PrepareKafkaRequest Demo.deps svc
               (Demo.row "k1" "accepted" "u1" 5) w in
  exists zone batch batch',
    In (EvChangeResourceRecordSets zone batch) (new_events w run.2)
    /\ In (EvChangeResourceRecordSets zone batch')
          (new_events run.2 (Delete Demo.deps svc run.1.1 run.2).2)
    /\ map ResourceRecordSet_of (Changes batch')
       = map ResourceRecordSet_of (Changes batch).
Proof.
  intros svc w run.
  set (host := "name-k1-k1.kafka.example.org").
  set (batch := buildKafkaClusterCNAMESRecordBatch host "mk.c1.example.com"
                  "CREATE" (kafkaConfig svc)).
  set (batch' := buildKafkaClusterCNAMESRecordBatch host "mk.c1.example.com"
                   "DELETE" (kafkaConfig svc)).
  assert (Hcreate : In (EvChangeResourceRecordSets "kafka.example.org" batch)
                       (new_events w run.2)).
  { vm_compute. auto 10. }
  assert (Hdelete : In (EvChangeResourceRecordSets "kafka.example.org" batch')
                       (new_events run.2
                          (Delete Demo.deps svc run.1.1 run.2).2)).
  { vm_compute. auto 10. }
  exists "kafka.example.org", batch, batch'.
  split; [exact Hcreate|]. split; [exact Hdelete|].
  exact (proj2 (proj2 (Delete_addresses_created_records Demo.deps svc
                         (Demo.row "k1" "accepted" "u1" 5)
                         "kafka.example.org" "kafka.example.org"
                         batch batch' w run.2 Hcreate Hdelete))).
Defined.

(** ** Scoped fetch *)

Section Fetch.

Variable filterBy : Context -> bool.

Lemma Get_run (claims : Claims) (id : string) (w : World) :
  id <> "" -> username claims <> "" ->
  Get filterBy (Some claims) id w
  = ((if fault_at 0 w
      then (KafkaRequest_zero,
            Some (handleGetError ("KafkaResource for user " +:+ username claims)
                    "id" id (Err "store failure")))
      else match kafka_requests w !! id with
           | Some r =>
               if is_live r
                  && (if filterBy (Some claims)
                      then bool_decide (OrganisationId r = org_id claims)
                      else bool_decide (Owner r = username claims))
               then (r, None)
               else (KafkaRequest_zero,
                     Some (handleGetError
                             ("KafkaResource for user " +:+ username claims)
                             "id" id ErrRecordNotFound))
           | None =>
               (KafkaRequest_zero,
                Some (handleGetError
                        ("KafkaResource for user " +:+ username claims)
                        "id" id ErrRecordNotFound))
           end),
     sent (StFirst id) w).
Proof.
  intros Hid Huser. unfold Get.
  rewrite (bool_decide_eq_false_2 _ Hid). cbn [GetClaimsFromContext].
  unfold GetUsernameFromClaims, GetOrgIdFromClaims.
  rewrite (bool_decide_eq_false_2 _ Huser).
  unfold bind. rewrite gorm_First_run.
  destruct (fault_at 0 w); [reflexivity|].
  destruct (kafka_requests w !! id) as [r|]; [|reflexivity].
  destruct (filterBy (Some claims)); now destruct (is_live r && _).
Qed.

(** X22. A fetch that succeeds returns the record stored under the id,
    visible and within the caller's scope — the caller's organisation
    when the context asks to filter by organisation, the caller as owner
    otherwise — for a caller with a name; it changes no row, and the
    unscoped fetch of the same id gives the same record. *)
Theorem Get_scoped
    (ctx : Context) (id : string) (r : KafkaRequest) (w w' : World) :
  Get filterBy ctx id w = ((r, None), w') ->
  exists claims,
    ctx = Some claims /\ username claims <> "" /\ id <> ""
    /\ kafka_requests w !! id = Some r
    /\ DeletedAt r = None
    /\ in_scope filterBy claims r
    /\ kafka_requests w' = kafka_requests w
    /\ GetById id w = ((r, None), w').
Proof.
  intros Hrun.
  destruct (decide (id = "")) as [->|Hid]; [discriminate Hrun|].
  destruct ctx as [claims|];
    [|unfold Get in Hrun; rewrite (bool_decide_eq_false_2 _ Hid) in Hrun;
      discriminate Hrun].
  destruct (decide (username claims = "")) as [Huser|Huser].
  { unfold Get in Hrun. rewrite (bool_decide_eq_false_2 _ Hid) in Hrun.
    cbn [GetClaimsFromContext] in Hrun. unfold GetUsernameFromClaims in Hrun.
    rewrite (bool_decide_eq_true_2 _ Huser) in Hrun. discriminate Hrun. }
  rewrite (Get_run claims id w Hid Huser) in Hrun.
  exists claims. split; [reflexivity|]. split; [exact Huser|].
  split; [exact Hid|].
  destruct (fault_at 0 w) eqn:Hf; [discriminate Hrun|].
  destruct (kafka_requests w !! id) as [row|] eqn:Hrow; [|discriminate Hrun].
  destruct (is_live row) eqn:Hlive; [|discriminate Hrun]. cbn [andb] in Hrun.
  assert (Hdel : DeletedAt row = None).
  { unfold is_live in Hlive. now destruct (DeletedAt row). }
  unfold in_scope.
  destruct (filterBy (Some claims));
    match type of Hrun with context [bool_decide ?P] =>
      destruct (bool_decide_reflect P) as [Hscope|Hscope] end;
    try discriminate Hrun; injection Hrun as <- <-.
  all: split; [reflexivity|]; split; [exact Hdel|]; split; [exact Hscope|].
  all: split; [apply sent_frame|].
  all: exact (GetById_stored id row w Hid Hf Hrow Hdel).
Qed.

(** X23. A fetch outside the caller's scope fails before it tells
    anything: without an id the answer is a validation error, without
    claims or without a user name an unauthenticated error, and these
    three leave the world as it is; otherwise, when no visible record
    under the id is in the caller's scope, the answer is the error for a
    record that is not there (or for a failing store), the same whether
    a record of someone else exists or not.  No row changes. *)
Theorem Get_denied (ctx : Context) (id : string) (w : World) :
  (forall claims row,
      ctx = Some claims -> kafka_requests w !! id = Some row ->
      DeletedAt row = None -> ~ in_scope filterBy claims row) ->
  let run := Get filterBy ctx id w in
  run.1
  = (KafkaRequest_zero,
     Some (if bool_decide (id = "") then errors.Validation "id is undefined"
           else match ctx with
                | None =>
                    errors.NewWithCause ErrorUnauthenticated
                      "failed to get jwt token from context"
                      "user not authenticated"
                | Some claims =>
                    if bool_decide (username claims = "")
                    then errors.Unauthenticated "user not authenticated"
                    else handleGetError
                           ("KafkaResource for user " +:+ username claims)
                           "id" id
                           (if fault_at 0 w then Err "store failure"
                            else ErrRecordNotFound)
                end))
  /\ kafka_requests run.2 = kafka_requests w
  /\ (id = "" \/ username <$> ctx = None \/ username <$> ctx = Some "" ->
      run.2 = w).
Proof.
  intros Hscope. cbv zeta.
  destruct (decide (id = "")) as [->|Hid]; [cbn; auto|].
  rewrite (bool_decide_eq_false_2 (id = "")) by exact Hid.
  destruct ctx as [claims|];
    [|unfold Get; rewrite (bool_decide_eq_false_2 _ Hid); cbn; auto].
  destruct (decide (username claims = "")) as [Huser|Huser].
  { unfold Get. rewrite (bool_decide_eq_false_2 _ Hid).
    cbn [GetClaimsFromContext]. unfold GetUsernameFromClaims.
    rewrite (bool_decide_eq_true_2 _ Huser). cbn. auto. }
  rewrite (bool_decide_eq_false_2 (username claims = "")) by exact Huser.
  rewrite (Get_run claims id w Hid Huser). cbn [fst snd].
  split; [|split; [apply sent_frame|]].
  - destruct (fault_at 0 w); [reflexivity|].
    destruct (kafka_requests w !! id) as [row|] eqn:Hrow; [|reflexivity].
    unfold is_live. destruct (DeletedAt row) eqn:Hdel; [reflexivity|].
    specialize (Hscope claims row eq_refl eq_refl Hdel).
    unfold in_scope in Hscope. cbn [andb].
    destruct (filterBy (Some claims));
      now rewrite (bool_decide_eq_false_2 _ Hscope).
  - intros [Hempty | [Hnone | Hblank]];
      [now destruct Hid | discriminate Hnone |].
    cbn in Hblank. injection Hblank as Hblank. now destruct Huser.
Qed.

End Fetch.

Lemma Get_scoped_witness :
  let w := Demo.world [Demo.row "k1" "ready" "u1" 5] [] in
  let run := Get DemoQueries.filter_by_organisation
               (Some (mkClaims "u2" "org-1")) "k1" w in
  run.1 = (Demo.row "k1" "ready" "u1" 5, None)
  /\ exists claims,
       username claims = "u2"
       /\ in_scope DemoQueries.filter_by_organisation claims run.1.1.
Proof.
  intros w run.
  assert (Hrun : run = ((Demo.row "k1" "ready" "u1" 5, None), run.2))
    by (vm_compute; reflexivity).
  destruct (Get_scoped DemoQueries.filter_by_organisation _ "k1" _ w run.2 Hrun)
    as (claims & Hctx & _ & _ & _ & _ & Hscope & _).
  split; [vm_compute; reflexivity|].
  exists claims. injection Hctx as <-. split; [reflexivity|].
  rewrite Hrun. exact Hscope.
Defined.

Lemma Get_denied_witness :
  let w := Demo.world [Demo.row "k1" "ready" "u1" 5] [] in
  let foreign := Get DemoQueries.filter_by_owner
                   (Some (mkClaims "u2" "org-1")) "k1" w in
  let absent := Get DemoQueries.filter_by_owner
                  (Some (mkClaims "u2" "org-1")) "k1" (Demo.world [] []) in
  foreign.1 = absent.1 /\ Code <$> foreign.1.2 = Some ErrorNotFound.
Proof.
  intros w foreign absent.
  assert (Hscope : forall claims row,
             Some (mkClaims "u2" "org-1") = Some claims ->
             kafka_requests w !! "k1" = Some row ->
             DeletedAt row = None ->
             ~ in_scope DemoQueries.filter_by_owner claims row).
  { intros claims row [= <-] [= <-] _. discriminate. }
  destruct (Get_denied DemoQueries.filter_by_owner _ "k1" w Hscope)
    as (Hr & _).
  subst foreign absent. rewrite Hr. split; vm_compute; reflexivity.
Defined.

(** ** Row queries *)

Lemma elem_of_select_rows (cond : KafkaRequest -> bool)
    (t : gmap string KafkaRequest) (r : KafkaRequest) :
  r ∈ select_rows cond t
  <-> exists key, t !! key = Some r /\ DeletedAt r = None /\ cond r = true.
Proof.
  unfold select_rows. rewrite list_elem_of_fmap. split.
  - intros ([key r'] & -> & Hin). apply elem_of_map_to_list in Hin.
    apply map_lookup_filter_Some in Hin. destruct Hin as (Hrow & Hsel).
    cbn in Hsel. apply andb_true_iff in Hsel. destruct Hsel as (Hlive & Hc).
    exists key. split; [exact Hrow|]. split; [|exact Hc].
    unfold is_live in Hlive. cbn. now destruct (DeletedAt r').
  - intros (key & Hrow & Hdel & Hc). exists (key, r). split; [reflexivity|].
    apply elem_of_map_to_list, map_lookup_filter_Some. split; [exact Hrow|].
    cbn. unfold is_live. now rewrite Hdel, Hc.
Qed.

Lemma length_select_rows (cond : KafkaRequest -> bool)
    (t : gmap string KafkaRequest) :
  length (select_rows cond t) = selected_count (fun _ r => cond r) t.
Proof.
  unfold select_rows, selected_count.
  now rewrite length_fmap, length_map_to_list.
Qed.

Lemma gorm_Find_run (cond : KafkaRequest -> bool) (w : World) :
  gorm_Find cond w
  = ((if fault_at 0 w then ([], Some (Err "store failure"))
      else (select_rows cond (kafka_requests w), None)),
     queried w).
Proof. unfold gorm_Find, bind, db_query. now destruct (fault_at 0 w). Qed.

Lemma gorm_CountGroups_run (status : list KafkaStatus) (w : World) :
  gorm_CountGroups status w
  = ((if fault_at 0 w then ([], Some (Err "store failure"))
      else (omap (group_of (kafka_requests w)) (remove_dups status), None)),
     queried w).
Proof. unfold gorm_CountGroups, bind, db_query. now destruct (fault_at 0 w). Qed.

(** X24. With at least one status and a store that answers,
    [ListByStatus] returns the visible rows whose status is one of those
    given — each of them, one entry per row, and no other — and changes
    no row. *)
Theorem ListByStatus_members (status : list KafkaStatus) (w : World) :
  status <> [] -> fault_at 0 w = false ->
  let run := ListByStatus status w in
  run.1.2 = None
  /\ (forall r,
        r ∈ run.1.1
        <-> exists key,
              kafka_requests w !! key = Some r /\ DeletedAt r = None
              /\ Status r ∈ status)
  /\ length run.1.1
     = selected_count (fun _ r => is_in (Status r) status) (kafka_requests w)
  /\ kafka_requests run.2 = kafka_requests w.
Proof.
  intros Hne Hf. cbv zeta. unfold ListByStatus.
  destruct status as [|s status]; [now destruct Hne|].
  cbn [length Nat.eqb]. unfold bind, ret. rewrite gorm_Find_run, Hf.
  cbn [fst snd]. unfold KafkaStatus_String.
  rewrite map_id. split; [reflexivity|]. split; [|split; [|reflexivity]].
  - intros r. rewrite elem_of_select_rows. unfold is_in.
    split; intros (key & Hrow & Hdel & Hin); exists key;
      (split; [exact Hrow|]; split; [exact Hdel|]).
    + now apply bool_decide_eq_true_1 in Hin.
    + now apply bool_decide_eq_true_2.
  - apply length_select_rows.
Qed.

Lemma ListByStatus_members_witness :
  let w := Demo.world [Demo.row "k1" "ready" "u1" 5;
                       Demo.row "k2" "failed" "u2" 5] [] in
  let run := ListByStatus [KafkaRequestStatusReady] w in
  [KafkaRequestStatusReady] <> [] /\ fault_at 0 w = false
  /\ run.1.2 = None /\ length run.1.1 = 1%nat.
Proof.
  intros w run.
  assert (Hne : [KafkaRequestStatusReady] <> []) by discriminate.
  assert (Hf : fault_at 0 w = false) by reflexivity.
  destruct (ListByStatus_members [KafkaRequestStatusReady] w Hne Hf)
    as (Herr & _ & Hlen & _).
  split; [exact Hne|]. split; [exact Hf|]. split; [exact Herr|].
  subst run. rewrite Hlen. vm_compute. reflexivity.
Defined.

(** ** Counts by status *)

Lemma counters_lookup (results : list KafkaStatusCount.t) (m : gmap string Z)
    (s : string) :
  fold_left
    (fun m r => <[KafkaStatusCount.Status r := KafkaStatusCount.Count r]> m)
    results m !! s = None
  <-> ~ In s (map KafkaStatusCount.Status results) /\ m !! s = None.
Proof.
  revert m. induction results as [|r results IH]; intros m; cbn [fold_left map In].
  - tauto.
  - rewrite IH, lookup_insert_None. intuition congruence.
Qed.

Lemma fill_missing_counts (m : gmap string Z) (status : list KafkaStatus)
    (results : list KafkaStatusCount.t) :
  fold_left
    (fun results s =>
       match m !! s with
       | Some _ => results
       | None => results ++ [KafkaStatusCount.mk s 0]
       end)
    status results
  = results
      ++ map (fun s => KafkaStatusCount.mk s 0)
           (List.filter
              (fun s => match m !! s with Some _ => false | None => true end)
              status).
Proof.
  revert results. induction status as [|s status IH]; intros results;
    cbn [fold_left List.filter map].
  - now rewrite app_nil_r.
  - rewrite IH. destruct (m !! s); [reflexivity|].
    cbn [map]. now rewrite <- app_assoc.
Qed.

Lemma group_statuses (t : gmap string KafkaRequest) (l : list KafkaStatus) :
  map KafkaStatusCount.Status (omap (group_of t) l)
  = List.filter (fun s => (0 <? count_status s t)%nat) l.
Proof.
  induction l as [|s l IH]; [reflexivity|].
  cbn [omap list_omap List.filter]. unfold group_of at 1. cbv zeta.
  destruct (0 <? count_status s t)%nat; cbn [map]; now rewrite IH.
Qed.

Lemma remove_dups_NoDup {A : Type} `{EqDecision A} (l : list A) :
  NoDup l -> remove_dups l = l.
Proof.
  induction 1 as [|x l Hx _ IH]; [reflexivity|].
  cbn [remove_dups]. destruct (decide_rel _ x l) as [Hin|_];
    [now destruct Hx|]. now rewrite IH.
Qed.

Lemma filter_split {A : Type} (f : A -> bool) (l : list A) :
  List.filter f l ++ List.filter (fun x => negb (f x)) l ≡ₚ l.
Proof.
  induction l as [|x l IH]; [reflexivity|].
  cbn [List.filter]. destruct (f x); cbn [negb app].
  - now rewrite IH.
  - rewrite <- Permutation_middle. now rewrite IH.
Qed.

(** What [CountByStatus] returns on a store that answers: the groups of
    the query, then a zero count for every given status without one. *)
Lemma CountByStatus_run (status : list KafkaStatus) (w : World) :
  fault_at 0 w = false ->
  CountByStatus status w
  = ((omap (group_of (kafka_requests w)) (remove_dups status)
        ++ map (fun s => KafkaStatusCount.mk s 0)
             (List.filter
                (fun s => negb (0 <? count_status s (kafka_requests w))%nat)
                status),
      None),
     queried w).
Proof.
  intros Hf. unfold CountByStatus, bind, ret.
  rewrite gorm_CountGroups_run, Hf.
  destruct status as [|s0 status]; [reflexivity|].
  set (l := s0 :: status).
  replace (0 <? length l)%nat with true by reflexivity.
  rewrite fill_missing_counts. do 2 f_equal. f_equal. f_equal.
  apply filter_ext_in. intros s Hin.
  destruct (fold_left _ _ _ !! s) as [c|] eqn:Hc.
  - destruct (0 <? count_status s (kafka_requests w))%nat eqn:Hn;
      [reflexivity|].
    assert (Hnone : fold_left
              (fun m r =>
                 <[KafkaStatusCount.Status r := KafkaStatusCount.Count r]> m)
              (omap (group_of (kafka_requests w)) (remove_dups l))
              (∅ : gmap string Z) !! s = None).
    { apply counters_lookup. split; [|apply lookup_empty].
      rewrite group_statuses, filter_In. intros (_ & Hpos). congruence. }
    congruence.
  - apply counters_lookup in Hc. destruct Hc as (Hout & _).
    rewrite group_statuses, filter_In in Hout.
    destruct (0 <? count_status s (kafka_requests w))%nat; [|reflexivity].
    destruct Hout. split; [|reflexivity].
    apply list_elem_of_In, elem_of_remove_dups, list_elem_of_In, Hin.
Qed.

(** X25. On a store that answers, [CountByStatus] returns exactly the
    given statuses with the number of visible rows in each: an entry is
    in the result if and only if its status is one of those given and
    its count is the number of visible rows in that status — zero when
    there is none.  No row changes. *)
Theorem CountByStatus_complete
    (status : list KafkaStatus) (r : KafkaStatusCount.t) (w : World) :
  fault_at 0 w = false ->
  let run := CountByStatus status w in
  run.1.2 = None
  /\ (In r run.1.1
      <-> In (KafkaStatusCount.Status r) status
          /\ KafkaStatusCount.Count r
             = Z.of_nat (count_status (KafkaStatusCount.Status r)
                           (kafka_requests w)))
  /\ kafka_requests run.2 = kafka_requests w.
Proof.
  intros Hf. cbv zeta. rewrite (CountByStatus_run status w Hf). cbn [fst snd].
  split; [reflexivity|]. split; [|reflexivity].
  rewrite in_app_iff, in_map_iff, <- list_elem_of_In, list_elem_of_omap.
  destruct r as [s c]. cbn [KafkaStatusCount.Status KafkaStatusCount.Count].
  split.
  - intros [(s' & Hin & Hgroup) | (s' & Heq & Hin)].
    + unfold group_of in Hgroup. cbv zeta in Hgroup.
      destruct (0 <? count_status s' (kafka_requests w))%nat;
        [|discriminate Hgroup].
      injection Hgroup as <- <-.
      split; [|reflexivity].
      apply list_elem_of_In. exact (proj1 (elem_of_remove_dups _ _) Hin).
    + injection Heq as <- <-. apply filter_In in Hin.
      destruct Hin as (Hin & Hzero). split; [exact Hin|].
      apply negb_true_iff, Nat.ltb_ge in Hzero. lia.
  - intros (Hin & ->).
    destruct (0 <? count_status s (kafka_requests w))%nat eqn:Hpos.
    + left. exists s. split.
      * apply elem_of_remove_dups, list_elem_of_In, Hin.
      * unfold group_of. cbv zeta. now rewrite Hpos.
    + right. exists s. split.
      * f_equal. apply Nat.ltb_ge in Hpos. lia.
      * apply filter_In. split; [exact Hin|]. now rewrite Hpos.
Qed.

Lemma CountByStatus_complete_witness :
  let w := Demo.world [Demo.row "k1" "ready" "u1" 5;
                       Demo.row "k2" "ready" "u2" 5] [] in
  let run := CountByStatus [KafkaRequestStatusReady; KafkaRequestStatusFailed] w in
  In (KafkaStatusCount.mk KafkaRequestStatusReady 2) run.1.1
  /\ In (KafkaStatusCount.mk KafkaRequestStatusFailed 0) run.1.1.
Proof.
  intros w run.
  assert (Hf : fault_at 0 w = false) by reflexivity.
  split.
  - apply (CountByStatus_complete
             [KafkaRequestStatusReady; KafkaRequestStatusFailed]
             (KafkaStatusCount.mk KafkaRequestStatusReady 2) w Hf).
    split; [cbn; auto | vm_compute; reflexivity].
  - apply (CountByStatus_complete
             [KafkaRequestStatusReady; KafkaRequestStatusFailed]
             (KafkaStatusCount.mk KafkaRequestStatusFailed 0) w Hf).
    split; [cbn; auto | vm_compute; reflexivity].
Defined.

(** X26. Given statuses that are pairwise distinct, [CountByStatus]
    answers with one entry for each of them: the statuses of the result
    are those given, up to their order. *)
Theorem CountByStatus_distinct (status : list KafkaStatus) (w : World) :
  NoDup status -> fault_at 0 w = false ->
  map KafkaStatusCount.Status (CountByStatus status w).1.1 ≡ₚ status.
Proof.
  intros Hnodup Hf. rewrite (CountByStatus_run status w Hf). cbn [fst snd].
  rewrite (remove_dups_NoDup status Hnodup), map_app, group_statuses, map_map.
  cbn [KafkaStatusCount.Status]. rewrite map_id. apply filter_split.
Qed.

Lemma CountByStatus_distinct_witness :
  let w := Demo.world [Demo.row "k1" "ready" "u1" 5] [] in
  length (CountByStatus [KafkaRequestStatusReady; KafkaRequestStatusFailed] w).1.1
  = 2%nat.
Proof.
  intros w.
  assert (Hnodup : NoDup [KafkaRequestStatusReady; KafkaRequestStatusFailed]).
  { apply NoDup_cons. split; [|apply NoDup_singleton].
    intros Hin. apply list_elem_of_In in Hin. cbn in Hin.
    destruct Hin as [Heq|[]]. discriminate Heq. }
  pose proof (CountByStatus_distinct
                [KafkaRequestStatusReady; KafkaRequestStatusFailed] w Hnodup
                eq_refl) as Hperm.
  apply Permutation_length in Hperm. rewrite length_map in Hperm. exact Hperm.
Defined.

(** ** Deployment descriptors *)

Section Descriptors.

Variable k : kafkaService.
Variable kafkaDescriptor : KafkaConfig -> KafkaDescriptorConfig.
Variable keycloakDescriptor : KeycloakConfig -> KeycloakDescriptorConfig.
Variable BuildNamespaceName : KafkaRequest -> string * option error.
Variable BuildCustomClaimCheck : KafkaRequest -> string.

Lemma managed_cond_spec (clusterID : string) (r : KafkaRequest) :
  managed_cond k clusterID r = true
  <-> ClusterID r = clusterID
      /\ Status r ∈ kafkaManagedCRStatuses
      /\ BootstrapServerHost r <> ""
      /\ (EnableAuthenticationOnKafka (GetConfig (keycloakService k)) = true ->
          SsoClientID r <> "" /\ SsoClientSecret r <> "").
Proof.
  unfold managed_cond, is_in.
  rewrite !andb_true_iff, !bool_decide_eq_true, negb_true_iff,
    bool_decide_eq_false.
  destruct (EnableAuthenticationOnKafka (GetConfig (keycloakService k))).
  - rewrite andb_true_iff, !negb_true_iff, !bool_decide_eq_false. tauto.
  - intuition discriminate.
Qed.

Lemma GetManagedKafkaByClusterID_run (clusterID : string) (w : World) :
  GetManagedKafkaByClusterID k kafkaDescriptor keycloakDescriptor
    BuildNamespaceName BuildCustomClaimCheck clusterID w
  = ((if fault_at 0 w
      then ([], Some (errors.NewWithCause ErrorGeneral "store failure"
                        "unable to list kafka requests"))
      else (map (fun r =>
                   BuildManagedKafkaCR kafkaDescriptor keycloakDescriptor
                     BuildCustomClaimCheck r (kafkaConfig k)
                     (GetConfig (keycloakService k)) (BuildNamespaceName r).1)
              (select_rows (managed_cond k clusterID) (kafka_requests w)),
            None)),
     queried w).
Proof.
  unfold GetManagedKafkaByClusterID, bind, ret. rewrite gorm_Find_run.
  destruct (fault_at 0 w); [reflexivity|]. do 2 f_equal.
  apply map_ext. intros r. now destruct (BuildNamespaceName r).
Qed.

(** X27. On a store that answers, [GetManagedKafkaByClusterID] returns
    the descriptors of exactly the visible rows that are placed on the
    cluster, are in status provisioning, deprovision, ready or failed,
    have a bootstrap host and, when authentication is on, both
    credentials of the identity client; one descriptor per such row.  No
    row changes. *)
Theorem GetManagedKafkaByClusterID_exposure
    (clusterID : string) (cr : managedkafka.ManagedKafka) (w : World) :
  fault_at 0 w = false ->
  let run := GetManagedKafkaByClusterID k kafkaDescriptor keycloakDescriptor
               BuildNamespaceName BuildCustomClaimCheck clusterID w in
  run.1.2 = None
  /\ (In cr run.1.1
      <-> exists key r,
            kafka_requests w !! key = Some r /\ DeletedAt r = None
            /\ ClusterID r = clusterID
            /\ Status r ∈ kafkaManagedCRStatuses
            /\ BootstrapServerHost r <> ""
            /\ (EnableAuthenticationOnKafka (GetConfig (keycloakService k))
                = true -> SsoClientID r <> "" /\ SsoClientSecret r <> "")
            /\ cr = BuildManagedKafkaCR kafkaDescriptor keycloakDescriptor
                      BuildCustomClaimCheck r (kafkaConfig k)
                      (GetConfig (keycloakService k)) (BuildNamespaceName r).1)
  /\ length run.1.1
     = selected_count (fun _ r => managed_cond k clusterID r) (kafka_requests w)
  /\ kafka_requests run.2 = kafka_requests w.
Proof.
  intros Hf. cbv zeta. rewrite GetManagedKafkaByClusterID_run, Hf.
  cbn [fst snd]. split; [reflexivity|]. split; [|split; [|reflexivity]].
  - rewrite in_map_iff. split.
    + intros (r & <- & Hin).
      apply list_elem_of_In, elem_of_select_rows in Hin.
      destruct Hin as (key & Hrow & Hdel & Hcond).
      apply managed_cond_spec in Hcond.
      destruct Hcond as (Hc & Hs & Hh & Hsso).
      exists key, r. repeat (split; [assumption|]). reflexivity.
    + intros (key & r & Hrow & Hdel & Hc & Hs & Hh & Hsso & ->).
      exists r. split; [reflexivity|].
      apply list_elem_of_In, elem_of_select_rows. exists key.
      split; [exact Hrow|]. split; [exact Hdel|].
      apply managed_cond_spec. auto.
  - rewrite length_map. apply length_select_rows.
Qed.

(** X28. Every descriptor that [GetManagedKafkaByClusterID] returns is
    that of a stored row: it carries the row's id and its bootstrap host,
    which is not empty; it is flagged as deleted exactly when the row is
    in deprovision, and otherwise the row is provisioning, ready or
    failed; its OAuth part holds the row's credentials, both not empty,
    when authentication is on, and is left empty when it is off. *)
Theorem GetManagedKafkaByClusterID_descriptor
    (clusterID : string) (cr : managedkafka.ManagedKafka) (w : World) :
  fault_at 0 w = false ->
  In cr (GetManagedKafkaByClusterID k kafkaDescriptor keycloakDescriptor
           BuildNamespaceName BuildCustomClaimCheck clusterID w).1.1 ->
  exists key r,
    kafka_requests w !! key = Some r
    /\ managedkafka.Id cr = ID r
    /\ managedkafka.BootstrapServerHost
         (managedkafka.Endpoint (managedkafka.Spec cr))
       = BootstrapServerHost r
    /\ BootstrapServerHost r <> ""
    /\ (managedkafka.Deleted (managedkafka.Spec cr) = true
        <-> Status r = KafkaStatus_String KafkaRequestStatusDeprovision)
    /\ (managedkafka.Deleted (managedkafka.Spec cr) = false ->
        Status r ∈ [KafkaStatus_String KafkaRequestStatusProvisioning;
                    KafkaStatus_String KafkaRequestStatusReady;
                    KafkaStatus_String KafkaRequestStatusFailed])
    /\ (if EnableAuthenticationOnKafka (GetConfig (keycloakService k))
        then managedkafka.ClientId (managedkafka.OAuth (managedkafka.Spec cr))
             = SsoClientID r
             /\ managedkafka.ClientSecret
                  (managedkafka.OAuth (managedkafka.Spec cr))
                = SsoClientSecret r
             /\ SsoClientID r <> "" /\ SsoClientSecret r <> ""
        else managedkafka.OAuth (managedkafka.Spec cr)
             = managedkafka.OAuthSpec_zero).
Proof.
  intros Hf. rewrite GetManagedKafkaByClusterID_run, Hf. cbn [fst snd].
  rewrite in_map_iff. intros (r & <- & Hin).
  apply list_elem_of_In, elem_of_select_rows in Hin.
  destruct Hin as (key & Hrow & Hdel & Hcond).
  apply managed_cond_spec in Hcond. destruct Hcond as (Hc & Hs & Hh & Hsso).
  exists key, r. split; [exact Hrow|].
  unfold BuildManagedKafkaCR.
  destruct (EnableAuthenticationOnKafka (GetConfig (keycloakService k)));
    cbn -[bool_decide KafkaStatus_String].
  all: split; [reflexivity|]; split; [reflexivity|]; split; [exact Hh|].
  all: split; [apply bool_decide_eq_true|].
  all: split;
    [intros Hnot; apply bool_decide_eq_false in Hnot;
     unfold kafkaManagedCRStatuses in Hs;
     rewrite !elem_of_cons in Hs; rewrite !elem_of_cons; tauto|].
  - destruct (Hsso eq_refl) as (Hi & Hsec). auto.
  - reflexivity.
Qed.


End Descriptors.

Lemma GetManagedKafkaByClusterID_exposure_witness :
  let w := Demo.world
             [set_BootstrapServerHost "k1.kafka.example.org"
                (Demo.row "k1" "deprovision" "u1" 5);
              set_BootstrapServerHost "k2.kafka.example.org"
                (Demo.row "k2" "deleting" "u2" 5);
              Demo.row "k3" "ready" "u3" 5] [] in
  fault_at 0 w = false
  /\ length (GetManagedKafkaByClusterID Demo.svc DemoQueries.kafkaDescriptor
               DemoQueries.keycloakDescriptor DemoQueries.BuildNamespaceName
               DemoQueries.BuildCustomClaimCheck "c1" w).1.1 = 1%nat.
Proof.
  intros w.
  assert (Hf : fault_at 0 w = false) by reflexivity.
  split; [exact Hf|].
  destruct (GetManagedKafkaByClusterID_exposure Demo.svc
              DemoQueries.kafkaDescriptor DemoQueries.keycloakDescriptor
              DemoQueries.BuildNamespaceName
              DemoQueries.BuildCustomClaimCheck "c1"
              (BuildManagedKafkaCR DemoQueries.kafkaDescriptor
                 DemoQueries.keycloakDescriptor
                 DemoQueries.BuildCustomClaimCheck
                 (Demo.row "k1" "deprovision" "u1" 5) Demo.cfg
                 (mkKeycloakConfig false) "u1-k1")
              w Hf) as (_ & _ & Hlen & _).
  rewrite Hlen. vm_compute. reflexivity.
Defined.

Lemma GetManagedKafkaByClusterID_descriptor_witness :
  let row := set_BootstrapServerHost "k1.kafka.example.org"
               (Demo.row "k1" "deprovision" "u1" 5) in
  let w := Demo.world [row; Demo.row "k3" "ready" "u3" 5] [] in
  let cr := BuildManagedKafkaCR DemoQueries.kafkaDescriptor
              DemoQueries.keycloakDescriptor DemoQueries.BuildCustomClaimCheck
              row Demo.cfg (mkKeycloakConfig false) "u1-k1" in
  In cr (GetManagedKafkaByClusterID Demo.svc DemoQueries.kafkaDescriptor
           DemoQueries.keycloakDescriptor DemoQueries.BuildNamespaceName
           DemoQueries.BuildCustomClaimCheck "c1" w).1.1
  /\ exists key r,
       kafka_requests w !! key = Some r /\ managedkafka.Id cr = ID r
       /\ (managedkafka.Deleted (managedkafka.Spec cr) = true
           <-> Status r = KafkaStatus_String KafkaRequestStatusDeprovision).
Proof.
  intros row w cr.
  assert (Hf : fault_at 0 w = false) by reflexivity.
  assert (Hin : In cr (GetManagedKafkaByClusterID Demo.svc
                         DemoQueries.kafkaDescriptor
                         DemoQueries.keycloakDescriptor
                         DemoQueries.BuildNamespaceName
                         DemoQueries.BuildCustomClaimCheck "c1" w).1.1).
  { vm_compute. left. reflexivity. }
  split; [exact Hin|].
  destruct (GetManagedKafkaByClusterID_descriptor Demo.svc
              DemoQueries.kafkaDescriptor DemoQueries.keycloakDescriptor
              DemoQueries.BuildNamespaceName
              DemoQueries.BuildCustomClaimCheck "c1" cr w Hf Hin)
    as (key & r & Hrow & Hid & _ & _ & Hdel & _).
  exists key, r. auto.
Defined.

